(** * sitewatch: the monitoring engine, embedded and verified

  A shallow embedding of the Go sources of the monitoring core:

  - [internal/services/ping/circuit_breaker_manager.go]  (module [Breaker])
  - [internal/models/types.go]                            (module [Models])
  - [internal/storage/memory.go]                          (module [Memory])
  - [internal/services/stats]                             (module [Stats])
  - [internal/services/ping/ping.go]                      (module [Ping])

  and, around them, the registry of breakers (module [Manager]), the probe
  executor of [ping.go] (module [Prober]), queries and queues of results
  (module [Pipeline]), what the aggregates count (module [Aggregate]), the
  chart buckets and the overview of the statistics engine (modules [Charts]
  and [Overview]), [models.APIToken] with [internal/services/auth] (module
  [Auth]) and start-up (module [Startup]).

  Go's [int]/[int64] are integers in [Z] reduced by [wrap64]; [float64] is
  the kernel's binary64 [float]; [time.Time] and [time.Duration] are
  nanosecond counts in [Z]; [map[string]*SiteStatus] is a [gmap]; a run-time
  panic is the [None] of an [option]. *)

From Stdlib Require Import ZArith Bool Lia Uint63 PrimFloat.
From stdpp Require Import base option list sorting gmap strings.

Local Open Scope Z_scope.

(** ** Go machine integers and time *)

Module GoInt.

Definition minInt64 : Z := - 2 ^ 63.
Definition maxInt64 : Z := 2 ^ 63 - 1.

(** Two's-complement reduction of an [int] (64 bits on the supported
    targets) after an arithmetic operation. *)
Definition wrap64 (z : Z) : Z := (z + 2 ^ 63) mod 2 ^ 64 - 2 ^ 63.

Definition in_int64 (z : Z) : Prop := minInt64 <= z <= maxInt64.

(** [time.Time.Sub]: the difference of two instants as a [Duration],
    saturating at the extreme durations. *)
Definition time_Sub (t u : Z) : Z :=
  Z.max minInt64 (Z.min maxInt64 (t - u)).

(** [time.Since(t)] evaluated when the clock reads [now]. *)
Definition time_Since (now t : Z) : Z := time_Sub now t.

(** The zero [time.Time] (January 1, year 1), in nanoseconds from the
    Unix epoch. *)
Definition zeroTime : Z := - 62135596800 * 10 ^ 9.

End GoInt.

(** ** The failure isolator: [CircuitBreaker] *)

Module Breaker.
Import GoInt.

Inductive CircuitBreakerState := StateClosed | StateHalfOpen | StateOpen.

#[export] Instance CircuitBreakerState_eq_dec : EqDecision CircuitBreakerState.
Proof. solve_decision. Defined.

Record CircuitBreaker := mkCircuitBreaker {
  name : string;
  maxFailures : Z;
  resetTimeout : Z;
  state : CircuitBreakerState;
  failures : Z;
  lastFailTime : Z;
  (** [onStateChange != nil] *)
  onStateChange : bool;
  (** the notifications [setState] has dispatched, oldest first *)
  dispatched : list (CircuitBreakerState * CircuitBreakerState)
}.

Definition NewCircuitBreaker (nm : string) (maxF : Z) (reset : Z) : CircuitBreaker :=
  {| name := nm; maxFailures := maxF; resetTimeout := reset;
     state := StateClosed; failures := 0; lastFailTime := zeroTime;
     onStateChange := false; dispatched := [] |}.

Definition SetOnStateChange (cb : CircuitBreaker) : CircuitBreaker :=
  {| name := name cb; maxFailures := maxFailures cb;
     resetTimeout := resetTimeout cb; state := state cb;
     failures := failures cb; lastFailTime := lastFailTime cb;
     onStateChange := true; dispatched := dispatched cb |}.

Definition setState (cb : CircuitBreaker) (newState : CircuitBreakerState) : CircuitBreaker :=
  let oldState := state cb in
  {| name := name cb; maxFailures := maxFailures cb;
     resetTimeout := resetTimeout cb; state := newState;
     failures := failures cb; lastFailTime := lastFailTime cb;
     onStateChange := onStateChange cb;
     dispatched :=
       if onStateChange cb && negb (bool_decide (oldState = newState))
       then dispatched cb ++ [(oldState, newState)]
       else dispatched cb |}.

Definition with_failures (cb : CircuitBreaker) (n : Z) : CircuitBreaker :=
  {| name := name cb; maxFailures := maxFailures cb;
     resetTimeout := resetTimeout cb; state := state cb;
     failures := n; lastFailTime := lastFailTime cb;
     onStateChange := onStateChange cb; dispatched := dispatched cb |}.

Definition with_lastFailTime (cb : CircuitBreaker) (t : Z) : CircuitBreaker :=
  {| name := name cb; maxFailures := maxFailures cb;
     resetTimeout := resetTimeout cb; state := state cb;
     failures := failures cb; lastFailTime := t;
     onStateChange := onStateChange cb; dispatched := dispatched cb |}.

(** The clock readings one [Call] may take: the two [time.Since] of
    [canExecute] and the [time.Now] of [recordFailure]. *)
Record Clock := mkClock { t_check : Z; t_recheck : Z; t_fail : Z }.

(** [canExecute], with the breaker it leaves behind (the Open case
    upgrades its lock and may move to Half-Open). *)
Definition canExecute (cb : CircuitBreaker) (clk : Clock) : bool * CircuitBreaker :=
  match state cb with
  | StateClosed => (true, cb)
  | StateOpen =>
      if resetTimeout cb <? time_Since (t_check clk) (lastFailTime cb) then
        let cb' :=
          if bool_decide (state cb = StateOpen)
             && (resetTimeout cb <? time_Since (t_recheck clk) (lastFailTime cb))
          then setState cb StateHalfOpen else cb in
        (bool_decide (state cb' = StateHalfOpen), cb')
      else (false, cb)
  | StateHalfOpen => (true, cb)
  end.

Definition recordFailure (cb : CircuitBreaker) (now : Z) : CircuitBreaker :=
  let cb1 := with_lastFailTime (with_failures cb (wrap64 (failures cb + 1))) now in
  match state cb1 with
  | StateClosed =>
      if maxFailures cb1 <=? failures cb1 then setState cb1 StateOpen else cb1
  | StateHalfOpen => setState cb1 StateOpen
  | StateOpen => cb1
  end.

Definition recordSuccess (cb : CircuitBreaker) : CircuitBreaker :=
  match state cb with
  | StateHalfOpen => with_failures (setState cb StateClosed) 0
  | StateClosed => if 0 <? failures cb then with_failures cb 0 else cb
  | StateOpen => cb
  end.

Definition getStateString (cb : CircuitBreaker) : string :=
  match state cb with
  | StateClosed => "closed"
  | StateHalfOpen => "half-open"
  | StateOpen => "open"
  end.

(** What [Call] returns: [nil], the probe's own error, or the
    [*CircuitBreakerError] built when the call is blocked. *)
Inductive CallResult (E : Type) :=
| Nil
| ProbeError (e : E)
| CircuitBreakerError (Name State : string).
Arguments Nil {E}.
Arguments ProbeError {E} e.
Arguments CircuitBreakerError {E} Name State.

Section Call.
(** The probe [fn func() error] acts on whatever it closes over, the
    world [W]; it returns [None] for a nil error. *)
Context {W E : Type}.

Definition Call (cb : CircuitBreaker) (clk : Clock) (fn : W -> option E * W) (w : W)
  : CallResult E * CircuitBreaker * W :=
  let '(ok, cb1) := canExecute cb clk in
  if negb ok then
    (CircuitBreakerError (name cb1) (getStateString cb1), cb1, w)
  else
    let '(err, w') := fn w in
    match err with
    | Some e => (ProbeError e, recordFailure cb1 (t_fail clk), w')
    | None => (Nil, recordSuccess cb1, w')
    end.

(** A sequence of calls on one breaker, each with its clock readings
    and its probe. *)
Fixpoint run (cb : CircuitBreaker) (w : W) (calls : list (Clock * (W -> option E * W)))
  : list (CallResult E) * CircuitBreaker * W :=
  match calls with
  | [] => ([], cb, w)
  | (clk, fn) :: rest =>
      let '(r, cb1, w1) := Call cb clk fn w in
      let '(rs, cb2, w2) := run cb1 w1 rest in
      (r :: rs, cb2, w2)
  end.
(** The result [Call] hands back for what the probe returned. *)
Definition resultOf (err : option E) : CallResult E :=
  match err with Some e => ProbeError e | None => Nil end.

(** The probe fails in every world. *)
Definition failing (fn : W -> option E * W) : Prop := forall w, is_Some (fst (fn w)).


(** Between calls the breaker is Open, or Closed with fewer failures than
    the threshold. *)
Definition settled (cb : CircuitBreaker) : Prop :=
  state cb = StateOpen
  \/ (state cb = StateClosed /\ 0 <= failures cb < maxFailures cb).

End Call.

(** A probe on the world of a counter of its runs: it fails while [down]
    and counts every run. *)
Definition countingProbe (down : bool) (runs : nat) : option string * nat :=
  (if down then Some "no packets received"%string else None, Datatypes.S runs).

Definition sampleClock (t : Z) : Clock := {| t_check := t; t_recheck := t; t_fail := t |}.

(** Three failing probes, at seconds 0, 30 and 60. *)
Definition threeFailures : list (Clock * (nat -> option string * nat)) :=
  [ (sampleClock 0, countingProbe true);
    (sampleClock (30 * 10 ^ 9), countingProbe true);
    (sampleClock (60 * 10 ^ 9), countingProbe true) ].


End Breaker.

(** ** [internal/models/types.go] *)

Module Models.

(** Go's [error] interface as far as the modelled code inspects it: [nil]
    or a message. *)
Definition error := option string.

(** [float64(n)] for an [int] [n]. *)
Definition float64_of_int (n : Z) : float :=
  if n <? 0 then PrimFloat.opp (PrimFloat.of_uint63 (Uint63.of_Z (- n)))
  else PrimFloat.of_uint63 (Uint63.of_Z n).

Module Site.
(** The SLA block and the provider names are configuration the monitoring
    engine never reads; they are left out. *)
Record t := mk {
  ID : string;
  Name : string;
  Location : string;
  PrimaryIP : string;
  SecondaryIP : string;
  Interval : Z;
  Enabled : bool
}.

Definition IsDualLine (s : t) : bool := negb (String.eqb (SecondaryIP s) "").
End Site.

Module SiteStatus.
Record t := mk {
  SiteID : string;
  PrimaryOnline : bool;
  SecondaryOnline : bool;
  BothOnline : bool;
  PrimaryLatency : option float;
  SecondaryLatency : option float;
  LastCheck : Z;
  PrimaryError : string;
  SecondaryError : string
}.
End SiteStatus.

Module PingLog.
Record t := mk {
  ID : Z;
  Timestamp : Z;
  SiteID : string;
  SiteName : string;
  Target : string;
  IP : string;
  Success : bool;
  Latency : option float;
  Error : string;
  PacketsSent : Z;
  PacketsRecv : Z;
  PacketsDuplicates : Z;
  PacketLoss : option float;
  MinLatency : option float;
  MaxLatency : option float;
  Jitter : option float
}.

(** [log.ID = id] on the by-value copy a method receives. *)
Definition with_ID (log : t) (id : Z) : t :=
  {| ID := id; Timestamp := Timestamp log; SiteID := SiteID log;
     SiteName := SiteName log; Target := Target log; IP := IP log;
     Success := Success log; Latency := Latency log; Error := Error log;
     PacketsSent := PacketsSent log; PacketsRecv := PacketsRecv log;
     PacketsDuplicates := PacketsDuplicates log; PacketLoss := PacketLoss log;
     MinLatency := MinLatency log; MaxLatency := MaxLatency log;
     Jitter := Jitter log |}.
End PingLog.

Module PingResult.
Record t := mk {
  SiteID : string;
  IP : string;
  LineType : string;
  Success : bool;
  Latency : option float;
  Error : string;
  Timestamp : Z;
  PacketsSent : Z;
  PacketsRecv : Z;
  PacketsDuplicates : Z;
  PacketLoss : option float;
  MinLatency : option float;
  MaxLatency : option float;
  Jitter : option float
}.
End PingResult.

Module RecentEvent.
Record t := mk {
  Timestamp : Z;
  Status : string;
  Message : string;
  SiteID : string;
  Target : string;
  IsOutage : bool
}.
End RecentEvent.

End Models.

(** ** [internal/storage/memory.go]: the ring-buffer log store *)

Module Memory.
Import GoInt Models.

Record MemoryStorage := mkMemoryStorage {
  logs : list PingLog.t;
  maxLogs : Z;
  logCounter : Z
}.

Definition NewMemoryStorage (maxLogs : Z) : MemoryStorage :=
  let maxLogs := if maxLogs <=? 0 then 1000 else maxLogs in
  {| logs := []; maxLogs := maxLogs; logCounter := 0 |}.

(** [AddPingLog]: the store it leaves and the error it returns (always
    [nil]); [None] is the slice-bounds panic of [m.logs[1:]] on an empty
    slice. *)
Definition AddPingLog (m : MemoryStorage) (log : PingLog.t)
  : option (MemoryStorage * error) :=
  let counter := wrap64 (logCounter m + 1) in
  let log := PingLog.with_ID log counter in
  if maxLogs m <=? Z.of_nat (length (logs m)) then
    match logs m with
    | [] => None
    | _ :: rest =>
        Some ({| logs := rest ++ [log]; maxLogs := maxLogs m;
                 logCounter := counter |}, None)
    end
  else
    Some ({| logs := logs m ++ [log]; maxLogs := maxLogs m;
             logCounter := counter |}, None).

(** The two [continue] guards of the filtering loop. *)
Definition skipped (siteID : string) (success : option bool) (log : PingLog.t) : bool :=
  (negb (String.eqb siteID "") && negb (String.eqb (PingLog.SiteID log) siteID))
  || match success with
     | Some b => negb (Bool.eqb (PingLog.Success log) b)
     | None => false
     end.

(** The loop [for i := len(m.logs) - 1; i >= 0; i--] over the entries
    still to visit (newest first), with the slice [filtered] built so far. *)
Fixpoint filterLoop (siteID : string) (success : option bool) (limit : Z)
    (todo filtered : list PingLog.t) : list PingLog.t :=
  match todo with
  | [] => filtered
  | log :: todo' =>
      if skipped siteID success log then
        filterLoop siteID success limit todo' filtered
      else
        let filtered := filtered ++ [log] in
        if (0 <? limit) && (limit <=? Z.of_nat (length filtered)) then filtered
        else filterLoop siteID success limit todo' filtered
  end.

Definition GetFilteredLogs (m : MemoryStorage) (siteID : string)
    (success : option bool) (limit : Z) : list PingLog.t * error :=
  (filterLoop siteID success limit (reverse (logs m)) [], None).

Definition GetAllLogs (m : MemoryStorage) : list PingLog.t * error :=
  (logs m, None).

(** Appending a batch of entries in order; [None] as soon as one append
    panics. *)
Fixpoint AddPingLogs (m : MemoryStorage) (batch : list PingLog.t) : option MemoryStorage :=
  match batch with
  | [] => Some m
  | log :: batch' =>
      match AddPingLog m log with
      | Some (m', _) => AddPingLogs m' batch'
      | None => None
      end
  end.

(** The last [cap] elements of a list. *)
Definition keepLast {A} (cap : nat) (l : list A) : list A :=
  drop (length l - cap) l.

(** The entries of a batch with the identifiers successive appends give
    them, the counter standing at [counter] before the first. *)
Fixpoint stamp (counter : Z) (batch : list PingLog.t) : list PingLog.t :=
  match batch with
  | [] => []
  | log :: batch' =>
      PingLog.with_ID log (wrap64 (counter + 1)) :: stamp (wrap64 (counter + 1)) batch'
  end.

(** What [NewMemoryStorage] establishes and [AddPingLog] maintains. *)
Definition bounded (m : MemoryStorage) : Prop :=
  1 <= maxLogs m /\ Z.of_nat (length (logs m)) <= maxLogs m.

(** The entries that pass both filters, in the order visited. *)
Definition matching (siteID : string) (success : option bool)
    (todo : list PingLog.t) : list PingLog.t :=
  List.filter (fun log => negb (skipped siteID success log)) todo.

(** The first [limit] entries when the limit applies, all of them
    otherwise. *)
Definition limited {A} (limit : Z) (applies : bool) (l : list A) : list A :=
  if applies then take (Z.to_nat limit) l else l.

(** Entries in the order of their time stamps, oldest first, and newest
    first. *)
Definition chronological (l : list PingLog.t) : Prop :=
  StronglySorted (fun a b => PingLog.Timestamp a <= PingLog.Timestamp b) l.

Definition newestFirst (l : list PingLog.t) : Prop :=
  StronglySorted (fun a b => PingLog.Timestamp b <= PingLog.Timestamp a) l.

(** The [i]-th probe of a site "s1": a primary-line success at second [i]
    with a latency of [i] milliseconds. *)
Definition sampleLog (i : nat) : PingLog.t :=
  {| PingLog.ID := 0; PingLog.Timestamp := Z.of_nat i;
     PingLog.SiteID := "s1"; PingLog.SiteName := "Site 1";
     PingLog.Target := "primary"; PingLog.IP := "192.0.2.1";
     PingLog.Success := true;
     PingLog.Latency := Some (PrimFloat.of_uint63 (Uint63.of_Z (Z.of_nat i)));
     PingLog.Error := "";
     PingLog.PacketsSent := 3; PingLog.PacketsRecv := 3;
     PingLog.PacketsDuplicates := 0; PingLog.PacketLoss := Some 0%float;
     PingLog.MinLatency := None; PingLog.MaxLatency := None;
     PingLog.Jitter := None |}.

(** A store of capacity 2 holding the first two sample probes. *)
Definition fullStore : MemoryStorage :=
  {| logs := [PingLog.with_ID (sampleLog 1) 1; PingLog.with_ID (sampleLog 2) 2];
     maxLogs := 2; logCounter := 2 |}.

End Memory.

(** ** [internal/storage/interface.go] and [internal/config]: the
    process-wide state *)

Module Config.
Import Models.

(** The [Storage] interface a log-store backend implements. A method
    returns [None] when it panics. *)
Class Storage (S : Type) := {
  AddPingLog : S -> PingLog.t -> option (S * error);
  GetFilteredLogs : S -> string -> option bool -> Z -> list PingLog.t * error;
  GetAllLogs : S -> list PingLog.t * error
}.

#[export] Instance MemoryStorage_Storage : Storage Memory.MemoryStorage := {|
  AddPingLog := Memory.AddPingLog;
  GetFilteredLogs := Memory.GetFilteredLogs;
  GetAllLogs := Memory.GetAllLogs
|}.

(** One update of a Prometheus collector, in the order issued. *)
Inductive MetricOp :=
| PingChecksTotal_Inc (site line success : string)
| PacketsSentCounter_Add (site line : string) (v : float)
| PacketsReceivedCounter_Add (site line : string) (v : float)
| PacketsDuplicatesCounter_Add (site line : string) (v : float)
| PacketLossGauge_Set (site line : string) (v : float)
| PingLatencyHistogram_Observe (site line : string) (v : float)
| JitterHistogram_Observe (site line : string) (v : float)
| SiteStatusGauge_Set (site line : string) (v : float)
| SiteBothOnlineGauge_Set (site : string) (v : float).

(** [AppState], with the package-level collectors as the trace [Metrics]
    of the updates made so far. *)
Record AppState (S : Type) := mkAppState {
  Sites : list Site.t;
  SiteStatus : gmap string SiteStatus.t;
  Storage_ : S;
  TotalChecks : Z;
  Metrics : list MetricOp
}.
Arguments mkAppState {S}.
Arguments Sites {S}.
Arguments SiteStatus {S}.
Arguments Storage_ {S}.
Arguments TotalChecks {S}.
Arguments Metrics {S}.

(** One iteration of the loop of [InitializeSiteStatus] over [app.Sites],
    the clock reading [now]; the gauges it presets are not traced. *)
Definition initSite (now : Z) (statuses : gmap string SiteStatus.t) (site : Site.t)
  : gmap string SiteStatus.t :=
  <[Site.ID site :=
      {| SiteStatus.SiteID := Site.ID site;
         SiteStatus.PrimaryOnline := false;
         SiteStatus.SecondaryOnline := false;
         SiteStatus.BothOnline := false;
         SiteStatus.PrimaryLatency := None;
         SiteStatus.SecondaryLatency := None;
         SiteStatus.LastCheck := now;
         SiteStatus.PrimaryError := "";
         SiteStatus.SecondaryError := "" |}]> statuses.

(** The loop of [InitializeSiteStatus] from its [i]-th iteration on:
    every iteration reads the clock anew, [clock k] being what [time.Now()]
    returns in iteration [k]. *)
Fixpoint initSites (clock : nat -> Z) (i : nat) (sites : list Site.t)
    (statuses : gmap string SiteStatus.t) : gmap string SiteStatus.t :=
  match sites with
  | [] => statuses
  | site :: rest =>
      initSites clock (Datatypes.S i) rest (initSite (clock i) statuses site)
  end.

(** [InitializeSiteStatus], an absent map being the empty one. *)
Definition InitializeSiteStatus {S} (app : AppState S) (clock : nat -> Z)
  : AppState S :=
  {| Sites := Sites app;
     SiteStatus := initSites clock 0 (Sites app) (SiteStatus app);
     Storage_ := Storage_ app;
     TotalChecks := TotalChecks app;
     Metrics := Metrics app |}.

(** A backend whose database rejects every statement, as [SQLiteStorage]
    answers when [db.Exec] and [db.Query] fail. *)
Inductive UnavailableStorage := Unavailable.

#[export] Instance UnavailableStorage_Storage : Storage UnavailableStorage := {|
  AddPingLog := fun s _ => Some (s, Some "failed to insert ping log"%string);
  GetFilteredLogs := fun _ _ _ _ => ([], Some "failed to query ping logs"%string);
  GetAllLogs := fun _ => ([], Some "failed to query ping logs"%string)
|}.

End Config.

(** ** [internal/services/stats]: the statistics engine *)

Module Stats.
Import GoInt Models.

Local Open Scope float_scope.

Definition HoursPerDay : Z := 24.
Definition DaysPerWeek : Z := 7.
Definition LatencyPrecision : Z := 2.
Definition UptimePrecision : Z := 2.
Definition LatencyBucket1 : float := 10.
Definition LatencyBucket2 : float := 50.
Definition LatencyBucket3 : float := 100.
Definition LatencyBucket4 : float := 200.
Definition LatencyBucket5 : float := 500.

(** [time.Hour] in nanoseconds. *)
Definition time_Hour : Z := (3600 * 10 ^ 9)%Z.

(** [math.MaxFloat64] *)
Definition math_MaxFloat64 : float := 0x1.fffffffffffffp+1023.

(** The functions of Go's standard library the engine calls and this
    repository does not define. *)
Class GoLib := {
  math_Round : float -> float;
  math_Pow : float -> float -> float;
  (** [t.AddDate(years, months, days)] *)
  time_AddDate : Z -> Z -> Z -> Z -> Z;
  strings_Title : string -> string
}.

(** [validateLogData]'s error. *)
Inductive ValidationError :=
| EmptySiteID
| NegativeLatency (latency : float) (site : string).

(** [validateLogData]; the warning logged for a successful entry without
    latency changes nothing in the result. *)
Definition validateLogData (pingLog : PingLog.t) : option ValidationError :=
  if String.eqb (PingLog.SiteID pingLog) "" then Some EmptySiteID
  else
    match PingLog.Latency pingLog with
    | Some latency =>
        if latency <? 0 then Some (NegativeLatency latency (PingLog.SiteID pingLog))
        else None
    | None => None
    end.

Record TimeframeStats := mkTimeframeStats {
  TotalChecks : Z;
  SuccessChecks : Z;
  PrimaryTotal : Z;
  PrimarySuccess : Z;
  SecondaryTotal : Z;
  SecondarySuccess : Z;
  Latencies : list float;
  MinLatency : float;
  MaxLatency : float;
  SumLatency : float;
  JitterValues : list float;
  PrimaryMinLatencies : list float;
  PrimaryMaxLatencies : list float;
  PrimaryJitterValues : list float;
  SecondaryMinLatencies : list float;
  SecondaryMaxLatencies : list float;
  SecondaryJitterValues : list float;
  TotalPacketsSent : Z;
  TotalPacketsReceived : Z;
  TotalPacketsDuplicates : Z;
  PacketLossValues : list float;
  PrimaryPacketsSent : Z;
  PrimaryPacketsReceived : Z;
  PrimaryPacketsDuplicates : Z;
  PrimaryPacketLossValues : list float;
  SecondaryPacketsSent : Z;
  SecondaryPacketsReceived : Z;
  SecondaryPacketsDuplicates : Z;
  SecondaryPacketLossValues : list float
}.

Definition NewTimeframeStats : TimeframeStats :=
  {| TotalChecks := 0; SuccessChecks := 0; PrimaryTotal := 0;
     PrimarySuccess := 0; SecondaryTotal := 0; SecondarySuccess := 0;
     Latencies := []; MinLatency := math_MaxFloat64; MaxLatency := 0;
     SumLatency := 0; JitterValues := [];
     PrimaryMinLatencies := []; PrimaryMaxLatencies := [];
     PrimaryJitterValues := []; SecondaryMinLatencies := [];
     SecondaryMaxLatencies := []; SecondaryJitterValues := [];
     TotalPacketsSent := 0; TotalPacketsReceived := 0;
     TotalPacketsDuplicates := 0; PacketLossValues := [];
     PrimaryPacketsSent := 0; PrimaryPacketsReceived := 0;
     PrimaryPacketsDuplicates := 0; PrimaryPacketLossValues := [];
     SecondaryPacketsSent := 0; SecondaryPacketsReceived := 0;
     SecondaryPacketsDuplicates := 0; SecondaryPacketLossValues := [] |}.

(** [n++] and [n += k] on an [int]. *)
Definition incr (n : Z) : Z := wrap64 (n + 1).
Definition plus (n k : Z) : Z := wrap64 (n + k).

(** [if p != nil { xs = append(xs, *p) }] *)
Definition appendIf (xs : list float) (p : option float) : list float :=
  match p with Some v => xs ++ [v] | None => xs end.

(** [AddLog]: each field with the value the method leaves in it. *)
Definition AddLog (ts : TimeframeStats) (log : PingLog.t) : TimeframeStats :=
  let ok := PingLog.Success log in
  let isPrimary := String.eqb (PingLog.Target log) "primary" in
  let isSecondary := negb isPrimary && String.eqb (PingLog.Target log) "secondary" in
  let okLatency := if ok then PingLog.Latency log else None in
  {| TotalChecks := incr (TotalChecks ts);
     SuccessChecks := if ok then incr (SuccessChecks ts) else SuccessChecks ts;
     PrimaryTotal := if isPrimary then incr (PrimaryTotal ts) else PrimaryTotal ts;
     PrimarySuccess :=
       if isPrimary && ok then incr (PrimarySuccess ts) else PrimarySuccess ts;
     SecondaryTotal :=
       if isSecondary then incr (SecondaryTotal ts) else SecondaryTotal ts;
     SecondarySuccess :=
       if isSecondary && ok then incr (SecondarySuccess ts) else SecondarySuccess ts;
     Latencies := appendIf (Latencies ts) okLatency;
     MinLatency :=
       match okLatency with
       | Some latency => if latency <? MinLatency ts then latency else MinLatency ts
       | None => MinLatency ts
       end;
     MaxLatency :=
       match okLatency with
       | Some latency => if MaxLatency ts <? latency then latency else MaxLatency ts
       | None => MaxLatency ts
       end;
     SumLatency :=
       match okLatency with
       | Some latency => SumLatency ts + latency
       | None => SumLatency ts
       end;
     JitterValues :=
       if ok then appendIf (JitterValues ts) (PingLog.Jitter log) else JitterValues ts;
     PrimaryMinLatencies :=
       if isPrimary && ok
       then appendIf (PrimaryMinLatencies ts) (PingLog.MinLatency log)
       else PrimaryMinLatencies ts;
     PrimaryMaxLatencies :=
       if isPrimary && ok
       then appendIf (PrimaryMaxLatencies ts) (PingLog.MaxLatency log)
       else PrimaryMaxLatencies ts;
     PrimaryJitterValues :=
       if isPrimary && ok
       then appendIf (PrimaryJitterValues ts) (PingLog.Jitter log)
       else PrimaryJitterValues ts;
     SecondaryMinLatencies :=
       if isSecondary && ok
       then appendIf (SecondaryMinLatencies ts) (PingLog.MinLatency log)
       else SecondaryMinLatencies ts;
     SecondaryMaxLatencies :=
       if isSecondary && ok
       then appendIf (SecondaryMaxLatencies ts) (PingLog.MaxLatency log)
       else SecondaryMaxLatencies ts;
     SecondaryJitterValues :=
       if isSecondary && ok
       then appendIf (SecondaryJitterValues ts) (PingLog.Jitter log)
       else SecondaryJitterValues ts;
     TotalPacketsSent := plus (TotalPacketsSent ts) (PingLog.PacketsSent log);
     TotalPacketsReceived := plus (TotalPacketsReceived ts) (PingLog.PacketsRecv log);
     TotalPacketsDuplicates :=
       plus (TotalPacketsDuplicates ts) (PingLog.PacketsDuplicates log);
     PacketLossValues := appendIf (PacketLossValues ts) (PingLog.PacketLoss log);
     PrimaryPacketsSent :=
       if isPrimary then plus (PrimaryPacketsSent ts) (PingLog.PacketsSent log)
       else PrimaryPacketsSent ts;
     PrimaryPacketsReceived :=
       if isPrimary then plus (PrimaryPacketsReceived ts) (PingLog.PacketsRecv log)
       else PrimaryPacketsReceived ts;
     PrimaryPacketsDuplicates :=
       if isPrimary
       then plus (PrimaryPacketsDuplicates ts) (PingLog.PacketsDuplicates log)
       else PrimaryPacketsDuplicates ts;
     PrimaryPacketLossValues :=
       if isPrimary then appendIf (PrimaryPacketLossValues ts) (PingLog.PacketLoss log)
       else PrimaryPacketLossValues ts;
     SecondaryPacketsSent :=
       if isSecondary then plus (SecondaryPacketsSent ts) (PingLog.PacketsSent log)
       else SecondaryPacketsSent ts;
     SecondaryPacketsReceived :=
       if isSecondary then plus (SecondaryPacketsReceived ts) (PingLog.PacketsRecv log)
       else SecondaryPacketsReceived ts;
     SecondaryPacketsDuplicates :=
       if isSecondary
       then plus (SecondaryPacketsDuplicates ts) (PingLog.PacketsDuplicates log)
       else SecondaryPacketsDuplicates ts;
     SecondaryPacketLossValues :=
       if isSecondary
       then appendIf (SecondaryPacketLossValues ts) (PingLog.PacketLoss log)
       else SecondaryPacketLossValues ts |}.

(** [len(xs)] as a [float64]. *)
Definition float64_len (xs : list float) : float :=
  float64_of_int (Z.of_nat (length xs)).

(** [sum := 0.0; for _, v := range xs { sum += v }] *)
Definition sumLoop (xs : list float) : float :=
  fold_left (fun sum v => sum + v) xs 0.

(** [min := values[0]; for _, v := range values[1:] { if v < min { min = v } }] *)
Definition minLoop (first : float) (rest : list float) : float :=
  fold_left (fun min v => if v <? min then v else min) rest first.

Definition maxLoop (first : float) (rest : list float) : float :=
  fold_left (fun max v => if max <? v then v else max) rest first.

(** The bucket of one latency in [GetLatencyDistribution]. *)
Definition bucketIndex (latency : float) : nat :=
  if latency <=? LatencyBucket1 then 0%nat
  else if latency <=? LatencyBucket2 then 1%nat
  else if latency <=? LatencyBucket3 then 2%nat
  else if latency <=? LatencyBucket4 then 3%nat
  else if latency <=? LatencyBucket5 then 4%nat
  else 5%nat.

Definition GetLatencyDistribution (ts : TimeframeStats) : list float :=
  fold_left (fun distribution latency =>
               alter (fun n => n + 1) (bucketIndex latency) distribution)
            (Latencies ts) (replicate 6 0).

Section WithGoLib.
Context `{GoLib}.

Definition roundToDecimalPlaces (value : float) (places : Z) : float :=
  let multiplier := math_Pow 10 (float64_of_int places) in
  math_Round (value * multiplier) / multiplier.

Definition GetUptimePercentage (ts : TimeframeStats) : float :=
  if (TotalChecks ts =? 0)%Z then 0
  else roundToDecimalPlaces
         (float64_of_int (SuccessChecks ts) / float64_of_int (TotalChecks ts) * 100)
         UptimePrecision.

Definition GetMeanLatency (ts : TimeframeStats) : float :=
  if (Z.of_nat (length (Latencies ts)) =? 0)%Z then 0
  else roundToDecimalPlaces (SumLatency ts / float64_len (Latencies ts))
         LatencyPrecision.

Definition GetProviderUptime (ts : TimeframeStats) (provider : string) : float :=
  if String.eqb provider "primary" then
    if (PrimaryTotal ts =? 0)%Z then 0
    else roundToDecimalPlaces
           (float64_of_int (PrimarySuccess ts) / float64_of_int (PrimaryTotal ts) * 100)
           UptimePrecision
  else if String.eqb provider "secondary" then
    if (SecondaryTotal ts =? 0)%Z then 0
    else roundToDecimalPlaces
           (float64_of_int (SecondarySuccess ts) / float64_of_int (SecondaryTotal ts) * 100)
           UptimePrecision
  else 0.

(** The loop of [GetProviderMeanLatency]: the running [sum] and [count]. *)
Definition providerLatencyStep (provider siteID : string)
    (acc : float * Z) (log : PingLog.t) : float * Z :=
  if negb (String.eqb (PingLog.SiteID log) siteID)
     || negb (PingLog.Success log)
     || negb (String.eqb (PingLog.Target log) provider)
  then acc
  else match PingLog.Latency log with
       | None => acc
       | Some latency => (fst acc + latency, incr (snd acc))
       end.

Definition providerLatencyLoop (provider : string) (allLogs : list PingLog.t)
    (siteID : string) : float * Z :=
  fold_left (providerLatencyStep provider siteID) allLogs (0, 0%Z).

Definition GetProviderMeanLatency (ts : TimeframeStats) (provider : string)
    (allLogs : list PingLog.t) (siteID : string) : float :=
  let '(sum, count) := providerLatencyLoop provider allLogs siteID in
  if (count =? 0)%Z then 0
  else roundToDecimalPlaces (sum / float64_of_int count) LatencyPrecision.

(** The shape shared by the mean getters over a slice of samples. *)
Definition meanOf (values : list float) (places : Z) : float :=
  match values with
  | [] => 0
  | _ => roundToDecimalPlaces (sumLoop values / float64_len values) places
  end.

Definition GetMeanJitter (ts : TimeframeStats) : float :=
  meanOf (JitterValues ts) LatencyPrecision.

Definition GetMeanPacketLoss (ts : TimeframeStats) : float :=
  meanOf (PacketLossValues ts) UptimePrecision.

Definition GetProviderMeanJitter (ts : TimeframeStats) (provider : string) : float :=
  if String.eqb provider "primary" then meanOf (PrimaryJitterValues ts) LatencyPrecision
  else if String.eqb provider "secondary"
  then meanOf (SecondaryJitterValues ts) LatencyPrecision
  else 0.

Definition GetProviderMeanPacketLoss (ts : TimeframeStats) (provider : string) : float :=
  if String.eqb provider "primary"
  then meanOf (PrimaryPacketLossValues ts) UptimePrecision
  else if String.eqb provider "secondary"
  then meanOf (SecondaryPacketLossValues ts) UptimePrecision
  else 0.

Definition GetProviderMinLatency (ts : TimeframeStats) (provider : string) : float :=
  let pick values :=
    match values with
    | [] => 0
    | first :: rest => roundToDecimalPlaces (minLoop first rest) LatencyPrecision
    end in
  if String.eqb provider "primary" then pick (PrimaryMinLatencies ts)
  else if String.eqb provider "secondary" then pick (SecondaryMinLatencies ts)
  else 0.

Definition GetProviderMaxLatency (ts : TimeframeStats) (provider : string) : float :=
  let pick values :=
    match values with
    | [] => 0
    | first :: rest => roundToDecimalPlaces (maxLoop first rest) LatencyPrecision
    end in
  if String.eqb provider "primary" then pick (PrimaryMaxLatencies ts)
  else if String.eqb provider "secondary" then pick (SecondaryMaxLatencies ts)
  else 0.

(** The four running aggregates of [CalculateSiteStatistics] and the time
    of the latest failure seen. *)
Record Timeframes := mkTimeframes {
  tf_all : TimeframeStats;
  tf_24h : TimeframeStats;
  tf_7d : TimeframeStats;
  tf_12m : TimeframeStats;
  lastIncidentTime : Z
}.

Definition newTimeframes : Timeframes :=
  {| tf_all := NewTimeframeStats; tf_24h := NewTimeframeStats;
     tf_7d := NewTimeframeStats; tf_12m := NewTimeframeStats;
     lastIncidentTime := zeroTime |}.

(** One iteration of the single pass of [CalculateSiteStatistics] over
    [allLogs]. *)
Definition analyzeLog (siteID : string) (day24h day7d month12 : Z)
    (stats : Timeframes) (pingLog : PingLog.t) : Timeframes :=
  if negb (String.eqb (PingLog.SiteID pingLog) siteID) then stats
  else
    match validateLogData pingLog with
    | Some _ => stats
    | None =>
        let logTime := PingLog.Timestamp pingLog in
        {| tf_all := AddLog (tf_all stats) pingLog;
           lastIncidentTime :=
             if negb (PingLog.Success pingLog) && (lastIncidentTime stats <? logTime)%Z
             then logTime else lastIncidentTime stats;
           tf_24h := if (day24h <? logTime)%Z then AddLog (tf_24h stats) pingLog
                     else tf_24h stats;
           tf_7d := if (day7d <? logTime)%Z then AddLog (tf_7d stats) pingLog
                    else tf_7d stats;
           tf_12m := if (month12 <? logTime)%Z then AddLog (tf_12m stats) pingLog
                     else tf_12m stats |}
    end.

Definition analyzeLogs (siteID : string) (day24h day7d month12 : Z)
    (allLogs : list PingLog.t) : Timeframes :=
  fold_left (analyzeLog siteID day24h day7d month12) allLogs newTimeframes.

(** [models.SiteStatistics] without the two display strings of the last
    incident. *)
Record SiteStatistics := mkSiteStatistics {
  CurrentLatencyPrimary : option float;
  CurrentLatencySecondary : option float;
  MeanLatencyPrimary : float;
  MeanLatencySecondary : float;
  MinLatencyPrimary : float;
  MinLatencySecondary : float;
  MaxLatencyPrimary : float;
  MaxLatencySecondary : float;
  JitterPrimary : float;
  JitterSecondary : float;
  PacketsReceivedPrimary : Z;
  PacketsReceivedSecondary : Z;
  TotalPacketsPrimary : Z;
  TotalPacketsSecondary : Z;
  PacketLossPrimary : float;
  PacketLossSecondary : float;
  DuplicatePacketsPrimary : Z;
  DuplicatePacketsSecondary : Z;
  Uptime24h : float;
  Uptime7d : float;
  Uptime12m : float;
  UptimePrimary : float;
  UptimeSecondary : float;
  PrimaryUptime24h : float;
  SecondaryUptime24h : float;
  PrimaryUptime7d : float;
  SecondaryUptime7d : float;
  PrimaryUptime12m : float;
  SecondaryUptime12m : float;
  AvgLatency : float;
  SS_MinLatency : float;
  SS_MaxLatency : float;
  SuccessRate : float;
  SS_TotalChecks : Z
}.

(** The package function [GetAllLogs]: the backend's entries, or none when
    the backend reports an error. *)
Definition GetAllLogs {S} `{Config.Storage S} (app : Config.AppState S) : list PingLog.t :=
  match Config.GetAllLogs (Config.Storage_ app) with
  | (logs, None) => logs
  | (_, Some _) => []
  end.

(** [CalculateSiteStatistics] when the clock reads [now]. *)
Definition CalculateSiteStatistics {S} `{Config.Storage S}
    (app : Config.AppState S) (siteID : string) (now : Z) : SiteStatistics :=
  let day24h := (now - HoursPerDay * time_Hour)%Z in
  let day7d := (now - DaysPerWeek * HoursPerDay * time_Hour)%Z in
  let month12 := time_AddDate now (-1) 0 0 in
  let allLogs := GetAllLogs app in
  let stats := analyzeLogs siteID day24h day7d month12 allLogs in
  let allStats := tf_all stats in
  let stats24h := tf_24h stats in
  let stats7d := tf_7d stats in
  let stats12m := tf_12m stats in
  let hasLatency := (0 <? Z.of_nat (length (Latencies allStats)))%Z in
  let status := Config.SiteStatus app !! siteID in
  {| CurrentLatencyPrimary := status ≫= SiteStatus.PrimaryLatency;
     CurrentLatencySecondary := status ≫= SiteStatus.SecondaryLatency;
     MeanLatencyPrimary := GetProviderMeanLatency allStats "primary" allLogs siteID;
     MeanLatencySecondary := GetProviderMeanLatency allStats "secondary" allLogs siteID;
     MinLatencyPrimary := GetProviderMinLatency allStats "primary";
     MinLatencySecondary := GetProviderMinLatency allStats "secondary";
     MaxLatencyPrimary := GetProviderMaxLatency allStats "primary";
     MaxLatencySecondary := GetProviderMaxLatency allStats "secondary";
     JitterPrimary := GetProviderMeanJitter allStats "primary";
     JitterSecondary := GetProviderMeanJitter allStats "secondary";
     PacketsReceivedPrimary := PrimaryPacketsReceived allStats;
     PacketsReceivedSecondary := SecondaryPacketsReceived allStats;
     TotalPacketsPrimary := PrimaryPacketsSent allStats;
     TotalPacketsSecondary := SecondaryPacketsSent allStats;
     PacketLossPrimary := GetProviderMeanPacketLoss allStats "primary";
     PacketLossSecondary := GetProviderMeanPacketLoss allStats "secondary";
     DuplicatePacketsPrimary := PrimaryPacketsDuplicates allStats;
     DuplicatePacketsSecondary := SecondaryPacketsDuplicates allStats;
     Uptime24h := GetUptimePercentage stats24h;
     Uptime7d := GetUptimePercentage stats7d;
     Uptime12m := GetUptimePercentage stats12m;
     UptimePrimary := GetProviderUptime stats24h "primary";
     UptimeSecondary := GetProviderUptime stats24h "secondary";
     PrimaryUptime24h := GetProviderUptime stats24h "primary";
     SecondaryUptime24h := GetProviderUptime stats24h "secondary";
     PrimaryUptime7d := GetProviderUptime stats7d "primary";
     SecondaryUptime7d := GetProviderUptime stats7d "secondary";
     PrimaryUptime12m := GetProviderUptime stats12m "primary";
     SecondaryUptime12m := GetProviderUptime stats12m "secondary";
     AvgLatency := if hasLatency then GetMeanLatency allStats else 0;
     SS_MinLatency :=
       if hasLatency then roundToDecimalPlaces (MinLatency allStats) LatencyPrecision
       else 0;
     SS_MaxLatency :=
       if hasLatency then roundToDecimalPlaces (MaxLatency allStats) LatencyPrecision
       else 0;
     SuccessRate :=
       if (0 <? TotalChecks allStats)%Z
       then roundToDecimalPlaces
              (float64_of_int (SuccessChecks allStats)
               / float64_of_int (TotalChecks allStats) * 100)
              UptimePrecision
       else 0;
     SS_TotalChecks := TotalChecks allStats |}.

(** [ChartDataResult] *)
Record ChartDataResult := mkChartDataResult {
  Labels : list string;
  CombinedData : list float;
  PrimaryData : list float;
  SecondaryData : list float
}.

(** One iteration of the loop of [generateDistributionChart]: the combined,
    primary and secondary aggregates. *)
Definition distributionStep (siteID : string) (since : Z)
    (acc : TimeframeStats * TimeframeStats * TimeframeStats) (log : PingLog.t)
  : TimeframeStats * TimeframeStats * TimeframeStats :=
  let '(stats, primaryStats, secondaryStats) := acc in
  if negb (String.eqb (PingLog.SiteID log) siteID)
     || (PingLog.Timestamp log <? since)%Z
     || negb (PingLog.Success log)
     || negb (bool_decide (is_Some (PingLog.Latency log)))
  then acc
  else
    (AddLog stats log,
     (if String.eqb (PingLog.Target log) "primary"
      then AddLog primaryStats log else primaryStats),
     (if negb (String.eqb (PingLog.Target log) "primary")
         && String.eqb (PingLog.Target log) "secondary"
      then AddLog secondaryStats log else secondaryStats)).

Definition generateDistributionChart (allLogs : list PingLog.t) (siteID : string)
    (since : Z) : ChartDataResult :=
  let '(stats, primaryStats, secondaryStats) :=
    fold_left (distributionStep siteID since) allLogs
      (NewTimeframeStats, NewTimeframeStats, NewTimeframeStats) in
  {| Labels := ["0-10ms"; "10-50ms"; "50-100ms"; "100-200ms"; "200-500ms"; "500ms+"];
     CombinedData := GetLatencyDistribution stats;
     PrimaryData := GetLatencyDistribution primaryStats;
     SecondaryData := GetLatencyDistribution secondaryStats |}.

(** One iteration of the scan of [GetRecentEvents]: the events found so
    far, oldest first, and the map [lastStatus]. *)
Definition detectEvent (siteID : string)
    (acc : list RecentEvent.t * gmap string bool) (pingLog : PingLog.t)
  : list RecentEvent.t * gmap string bool :=
  let '(events, lastStatus) := acc in
  if negb (String.eqb (PingLog.SiteID pingLog) siteID) then acc
  else
    match validateLogData pingLog with
    | Some _ => acc
    | None =>
        let target := PingLog.Target pingLog in
        let ok := PingLog.Success pingLog in
        let events :=
          match lastStatus !! target with
          | Some prevStatus =>
              if negb (Bool.eqb prevStatus ok) then
                events ++
                [ {| RecentEvent.Timestamp := PingLog.Timestamp pingLog;
                     RecentEvent.SiteID := PingLog.SiteID pingLog;
                     RecentEvent.Target := target;
                     RecentEvent.Status := if ok then "restored" else "failed";
                     RecentEvent.Message :=
                       if ok then (strings_Title target ++ " connection restored")%string
                       else (strings_Title target ++ " connection lost")%string;
                     RecentEvent.IsOutage := negb ok |} ]
              else events
          | None => events
          end in
        (events, <[target := ok]> lastStatus)
    end.

(** [GetRecentEvents]; [None] is the slice-bounds panic of
    [events[:limit]] for a negative [limit]. *)
Definition GetRecentEvents {S} `{Config.Storage S}
    (app : Config.AppState S) (siteID : string) (limit : Z)
  : option (list RecentEvent.t) :=
  let allLogs := GetAllLogs app in
  if (Z.of_nat (length allLogs) =? 0)%Z then Some []
  else
    let events := fst (fold_left (detectEvent siteID) allLogs ([], ∅)) in
    let events := reverse events in
    if (limit <? Z.of_nat (length events))%Z then
      if (limit <? 0)%Z then None else Some (take (Z.to_nat limit) events)
    else Some events.

End WithGoLib.

(** *** A reference [GoLib], to evaluate the engine on concrete histories *)

Definition two52 : float := 4503599627370496.

(** [math.Round]: the nearest integer, halves away from zero; NaN,
    infinities and values of magnitude [2^52] or more are returned as they
    are. *)
Definition Round (x : float) : float :=
  let a := abs x in
  if negb (a <? two52) then x
  else
    let y := (a + two52) - two52 in
    let floor := if a <? y then y - 1 else y in
    let r := if 0.5 <=? a - floor then floor + 1 else floor in
    if get_sign x then - r else r.

(** [math.Pow] on the exponents 0, 1 and 2 (the engine only ever raises 10
    to the power 2); NaN elsewhere. *)
Definition Pow (x y : float) : float :=
  if y =? 0 then 1
  else if y =? 1 then x
  else if y =? 2 then x * x
  else nan.

Definition nsPerDay : Z := (86400 * 10 ^ 9)%Z.

(** Days from 1970-01-01 to the civil date [y]-[m]-[d] of the proleptic
    Gregorian calendar ([m] in 1..12, [d] any offset from the first). *)
Definition days_from_civil (y m d : Z) : Z :=
  (let y := if m <=? 2 then y - 1 else y in
   let era := y / 400 in
   let yoe := y - era * 400 in
   let mp := (m + 9) mod 12 in
   let doy := (153 * mp + 2) / 5 + d - 1 in
   let doe := yoe * 365 + yoe / 4 - yoe / 100 + doy in
   era * 146097 + doe - 719468)%Z.

Definition civil_from_days (z : Z) : Z * Z * Z :=
  (let z := z + 719468 in
   let era := z / 146097 in
   let doe := z - era * 146097 in
   let yoe := (doe - doe / 1460 + doe / 36524 - doe / 146096) / 365 in
   let doy := doe - (365 * yoe + yoe / 4 - yoe / 100) in
   let mp := (5 * doy + 2) / 153 in
   let d := doy - (153 * mp + 2) / 5 + 1 in
   let m := if mp <? 10 then mp + 3 else mp - 9 in
   (if m <=? 2 then yoe + era * 400 + 1 else yoe + era * 400, m, d))%Z.

(** [t.AddDate(years, months, days)] for a time in UTC. *)
Definition AddDate (t years months days : Z) : Z :=
  (let '(y, m, d) := civil_from_days (t / nsPerDay) in
   let months := m + months - 1 in
   days_from_civil (y + years + months / 12) (months mod 12 + 1) (d + days)
   * nsPerDay + t mod nsPerDay)%Z.

Definition isSeparator (c : Ascii.ascii) : bool :=
  let n := Ascii.nat_of_ascii c in
  negb ((48 <=? n)%nat && (n <=? 57)%nat
        || (65 <=? n)%nat && (n <=? 90)%nat
        || (97 <=? n)%nat && (n <=? 122)%nat
        || (n =? 95)%nat).

Definition toUpper (c : Ascii.ascii) : Ascii.ascii :=
  let n := Ascii.nat_of_ascii c in
  if (97 <=? n)%nat && (n <=? 122)%nat then Ascii.ascii_of_nat (n - 32) else c.

(** [strings.Title] on ASCII text: the first letter of every word in upper
    case. *)
Fixpoint titleFrom (wordStart : bool) (s : string) : string :=
  match s with
  | EmptyString => EmptyString
  | String c rest =>
      String (if wordStart then toUpper c else c) (titleFrom (isSeparator c) rest)
  end.

Definition Title (s : string) : string := titleFrom true s.

Definition goLib : GoLib :=
  {| math_Round := Round; math_Pow := Pow;
     time_AddDate := AddDate; strings_Title := Title |}.

(** *** The event rule as specified, and sample histories *)

(** The entry of [seen] (newest first) most recently observed for the line
    [target]. *)
Definition previousFor (target : string) (seen : list PingLog.t) : option PingLog.t :=
  List.find (fun e => String.eqb (PingLog.Target e) target) seen.

(** The entries whose success flag differs from the one of the entry
    immediately preceding them for the same line; [seen] are the entries
    before [history], newest first. An entry with no predecessor on its line
    is never one of them. *)
Fixpoint transitionsAfter (seen history : list PingLog.t) : list PingLog.t :=
  match history with
  | [] => []
  | e :: history' =>
      match previousFor (PingLog.Target e) seen with
      | Some prev =>
          if negb (Bool.eqb (PingLog.Success prev) (PingLog.Success e))
          then e :: transitionsAfter (e :: seen) history'
          else transitionsAfter (e :: seen) history'
      | None => transitionsAfter (e :: seen) history'
      end
  end.

Definition ofSite (siteID : string) (history : list PingLog.t) : list PingLog.t :=
  List.filter (fun e => String.eqb (PingLog.SiteID e) siteID) history.

Definition validOnly (history : list PingLog.t) : list PingLog.t :=
  List.filter (fun e => bool_decide (validateLogData e = None)) history.

(** The event [GetRecentEvents] builds at a transition entry. *)
Definition eventAt `{GoLib} (e : PingLog.t) : RecentEvent.t :=
  let ok := PingLog.Success e in
  {| RecentEvent.Timestamp := PingLog.Timestamp e;
     RecentEvent.SiteID := PingLog.SiteID e;
     RecentEvent.Target := PingLog.Target e;
     RecentEvent.Status := if ok then "restored" else "failed";
     RecentEvent.Message :=
       if ok then (strings_Title (PingLog.Target e) ++ " connection restored")%string
       else (strings_Title (PingLog.Target e) ++ " connection lost")%string;
     RecentEvent.IsOutage := negb ok |}.

(** Following the words of the event rule: an event at every entry of the
    site that differs from its predecessor on the same line, newest first,
    cut to [limit]. *)
Definition specifiedEvents `{GoLib} (history : list PingLog.t) (siteID : string)
    (limit : Z) : list RecentEvent.t :=
  take (Z.to_nat limit)
       (reverse (map eventAt (transitionsAfter [] (ofSite siteID history)))).

Definition newestEventFirst (l : list RecentEvent.t) : Prop :=
  StronglySorted
    (fun a b => (RecentEvent.Timestamp b <= RecentEvent.Timestamp a)%Z) l.

(** A probe of site "s1" at second [t]. *)
Definition probe (t : Z) (line : string) (ok : bool) (latency : option float)
  : PingLog.t :=
  {| PingLog.ID := t; PingLog.Timestamp := (t * 10 ^ 9)%Z;
     PingLog.SiteID := "s1"; PingLog.SiteName := "Site 1";
     PingLog.Target := line; PingLog.IP := "192.0.2.1";
     PingLog.Success := ok; PingLog.Latency := latency;
     PingLog.Error := if ok then "" else "no packets received";
     PingLog.PacketsSent := 3; PingLog.PacketsRecv := if ok then 3 else 0;
     PingLog.PacketsDuplicates := 0; PingLog.PacketLoss := None;
     PingLog.MinLatency := latency; PingLog.MaxLatency := latency;
     PingLog.Jitter := None |}.

Definition appWith (history : list PingLog.t) : Config.AppState Memory.MemoryStorage :=
  {| Config.Sites := []; Config.SiteStatus := ∅;
     Config.Storage_ := {| Memory.logs := history; Memory.maxLogs := 1000;
                           Memory.logCounter := Z.of_nat (length history) |};
     Config.TotalChecks := 0; Config.Metrics := [] |}.

(** One successful primary probe reporting a latency of -5 ms. *)
Definition negativeHistory : list PingLog.t := [probe 1 "primary" true (Some (-5))].

(** Up, down, up again with a reported latency below zero, down again. *)
Definition flappingHistory : list PingLog.t :=
  [ probe 1 "primary" true (Some 12);
    probe 2 "primary" false None;
    probe 3 "primary" true (Some (-3));
    probe 4 "primary" false None ].

(** Primary goes down and comes back while secondary stays up. *)
Definition outageHistory : list PingLog.t :=
  [ probe 1 "primary" true (Some 12); probe 1 "secondary" true (Some 20);
    probe 2 "primary" false None; probe 2 "secondary" true None;
    probe 3 "primary" true (Some 11) ].

(** Up, down, up on the primary line, as a backend that sorts by time
    stamp, newest first, returns it. *)
Definition descendingHistory : list PingLog.t :=
  [ probe 3 "primary" true (Some 11);
    probe 2 "primary" false None;
    probe 1 "primary" true (Some 12) ].

End Stats.

(** ** [internal/services/ping/ping.go]: the result pipeline *)

Module Ping.
Import GoInt Models Config.

(** [for _, s := range appState.Sites { if s.ID == id { ...; break } }]:
    the first site carrying the identifier. *)
Fixpoint findSite (sites : list Site.t) (siteID : string) : option Site.t :=
  match sites with
  | [] => None
  | s :: rest => if String.eqb (Site.ID s) siteID then Some s else findSite rest siteID
  end.

(** The [switch result.LineType] of [UpdateSiteStatus]. *)
Definition updateLine (status : SiteStatus.t) (result : PingResult.t) : SiteStatus.t :=
  let ok := PingResult.Success result in
  if String.eqb (PingResult.LineType result) "primary" then
    {| SiteStatus.SiteID := SiteStatus.SiteID status;
       SiteStatus.PrimaryOnline := ok;
       SiteStatus.SecondaryOnline := SiteStatus.SecondaryOnline status;
       SiteStatus.BothOnline := SiteStatus.BothOnline status;
       SiteStatus.PrimaryLatency := if ok then PingResult.Latency result else None;
       SiteStatus.SecondaryLatency := SiteStatus.SecondaryLatency status;
       SiteStatus.LastCheck := SiteStatus.LastCheck status;
       SiteStatus.PrimaryError := if ok then "" else PingResult.Error result;
       SiteStatus.SecondaryError := SiteStatus.SecondaryError status |}
  else if String.eqb (PingResult.LineType result) "secondary" then
    {| SiteStatus.SiteID := SiteStatus.SiteID status;
       SiteStatus.PrimaryOnline := SiteStatus.PrimaryOnline status;
       SiteStatus.SecondaryOnline := ok;
       SiteStatus.BothOnline := SiteStatus.BothOnline status;
       SiteStatus.PrimaryLatency := SiteStatus.PrimaryLatency status;
       SiteStatus.SecondaryLatency := if ok then PingResult.Latency result else None;
       SiteStatus.LastCheck := SiteStatus.LastCheck status;
       SiteStatus.PrimaryError := SiteStatus.PrimaryError status;
       SiteStatus.SecondaryError := if ok then "" else PingResult.Error result |}
  else status.

(** The combined flag and the time stamp, written after the line. *)
Definition updateCombined (site : option Site.t) (status : SiteStatus.t)
    (timestamp : Z) : SiteStatus.t :=
  {| SiteStatus.SiteID := SiteStatus.SiteID status;
     SiteStatus.PrimaryOnline := SiteStatus.PrimaryOnline status;
     SiteStatus.SecondaryOnline := SiteStatus.SecondaryOnline status;
     SiteStatus.BothOnline :=
       match site with
       | Some site =>
           if Site.IsDualLine site
           then SiteStatus.PrimaryOnline status && SiteStatus.SecondaryOnline status
           else SiteStatus.PrimaryOnline status
       | None => SiteStatus.BothOnline status
       end;
     SiteStatus.PrimaryLatency := SiteStatus.PrimaryLatency status;
     SiteStatus.SecondaryLatency := SiteStatus.SecondaryLatency status;
     SiteStatus.LastCheck := timestamp;
     SiteStatus.PrimaryError := SiteStatus.PrimaryError status;
     SiteStatus.SecondaryError := SiteStatus.SecondaryError status |}.

(** [UpdateSiteStatus]: [status] is the pointer stored in the map, so the
    writes land in the entry of [result.SiteID]. *)
Definition UpdateSiteStatus {S} (appState : AppState S) (result : PingResult.t)
  : AppState S :=
  match SiteStatus appState !! PingResult.SiteID result with
  | None => appState
  | Some status =>
      let status := updateLine status result in
      let site := findSite (Sites appState) (PingResult.SiteID result) in
      let status := updateCombined site status (PingResult.Timestamp result) in
      let bothOnlineValue := (if SiteStatus.BothOnline status then 1 else 0)%float in
      {| Sites := Sites appState;
         SiteStatus := <[PingResult.SiteID result := status]> (SiteStatus appState);
         Storage_ := Storage_ appState;
         TotalChecks := TotalChecks appState;
         Metrics := Metrics appState
                    ++ [SiteBothOnlineGauge_Set (PingResult.SiteID result) bothOnlineValue] |}
  end.

Definition logEntry (result : PingResult.t) (siteName : string) : PingLog.t :=
  {| PingLog.ID := 0;
     PingLog.Timestamp := PingResult.Timestamp result;
     PingLog.SiteID := PingResult.SiteID result;
     PingLog.SiteName := siteName;
     PingLog.Target := PingResult.LineType result;
     PingLog.IP := PingResult.IP result;
     PingLog.Success := PingResult.Success result;
     PingLog.Latency := PingResult.Latency result;
     PingLog.Error := PingResult.Error result;
     PingLog.PacketsSent := PingResult.PacketsSent result;
     PingLog.PacketsRecv := PingResult.PacketsRecv result;
     PingLog.PacketsDuplicates := PingResult.PacketsDuplicates result;
     PingLog.PacketLoss := PingResult.PacketLoss result;
     PingLog.MinLatency := PingResult.MinLatency result;
     PingLog.MaxLatency := PingResult.MaxLatency result;
     PingLog.Jitter := PingResult.Jitter result |}.

Section WithStorage.
Context {S : Type} `{Storage S}.

(** [AddPingLogToStorage]: an error of the backend is logged and dropped;
    the backend is left as its [AddPingLog] left it. *)
Definition AddPingLogToStorage (appState : AppState S) (result : PingResult.t)
    (siteName : string) : option (AppState S) :=
  match AddPingLog (Storage_ appState) (logEntry result siteName) with
  | None => None
  | Some (storage, _) =>
      Some {| Sites := Sites appState;
              SiteStatus := SiteStatus appState;
              Storage_ := storage;
              TotalChecks := TotalChecks appState;
              Metrics := Metrics appState |}
  end.

(** The collector updates of [HandlePingResult]; [None] is the nil
    dereference of [*result.Latency] in a successful result without
    latency. *)
Definition resultMetrics (result : PingResult.t) : option (list MetricOp) :=
  let site := PingResult.SiteID result in
  let line := PingResult.LineType result in
  let successLabel := if PingResult.Success result then "true" else "false" in
  let counters :=
    [ PingChecksTotal_Inc site line successLabel;
      PacketsSentCounter_Add site line (float64_of_int (PingResult.PacketsSent result));
      PacketsReceivedCounter_Add site line (float64_of_int (PingResult.PacketsRecv result));
      PacketsDuplicatesCounter_Add site line
        (float64_of_int (PingResult.PacketsDuplicates result)) ]
    ++ match PingResult.PacketLoss result with
       | Some loss => [PacketLossGauge_Set site line loss]
       | None => []
       end in
  if PingResult.Success result then
    match PingResult.Latency result with
    | None => None
    | Some latency =>
        Some (counters
              ++ [ PingLatencyHistogram_Observe site line (latency / 1000)%float;
                   SiteStatusGauge_Set site line 1%float ]
              ++ match PingResult.Jitter result with
                 | Some jitter => [JitterHistogram_Observe site line (jitter / 1000)%float]
                 | None => []
                 end)
    end
  else Some (counters ++ [SiteStatusGauge_Set site line 0%float]).

(** [siteName] as the loop over [appState.Sites] leaves it. *)
Definition siteNameOf (sites : list Site.t) (siteID : string) : string :=
  match findSite sites siteID with
  | Some site => Site.Name site
  | None => ""
  end.

Definition HandlePingResult (appState : AppState S) (result : PingResult.t)
  : option (AppState S) :=
  let total := wrap64 (TotalChecks appState + 1) in
  match resultMetrics result with
  | None => None
  | Some ops =>
      let appState :=
        {| Sites := Sites appState;
           SiteStatus := SiteStatus appState;
           Storage_ := Storage_ appState;
           TotalChecks := total;
           Metrics := Metrics appState ++ ops |} in
      let siteName := siteNameOf (Sites appState) (PingResult.SiteID result) in
      match AddPingLogToStorage appState result siteName with
      | None => None
      | Some appState => Some (UpdateSiteStatus appState result)
      end
  end.

(** [ProcessResults] draining a queue of results in order. *)
Fixpoint ProcessResults (appState : AppState S) (queue : list PingResult.t)
  : option (AppState S) :=
  match queue with
  | [] => Some appState
  | result :: queue' =>
      match HandlePingResult appState result with
      | None => None
      | Some appState => ProcessResults appState queue'
      end
  end.

End WithStorage.

(** The combined flag of [status] is the one [site]'s configuration asks
    for. *)
Definition flag_ok (site : Site.t) (status : SiteStatus.t) : Prop :=
  SiteStatus.BothOnline status
  = if Site.IsDualLine site
    then SiteStatus.PrimaryOnline status && SiteStatus.SecondaryOnline status
    else SiteStatus.PrimaryOnline status.

Definition combined_ok {S} (appState : AppState S) : Prop :=
  forall site status,
    In site (Sites appState) ->
    SiteStatus appState !! Site.ID site = Some status ->
    flag_ok site status.

(** A dual-line and a single-line site, and results for them. *)
Definition sampleSites : list Site.t :=
  [ {| Site.ID := "s1"; Site.Name := "Site 1"; Site.Location := "Berlin";
       Site.PrimaryIP := "192.0.2.1"; Site.SecondaryIP := "198.51.100.1";
       Site.Interval := 30; Site.Enabled := true |};
    {| Site.ID := "s2"; Site.Name := "Site 2"; Site.Location := "Hamburg";
       Site.PrimaryIP := "192.0.2.2"; Site.SecondaryIP := "";
       Site.Interval := 0; Site.Enabled := true |} ].

Definition sampleApp {S} (storage : S) : AppState S :=
  InitializeSiteStatus
    {| Sites := sampleSites; SiteStatus := ∅; Storage_ := storage;
       TotalChecks := 0; Metrics := [] |} (fun _ => 0).

Definition sampleResult (site line : string) (ok : bool) (t : Z) : PingResult.t :=
  {| PingResult.SiteID := site; PingResult.IP := "192.0.2.1";
     PingResult.LineType := line; PingResult.Success := ok;
     PingResult.Latency := if ok then Some 12.5%float else None;
     PingResult.Error := if ok then "" else "no packets received";
     PingResult.Timestamp := t;
     PingResult.PacketsSent := 3; PingResult.PacketsRecv := if ok then 3 else 0;
     PingResult.PacketsDuplicates := 0;
     PingResult.PacketLoss := Some (if ok then 0 else 100)%float;
     PingResult.MinLatency := None; PingResult.MaxLatency := None;
     PingResult.Jitter := None |}.

Definition sampleQueue : list PingResult.t :=
  [ sampleResult "s1" "primary" true 1; sampleResult "s2" "primary" true 2;
    sampleResult "s1" "secondary" true 3; sampleResult "s1" "primary" false 4 ].

End Ping.

(** ** [circuit_breaker_manager.go]: the registry of breakers *)

Module Manager.
Import GoInt.

Record CircuitBreakerManager := mkCircuitBreakerManager {
  breakers : gmap string Breaker.CircuitBreaker;
  maxFailures : Z;
  resetTimeout : Z
}.

Definition NewCircuitBreakerManager (maxFailures resetTimeout : Z)
  : CircuitBreakerManager :=
  {| breakers := ∅; maxFailures := maxFailures; resetTimeout := resetTimeout |}.

(** [fmt.Sprintf("%s-%s", siteID, lineType)] *)
Definition breakerKey (siteID lineType : string) : string :=
  (siteID ++ "-" ++ lineType)%string.

(** [fmt.Sprintf("%s/%s", siteID, lineType)] *)
Definition breakerName (siteID lineType : string) : string :=
  (siteID ++ "/" ++ lineType)%string.

(** [GetBreaker]: the breaker and the registry it leaves. The breaker is the
    pointer held by the map; whoever changes it stores it back with
    [putBreaker]. The callback it installs only logs and moves gauges; its
    runs are the [dispatched] notifications. *)
Definition GetBreaker (cbm : CircuitBreakerManager) (siteID lineType : string)
  : Breaker.CircuitBreaker * CircuitBreakerManager :=
  let key := breakerKey siteID lineType in
  match breakers cbm !! key with
  | Some breaker => (breaker, cbm)
  | None =>
      let name := breakerName siteID lineType in
      let breaker :=
        Breaker.SetOnStateChange
          (Breaker.NewCircuitBreaker name (maxFailures cbm) (resetTimeout cbm)) in
      (breaker,
       {| breakers := <[key := breaker]> (breakers cbm);
          maxFailures := maxFailures cbm;
          resetTimeout := resetTimeout cbm |})
  end.

(** A write through the pointer [GetBreaker] returned for the pair. *)
Definition putBreaker (cbm : CircuitBreakerManager) (siteID lineType : string)
    (breaker : Breaker.CircuitBreaker) : CircuitBreakerManager :=
  {| breakers := <[breakerKey siteID lineType := breaker]> (breakers cbm);
     maxFailures := maxFailures cbm;
     resetTimeout := resetTimeout cbm |}.

Record CircuitBreakerStats := mkCircuitBreakerStats {
  Name : string;
  State : Breaker.CircuitBreakerState;
  Failures : Z
}.

Definition GetStats (cbm : CircuitBreakerManager) : gmap string CircuitBreakerStats :=
  (fun breaker =>
     {| Name := Breaker.name breaker;
        State := Breaker.state breaker;
        Failures := Breaker.failures breaker |}) <$> breakers cbm.

Definition stateToString (state : Breaker.CircuitBreakerState) : string :=
  match state with
  | Breaker.StateClosed => "closed"
  | Breaker.StateHalfOpen => "half-open"
  | Breaker.StateOpen => "open"
  end.

(** The manager [GetGlobalCircuitBreakerManager] creates once: 3 failures,
    60 seconds. *)
Definition globalCircuitBreakerManager : CircuitBreakerManager :=
  NewCircuitBreakerManager 3 (60 * 10 ^ 9).

(** The line names the scheduler uses. *)
Definition isLine (lineType : string) : Prop :=
  lineType = "primary" \/ lineType = "secondary".

(** The transitions of the state machine. *)
Definition legal (change : Breaker.CircuitBreakerState * Breaker.CircuitBreakerState)
  : Prop :=
  change = (Breaker.StateClosed, Breaker.StateOpen)
  \/ change = (Breaker.StateOpen, Breaker.StateHalfOpen)
  \/ change = (Breaker.StateHalfOpen, Breaker.StateClosed)
  \/ change = (Breaker.StateHalfOpen, Breaker.StateOpen).

(** The notifications [changes] lead from [from], step by step, to [to]. *)
Fixpoint leads (from : Breaker.CircuitBreakerState)
    (changes : list (Breaker.CircuitBreakerState * Breaker.CircuitBreakerState))
    (to : Breaker.CircuitBreakerState) : Prop :=
  match changes with
  | [] => from = to
  | (a, b) :: rest => a = from /\ leads b rest to
  end.

(** The number of probe failures a list of results begins with, and the
    number it ends with (the latest result being the last). *)
Fixpoint leadingFailures {E} (results : list (Breaker.CallResult E)) : nat :=
  match results with
  | Breaker.ProbeError _ :: rest => Datatypes.S (leadingFailures rest)
  | _ => 0%nat
  end.

Definition trailingFailures {E} (results : list (Breaker.CallResult E)) : nat :=
  leadingFailures (reverse results).

(** What the counter counts: the breaker is Open or below its threshold,
    and the count in Closed is the number of probe failures since the last
    result that was not one. *)
Definition counts {E : Type} (cb : Breaker.CircuitBreaker)
    (results : list (Breaker.CallResult E)) : Prop :=
  Breaker.settled cb
  /\ (Breaker.state cb = Breaker.StateClosed ->
      Breaker.failures cb = Z.of_nat (trailingFailures results)).

(** A breaker as the manager makes it for the primary line of site s1. *)
Definition sampleBreaker : Breaker.CircuitBreaker :=
  fst (GetBreaker globalCircuitBreakerManager "s1" "primary").

(** A failure, a success and a failure, at seconds 0, 30 and 60. *)
Definition mixedCalls : list (Breaker.Clock * (nat -> option string * nat)) :=
  [ (Breaker.sampleClock 0, Breaker.countingProbe true);
    (Breaker.sampleClock (30 * 10 ^ 9), Breaker.countingProbe false);
    (Breaker.sampleClock (60 * 10 ^ 9), Breaker.countingProbe true) ].

(** Three failures, then a successful trial after the reset timeout. *)
Definition recoveryCalls : list (Breaker.Clock * (nat -> option string * nat)) :=
  Breaker.threeFailures
  ++ [ (Breaker.sampleClock (121 * 10 ^ 9), Breaker.countingProbe false) ].

End Manager.

(** ** [ping.go]: the probe executor *)

Module Prober.
Import GoInt Models.

(** [Config.Ping] *)
Record PingSettings := mkPingSettings {
  DefaultInterval : Z;
  Timeout : Z;
  PacketSize : Z;
  PacketCount : Z
}.

(** The pinger of [github.com/go-ping/ping] as [executePing] configures it;
    [Size] is [None] while the library's default stands. *)
Record Pinger := mkPinger {
  Addr : string;
  Count : Z;
  PingerTimeout : Z;
  Privileged : bool;
  Size : option Z
}.

(** The fields of the library's [Statistics] the code reads; round-trip
    times are [time.Duration]s. *)
Record Statistics := mkStatistics {
  PacketsSent : Z;
  PacketsRecv : Z;
  PacketsRecvDuplicates : Z;
  PacketLoss : float;
  AvgRtt : Z;
  MinRtt : Z;
  MaxRtt : Z;
  StdDevRtt : Z
}.

(** What the library does with a pinger: [NewPinger] fails, [Run] fails,
    or the run ends with statistics. *)
Inductive Outcome :=
| NewPingerError (err : string)
| RunError (err : string)
| Ran (stats : Statistics).

(** [float64(d.Nanoseconds()) / 1000000.0] *)
Definition milliseconds (d : Z) : float :=
  (float64_of_int d / 1000000)%float.

Definition configure (settings : PingSettings) (ip : string) : Pinger :=
  {| Addr := ip;
     Count := if PacketCount settings <=? 0 then 3 else PacketCount settings;
     PingerTimeout := Timeout settings;
     Privileged := false;
     Size := if 0 <? PacketSize settings then Some (PacketSize settings) else None |}.

Definition failed (result : PingResult.t) (message : string) : PingResult.t :=
  {| PingResult.SiteID := PingResult.SiteID result;
     PingResult.IP := PingResult.IP result;
     PingResult.LineType := PingResult.LineType result;
     PingResult.Success := false;
     PingResult.Latency := PingResult.Latency result;
     PingResult.Error := message;
     PingResult.Timestamp := PingResult.Timestamp result;
     PingResult.PacketsSent := PingResult.PacketsSent result;
     PingResult.PacketsRecv := PingResult.PacketsRecv result;
     PingResult.PacketsDuplicates := PingResult.PacketsDuplicates result;
     PingResult.PacketLoss := PingResult.PacketLoss result;
     PingResult.MinLatency := PingResult.MinLatency result;
     PingResult.MaxLatency := PingResult.MaxLatency result;
     PingResult.Jitter := PingResult.Jitter result |}.

(** [result] after the statistics were copied into it. *)
Definition measured (result : PingResult.t) (stats : Statistics) : PingResult.t :=
  let received := 0 <? PacketsRecv stats in
  {| PingResult.SiteID := PingResult.SiteID result;
     PingResult.IP := PingResult.IP result;
     PingResult.LineType := PingResult.LineType result;
     PingResult.Success := received;
     PingResult.Latency :=
       if received then Some (milliseconds (AvgRtt stats)) else PingResult.Latency result;
     PingResult.Error :=
       if received then PingResult.Error result else "no packets received";
     PingResult.Timestamp := PingResult.Timestamp result;
     PingResult.PacketsSent := PacketsSent stats;
     PingResult.PacketsRecv := PacketsRecv stats;
     PingResult.PacketsDuplicates := PacketsRecvDuplicates stats;
     PingResult.PacketLoss :=
       if 0 <? PacketsSent stats then Some (PacketLoss stats)
       else PingResult.PacketLoss result;
     PingResult.MinLatency :=
       if received then Some (milliseconds (MinRtt stats))
       else PingResult.MinLatency result;
     PingResult.MaxLatency :=
       if received then Some (milliseconds (MaxRtt stats))
       else PingResult.MaxLatency result;
     PingResult.Jitter :=
       if received then Some (milliseconds (StdDevRtt stats))
       else PingResult.Jitter result |}.

Section WithNetwork.
(** The network the library pings through: the outcome of a configured
    pinger, and what the attempt leaves of the network. *)
Context {W : Type} (ping : Pinger -> W -> Outcome * W).

(** [executePing]: the error it returns, with the network and [*result]
    as it leaves them. *)
Definition executePing (settings : PingSettings) (state : W * PingResult.t)
  : option string * (W * PingResult.t) :=
  let '(w, result) := state in
  let '(outcome, w) := ping (configure settings (PingResult.IP result)) w in
  match outcome with
  | NewPingerError err =>
      (Some err, (w, failed result ("failed to create pinger: " ++ err)))
  | RunError err =>
      (Some err, (w, failed result ("ping failed: " ++ err)))
  | Ran stats =>
      (if 0 <? PacketsRecv stats then None else Some "no packets received"%string,
       (w, measured result stats))
  end.

(** The result [PingIP] starts from. *)
Definition newResult (siteID ip lineType : string) (now : Z) : PingResult.t :=
  {| PingResult.SiteID := siteID; PingResult.IP := ip;
     PingResult.LineType := lineType; PingResult.Success := false;
     PingResult.Latency := None; PingResult.Error := "";
     PingResult.Timestamp := now;
     PingResult.PacketsSent := 0; PingResult.PacketsRecv := 0;
     PingResult.PacketsDuplicates := 0; PingResult.PacketLoss := None;
     PingResult.MinLatency := None; PingResult.MaxLatency := None;
     PingResult.Jitter := None |}.

(** The method [Error] of [CircuitBreakerError]. *)
Definition CircuitBreakerError_Error (Name State : string) : string :=
  ("circuit breaker '" ++ Name ++ "' is " ++ State)%string.

(** [PingIP]: the result it sends to the result channel, the registry and
    the network as it leaves them. [now] is the reading that stamps the
    result, [clk] are the readings of the breaker. *)
Definition PingIP (cbm : Manager.CircuitBreakerManager) (settings : PingSettings)
    (siteID ip lineType : string) (now : Z) (clk : Breaker.Clock) (w : W)
  : PingResult.t * Manager.CircuitBreakerManager * W :=
  let result := newResult siteID ip lineType now in
  let '(cb, cbm) := Manager.GetBreaker cbm siteID lineType in
  let '(err, cb, (w, result)) := Breaker.Call cb clk (executePing settings) (w, result) in
  let cbm := Manager.putBreaker cbm siteID lineType cb in
  let result :=
    match err with
    | Breaker.CircuitBreakerError Name State =>
        failed result ("circuit breaker open: " ++ CircuitBreakerError_Error Name State)
    | _ => result
    end in
  (result, cbm, w).

(** The breaker [PingIP] works on: the one registered for the pair, or a
    new one. *)
Definition breakerOf (cbm : Manager.CircuitBreakerManager) (siteID lineType : string)
  : Breaker.CircuitBreaker :=
  fst (Manager.GetBreaker cbm siteID lineType).

(** The result after [PingIP] has looked at the error [Call] returned. *)
Definition finish (err : Breaker.CallResult string) (result : PingResult.t)
  : PingResult.t :=
  match err with
  | Breaker.CircuitBreakerError Name State =>
      failed result ("circuit breaker open: " ++ CircuitBreakerError_Error Name State)
  | _ => result
  end.

(** The error text of a probe the breaker of the pair rejected. *)
Definition blockedText (siteID lineType : string) : string :=
  ("circuit breaker open: "
   ++ CircuitBreakerError_Error (Manager.breakerName siteID lineType) "open")%string.

(** [PingIPSync]: success, latency and error message. *)
Definition PingIPSync (settings : PingSettings) (ip : string) (w : W)
  : (bool * option float * string) * W :=
  let '(outcome, w) := ping (configure settings ip) w in
  match outcome with
  | NewPingerError err => ((false, None, ("failed to create pinger: " ++ err)%string), w)
  | RunError err => ((false, None, ("ping failed: " ++ err)%string), w)
  | Ran stats =>
      if 0 <? PacketsRecv stats
      then ((true, Some (milliseconds (AvgRtt stats)), ""%string), w)
      else ((false, None, "no packets received"%string), w)
  end.

(** Probes of one pair, one after the other: the results in order. *)
Fixpoint PingIPs (cbm : Manager.CircuitBreakerManager) (settings : PingSettings)
    (siteID ip lineType : string) (rounds : list (Z * Breaker.Clock)) (w : W)
  : list PingResult.t * Manager.CircuitBreakerManager * W :=
  match rounds with
  | [] => ([], cbm, w)
  | (now, clk) :: rounds' =>
      let '(result, cbm, w) := PingIP cbm settings siteID ip lineType now clk w in
      let '(results, cbm, w) := PingIPs cbm settings siteID ip lineType rounds' w in
      (result :: results, cbm, w)
  end.

(** A network on which no probe is answered: whatever is run, no packet
    comes back. *)
Definition unanswered : Prop :=
  forall p w, match fst (ping p w) with
              | Ran stats => PacketsRecv stats <= 0
              | _ => True
              end.

End WithNetwork.

(** A network on which nothing answers: every run ends with no packet
    received; it counts the runs. *)
Definition silent (p : Pinger) (runs : nat) : Outcome * nat :=
  (Ran {| PacketsSent := Count p; PacketsRecv := 0; PacketsRecvDuplicates := 0;
          PacketLoss := 100; AvgRtt := 0; MinRtt := 0; MaxRtt := 0;
          StdDevRtt := 0 |}, Datatypes.S runs).

(** A network on which every packet comes back after 12 ms. *)
Definition answering (p : Pinger) (runs : nat) : Outcome * nat :=
  (Ran {| PacketsSent := Count p; PacketsRecv := Count p;
          PacketsRecvDuplicates := 0; PacketLoss := 0;
          AvgRtt := 12 * 10 ^ 6; MinRtt := 11 * 10 ^ 6; MaxRtt := 13 * 10 ^ 6;
          StdDevRtt := 10 ^ 6 |}, Datatypes.S runs).

Definition sampleSettings : PingSettings :=
  {| DefaultInterval := 30 * 10 ^ 9; Timeout := 5 * 10 ^ 9;
     PacketSize := 0; PacketCount := 0 |}.

(** Three probes, at seconds 0, 30 and 60. *)
Definition sampleRounds : list (Z * Breaker.Clock) :=
  [ (0, Breaker.sampleClock 0);
    (30 * 10 ^ 9, Breaker.sampleClock (30 * 10 ^ 9));
    (60 * 10 ^ 9, Breaker.sampleClock (60 * 10 ^ 9)) ].

End Prober.

(** ** [ping.go] over a backend: queries and queues *)

Module Pipeline.
Import GoInt Models Config.

(** [GetFilteredLogs] of package ping: the backend's entries, or nil and
    the backend's error. *)
Definition GetFilteredLogs {S} `{Storage S} (appState : AppState S)
    (siteID : string) (success : option bool) (limit : Z) : list PingLog.t * error :=
  match Config.GetFilteredLogs (Storage_ appState) siteID success limit with
  | (logs, None) => (logs, None)
  | (_, Some err) => ([], Some err)
  end.

(** The entries [HandlePingResult] hands to the backend for a queue of
    results, in order. *)
Definition entriesOf (sites : list Site.t) (queue : list PingResult.t)
  : list PingLog.t :=
  map (fun result =>
         Ping.logEntry result (Ping.siteNameOf sites (PingResult.SiteID result)))
      queue.

(** The results of a queue for one site, for one line of it, and the last
    of them. *)
Definition forSite (siteID : string) (result : PingResult.t) : bool :=
  String.eqb (PingResult.SiteID result) siteID.

Definition onLine (siteID line : string) (result : PingResult.t) : bool :=
  forSite siteID result && String.eqb (PingResult.LineType result) line.

Definition lastOf (siteID : string) (queue : list PingResult.t)
  : option PingResult.t :=
  last (List.filter (forSite siteID) queue).

Definition lastOn (siteID line : string) (queue : list PingResult.t)
  : option PingResult.t :=
  last (List.filter (onLine siteID line) queue).

(** What a status entry shows for a line: online flag, latency, error. *)
Definition primaryView (status : SiteStatus.t) : bool * option float * string :=
  (SiteStatus.PrimaryOnline status, SiteStatus.PrimaryLatency status,
   SiteStatus.PrimaryError status).

Definition secondaryView (status : SiteStatus.t) : bool * option float * string :=
  (SiteStatus.SecondaryOnline status, SiteStatus.SecondaryLatency status,
   SiteStatus.SecondaryError status).

(** What a result writes into the view of its line. *)
Definition viewOf (result : PingResult.t) : bool * option float * string :=
  (PingResult.Success result,
   (if PingResult.Success result then PingResult.Latency result else None),
   (if PingResult.Success result then ""%string else PingResult.Error result)).

End Pipeline.

(** ** The aggregates of the statistics engine, by what they count *)

Module Aggregate.
Import GoInt Models Stats.

(** The aggregate [AddLog] builds from a new one over [logs], in order. *)
Definition aggregate (logs : list PingLog.t) : TimeframeStats :=
  fold_left AddLog logs NewTimeframeStats.

(** The number of entries that satisfy [f]. *)
Definition countOf (f : PingLog.t -> bool) (logs : list PingLog.t) : Z :=
  Z.of_nat (length (List.filter f logs)).

Definition onPrimary (log : PingLog.t) : bool :=
  String.eqb (PingLog.Target log) "primary".

Definition onSecondary (log : PingLog.t) : bool :=
  String.eqb (PingLog.Target log) "secondary".

(** The latency sample of an entry: the latency of a success that has
    one. *)
Definition sample (log : PingLog.t) : option float :=
  if PingLog.Success log then PingLog.Latency log else None.

(** The entries the pass of [CalculateSiteStatistics] counts for a site:
    those of the site that [validateLogData] accepts. *)
Definition counted (siteID : string) (log : PingLog.t) : bool :=
  String.eqb (PingLog.SiteID log) siteID
  && bool_decide (validateLogData log = None).

(** [log.Timestamp.After(since)] *)
Definition after (since : Z) (log : PingLog.t) : bool :=
  since <? PingLog.Timestamp log.

(** The counters of an aggregate, as counts of the entries added. *)
Definition tallied (ts : TimeframeStats) (logs : list PingLog.t) : Prop :=
  TotalChecks ts = Z.of_nat (length logs)
  /\ SuccessChecks ts = countOf PingLog.Success logs
  /\ PrimaryTotal ts = countOf onPrimary logs
  /\ PrimarySuccess ts = countOf (fun log => onPrimary log && PingLog.Success log) logs
  /\ SecondaryTotal ts = countOf onSecondary logs
  /\ SecondarySuccess ts
     = countOf (fun log => onSecondary log && PingLog.Success log) logs
  /\ Latencies ts = omap sample logs.

(** The number of latencies that fall into bucket [i]. *)
Definition bucketCount (i : nat) (latencies : list float) : nat :=
  length (List.filter (fun latency => Nat.eqb (bucketIndex latency) i) latencies).

(** A counter of type [float64] after [n] increments. *)
Definition incremented (n : nat) : float :=
  Nat.iter n (fun count => (count + 1)%float) 0%float.

(** An application state as [app], on another backend. *)
Definition withStorage {S1 S2} (app : Config.AppState S1) (storage : S2)
  : Config.AppState S2 :=
  {| Config.Sites := Config.Sites app;
     Config.SiteStatus := Config.SiteStatus app;
     Config.Storage_ := storage;
     Config.TotalChecks := Config.TotalChecks app;
     Config.Metrics := Config.Metrics app |}.

End Aggregate.

(** ** Chart buckets and the overview *)

Module Charts.
Import GoInt Models Stats.

Local Open Scope float_scope.

(** The methods of [time.Time] the chart generators call. *)
Class GoTime := {
  (** [t.Truncate(d)] *)
  time_Truncate : Z -> Z -> Z;
  (** [t.Format(layout)] *)
  time_Format : Z -> string -> string
}.

(** [if i < len(data) { data[i] } else { 0 }] *)
Definition valueAt (data : list float) (i : nat) : float :=
  if (i <? length data)%nat then nth i data 0 else 0.

(** The loop [for i := 0; i < len(labels); i++] of [filterEmptyBuckets]
    over the labels still to visit, [i] being the index of the first of
    them, with the three slices built so far. *)
Fixpoint keepLoop (primaryData secondaryData : list float) (i : nat)
    (todo : list string) (filtered : list string * list float * list float)
  : list string * list float * list float :=
  match todo with
  | [] => filtered
  | label :: todo' =>
      let hasPrimaryData := (i <? length primaryData)%nat in
      let hasSecondaryData := (i <? length secondaryData)%nat in
      let filtered :=
        if hasPrimaryData || hasSecondaryData then
          let '(filteredLabels, filteredPrimary, filteredSecondary) := filtered in
          (filteredLabels ++ [label],
           filteredPrimary ++ [valueAt primaryData i],
           filteredSecondary ++ [valueAt secondaryData i])
        else filtered in
      keepLoop primaryData secondaryData (Datatypes.S i) todo' filtered
  end.

Definition filterEmptyBuckets (labels : list string)
    (primaryData secondaryData : list float) : ChartDataResult :=
  let '(filteredLabels, filteredPrimary, filteredSecondary) :=
    keepLoop primaryData secondaryData 0 labels ([], [], []) in
  let '(filteredLabels, filteredPrimary, filteredSecondary) :=
    if (length filteredLabels =? 0)%nat && (0 <? length labels)%nat then
      let lastIdx := (length labels - 1)%nat in
      (filteredLabels ++ [nth lastIdx labels ""%string],
       filteredPrimary ++ [valueAt primaryData lastIdx],
       filteredSecondary ++ [valueAt secondaryData lastIdx])
    else (filteredLabels, filteredPrimary, filteredSecondary) in
  {| Labels := filteredLabels; CombinedData := [];
     PrimaryData := filteredPrimary; SecondaryData := filteredSecondary |}.

(** The number of buckets that have an index into either data slice. *)
Definition indexed (labels : list string) (primaryData secondaryData : list float)
  : nat :=
  Nat.min (length labels) (Nat.max (length primaryData) (length secondaryData)).

(** The entries [generateDistributionChart] charts: successes of the site
    with a latency, not earlier than [since]. *)
Definition charted (siteID : string) (since : Z) (log : PingLog.t) : bool :=
  String.eqb (PingLog.SiteID log) siteID
  && negb (PingLog.Timestamp log <? since)%Z
  && PingLog.Success log
  && bool_decide (is_Some (PingLog.Latency log)).

(** The latencies charted, of every line and of the line [line]. *)
Definition chartedLatencies (allLogs : list PingLog.t) (siteID : string) (since : Z)
  : list float :=
  omap PingLog.Latency (List.filter (charted siteID since) allLogs).

Definition chartedOn (line : string) (allLogs : list PingLog.t) (siteID : string)
    (since : Z) : list float :=
  omap PingLog.Latency
    (List.filter (fun log => charted siteID since log
                             && String.eqb (PingLog.Target log) line) allLogs).

(** The values [i] takes in [for i := n - 1; i >= 0; i--]. *)
Definition countdown (n : Z) : list Z :=
  map (fun k => (n - 1 - Z.of_nat k)%Z) (seq 0 (Z.to_nat n)).

Section WithGoTime.
Context `{GoTime}.

(** [now.Add(time.Duration(-i) * time.Hour).Truncate(time.Hour)] *)
Definition hourStart (now i : Z) : Z :=
  time_Truncate (now + wrap64 (wrap64 (- i) * time_Hour))%Z time_Hour.

(** The guard of the inner loops: the entry is of another site or outside
    [hourStart, hourEnd). *)
Definition outside (siteID : string) (start finish : Z) (log : PingLog.t) : bool :=
  negb (String.eqb (PingLog.SiteID log) siteID)
  || (PingLog.Timestamp log <? start)%Z
  || negb (PingLog.Timestamp log <? finish)%Z.

(** One iteration of the inner loop of [generatePacketLossChart]: the sums
    and counts of the two lines. *)
Definition lossStep (siteID : string) (start finish : Z)
    (acc : float * Z * float * Z) (log : PingLog.t) : float * Z * float * Z :=
  let '(primaryLossSum, primaryCount, secondaryLossSum, secondaryCount) := acc in
  if outside siteID start finish log then acc
  else
    match PingLog.PacketLoss log with
    | None => acc
    | Some loss =>
        if String.eqb (PingLog.Target log) "primary"
        then (primaryLossSum + loss, incr primaryCount, secondaryLossSum, secondaryCount)
        else if String.eqb (PingLog.Target log) "secondary"
        then (primaryLossSum, primaryCount, secondaryLossSum + loss, incr secondaryCount)
        else acc
    end.

(** The body of the outer loop for the hour [i] hours back: its label and
    the mean loss of either line, 0 for a line without a sample. *)
Definition hourLoss (allLogs : list PingLog.t) (siteID : string) (now i : Z)
  : string * float * float :=
  let start := hourStart now i in
  let finish := (start + time_Hour)%Z in
  let '(primaryLossSum, primaryCount, secondaryLossSum, secondaryCount) :=
    fold_left (lossStep siteID start finish) allLogs (0, 0%Z, 0, 0%Z) in
  (time_Format start "15:04",
   (if (0 <? primaryCount)%Z then primaryLossSum / float64_of_int primaryCount
    else 0),
   (if (0 <? secondaryCount)%Z then secondaryLossSum / float64_of_int secondaryCount
    else 0)).

(** One iteration of the outer loop: the label and the two values are
    appended. *)
Definition lossBucket (allLogs : list PingLog.t) (siteID : string) (now : Z)
    (acc : list string * list float * list float) (i : Z)
  : list string * list float * list float :=
  let '(labels, primaryPacketLoss, secondaryPacketLoss) := acc in
  let '(label, primaryLoss, secondaryLoss) := hourLoss allLogs siteID now i in
  (labels ++ [label], primaryPacketLoss ++ [primaryLoss],
   secondaryPacketLoss ++ [secondaryLoss]).

Definition generatePacketLossChart (allLogs : list PingLog.t) (siteID : string)
    (now hours : Z) : ChartDataResult :=
  let '(labels, primaryPacketLoss, secondaryPacketLoss) :=
    fold_left (lossBucket allLogs siteID now) (countdown hours) ([], [], []) in
  filterEmptyBuckets labels primaryPacketLoss secondaryPacketLoss.

End WithGoTime.

(** A reference [GoTime] for times in UTC: truncation to a multiple of
    [d] counted from the Unix epoch (which lies a whole number of hours
    after the zero time), and the layout 15:04, the one the hourly charts
    use. *)
Definition Truncate (t d : Z) : Z := if (d <=? 0)%Z then t else (t - t mod d)%Z.

Definition twoDigits (n : Z) : string :=
  String (Ascii.ascii_of_nat (48 + Z.to_nat (n / 10)))
    (String (Ascii.ascii_of_nat (48 + Z.to_nat (n mod 10))) EmptyString).

Definition Format (t : Z) (layout : string) : string :=
  (twoDigits ((t / time_Hour) mod 24) ++ ":"
   ++ twoDigits ((t / (60 * 10 ^ 9)) mod 60))%string.

Definition goTime : GoTime :=
  {| time_Truncate := Truncate; time_Format := Format |}.

(** Two probes of the primary line of site "s1" in the hour from 10:00,
    losing 0 and 50 percent of their packets. *)
Definition lossyHour : list PingLog.t :=
  [ PingLog.with_ID
      {| PingLog.ID := 0; PingLog.Timestamp := (36000 * 10 ^ 9)%Z;
         PingLog.SiteID := "s1"; PingLog.SiteName := "Site 1";
         PingLog.Target := "primary"; PingLog.IP := "192.0.2.1";
         PingLog.Success := true; PingLog.Latency := Some 12;
         PingLog.Error := ""; PingLog.PacketsSent := 4;
         PingLog.PacketsRecv := 4; PingLog.PacketsDuplicates := 0;
         PingLog.PacketLoss := Some 0; PingLog.MinLatency := None;
         PingLog.MaxLatency := None; PingLog.Jitter := None |} 1;
    PingLog.with_ID
      {| PingLog.ID := 0; PingLog.Timestamp := (36030 * 10 ^ 9)%Z;
         PingLog.SiteID := "s1"; PingLog.SiteName := "Site 1";
         PingLog.Target := "primary"; PingLog.IP := "192.0.2.1";
         PingLog.Success := true; PingLog.Latency := Some 14;
         PingLog.Error := ""; PingLog.PacketsSent := 4;
         PingLog.PacketsRecv := 2; PingLog.PacketsDuplicates := 0;
         PingLog.PacketLoss := Some 50; PingLog.MinLatency := None;
         PingLog.MaxLatency := None; PingLog.Jitter := None |} 2 ].

End Charts.

Module Overview.
Import GoInt Models Config Stats.

Local Open Scope float_scope.

(** [models.OverviewData] without the display string of the process
    uptime. *)
Record OverviewData := mkOverviewData {
  TotalSites : Z;
  OnlineSites : Z;
  OfflineSites : Z;
  DegradedSites : Z;
  UptimePercentage : float;
  OV_TotalChecks : Z
}.

(** One iteration of the loop over [app.Sites]: the online, offline and
    degraded counters. *)
Definition countSite (statuses : gmap string SiteStatus.t) (acc : Z * Z * Z)
    (site : Site.t) : Z * Z * Z :=
  let '(onlineSites, offlineSites, degradedSites) := acc in
  if negb (Site.Enabled site) then acc
  else
    match statuses !! Site.ID site with
    | None => (onlineSites, incr offlineSites, degradedSites)
    | Some status =>
        if Site.IsDualLine site then
          if SiteStatus.PrimaryOnline status && SiteStatus.SecondaryOnline status
          then (incr onlineSites, offlineSites, degradedSites)
          else if SiteStatus.PrimaryOnline status || SiteStatus.SecondaryOnline status
          then (incr onlineSites, offlineSites, incr degradedSites)
          else (onlineSites, incr offlineSites, degradedSites)
        else if SiteStatus.PrimaryOnline status
        then (incr onlineSites, offlineSites, degradedSites)
        else (onlineSites, incr offlineSites, degradedSites)
    end.

Section WithGoLib.
Context `{GoLib} {S : Type} `{Storage S}.

Definition CalculateOverviewData (app : AppState S) : OverviewData :=
  let allLogs := Stats.GetAllLogs app in
  let totalSites := Z.of_nat (length (Sites app)) in
  let '(onlineSites, offlineSites, degradedSites) :=
    fold_left (countSite (SiteStatus app)) (Sites app) (0, 0, 0)%Z in
  let totalChecks := Config.TotalChecks app in
  let successfulChecks :=
    fold_left (fun n log => if PingLog.Success log then incr n else n) allLogs 0%Z in
  let uptimePercentage :=
    if (0 <? Z.of_nat (length allLogs))%Z
    then roundToDecimalPlaces
           (float64_of_int successfulChecks
            / float64_of_int (Z.of_nat (length allLogs)) * 100)
           UptimePrecision
    else 0 in
  {| TotalSites := totalSites; OnlineSites := onlineSites;
     OfflineSites := offlineSites; DegradedSites := degradedSites;
     UptimePercentage := uptimePercentage; OV_TotalChecks := totalChecks |}.

End WithGoLib.

(** The number of sites that satisfy [f]. *)
Definition sitesWhere (f : Site.t -> bool) (sites : list Site.t) : Z :=
  Z.of_nat (length (List.filter f sites)).

(** How the overview classes a site: not counted, online, degraded (which
    is also online), offline. *)
Definition lineUp (statuses : gmap string SiteStatus.t) (site : Site.t)
    (line : SiteStatus.t -> bool) : bool :=
  match statuses !! Site.ID site with
  | Some status => line status
  | None => false
  end.

Definition isOnline (statuses : gmap string SiteStatus.t) (site : Site.t) : bool :=
  Site.Enabled site
  && (lineUp statuses site SiteStatus.PrimaryOnline
      || Site.IsDualLine site && lineUp statuses site SiteStatus.SecondaryOnline).

Definition isDegraded (statuses : gmap string SiteStatus.t) (site : Site.t) : bool :=
  Site.Enabled site && Site.IsDualLine site
  && xorb (lineUp statuses site SiteStatus.PrimaryOnline)
          (lineUp statuses site SiteStatus.SecondaryOnline).

Definition isOffline (statuses : gmap string SiteStatus.t) (site : Site.t) : bool :=
  Site.Enabled site && negb (isOnline statuses site).

End Overview.

(** ** [models.APIToken] and [internal/services/auth]: who may call *)

Module Auth.
Import GoInt.

(** [models.APIToken]; the creation time stamp is never read. *)
Record APIToken := mkAPIToken {
  Token : string;
  Name : string;
  Permissions : list string;
  Expires : option string
}.

Record UIAuthConfig := mkUIAuthConfig {
  Secret : string;
  SessionName : string;
  ExpiresHours : Z
}.

(** [models.AuthConfig], with the token list of its [API] block. *)
Record AuthConfig := mkAuthConfig {
  Enabled : bool;
  UI : UIAuthConfig;
  Tokens : list APIToken
}.

(** [auth.Service]; [None] is the nil [*models.AuthConfig]. *)
Record Service := mkService { config : option AuthConfig }.

Definition NewService (config : option AuthConfig) : Service :=
  {| config := config |}.

(** [time.Parse(layout, value)]: the time, or [None] for its error. *)
Class GoParse := { time_Parse : string -> string -> option Z }.

Definition PermissionAdmin : string := "admin".

(** The loop of [HasPermission] over the permissions still to visit. *)
Fixpoint permits (permissions : list string) (permission : string) : bool :=
  match permissions with
  | [] => false
  | p :: rest =>
      if String.eqb p permission then true
      else if String.eqb p PermissionAdmin then true
      else permits rest permission
  end.

(** [(t *APIToken).HasPermission] *)
Definition HasPermission (t : APIToken) (permission : string) : bool :=
  permits (Permissions t) permission.

Section WithGoParse.
Context `{GoParse}.

(** [(t *APIToken).IsExpired], the clock reading [now]. *)
Definition IsExpired (t : APIToken) (now : Z) : bool :=
  match Expires t with
  | None => false
  | Some expires =>
      match time_Parse "2006-01-02" expires with
      | None => true
      | Some expireDate => expireDate <? now
      end
  end.

Definition IsEnabled (s : Service) : bool :=
  match config s with
  | Some config => Enabled config
  | None => false
  end.

Definition ValidateUISecret (s : Service) (secret : string) : bool :=
  match config s with
  | Some config =>
      if negb (Enabled config) then true
      else negb (String.eqb (Secret (UI config)) "")
           && String.eqb (Secret (UI config)) secret
  | None => true
  end.

(** The token [ValidateAPIToken] hands out while authentication is off. *)
Definition disabledToken : APIToken :=
  {| Token := "disabled"; Name := "Authentication Disabled";
     Permissions := ["metrics"; "read"; "admin"]; Expires := None |}.

(** The loop of [ValidateAPIToken] over the tokens still to visit. *)
Fixpoint findToken (tokens : list APIToken) (tokenString : string) (now : Z)
  : APIToken + string :=
  match tokens with
  | [] => inr "invalid token"%string
  | token :: rest =>
      if String.eqb (Token token) tokenString then
        if IsExpired token now then inr "token expired"%string else inl token
      else findToken rest tokenString now
  end.

(** [ValidateAPIToken]: the token, or the text of the error. *)
Definition ValidateAPIToken (s : Service) (tokenString : string) (now : Z)
  : APIToken + string :=
  match config s with
  | Some config =>
      if negb (Enabled config) then inl disabledToken
      else findToken (Tokens config) tokenString now
  | None => inl disabledToken
  end.

(** [(s *Service).HasPermission]; [None] is the nil token. *)
Definition ServiceHasPermission (s : Service) (token : option APIToken)
    (permission : string) : bool :=
  if negb (IsEnabled s) then true
  else match token with
       | Some token => HasPermission token permission
       | None => false
       end.

End WithGoParse.

(** The configured tokens that carry the string [tokenString]. *)
Definition named (tokenString : string) (tokens : list APIToken) : list APIToken :=
  List.filter (fun token => String.eqb (Token token) tokenString) tokens.

(** A parser that knows two dates, and a configuration with a reader
    token, listed twice with different expiry dates, and an admin token. *)
Definition sampleParse : GoParse :=
  {| time_Parse := fun layout value =>
       if String.eqb value "2024-01-01" then Some (1704067200 * 10 ^ 9)
       else if String.eqb value "2030-01-01" then Some (1893456000 * 10 ^ 9)
       else None |}.

Definition sampleService : Service :=
  NewService
    (Some {| Enabled := true;
             UI := {| Secret := ""; SessionName := ""; ExpiresHours := 0 |};
             Tokens :=
               [ {| Token := "sw_reader"; Name := "old reader";
                    Permissions := ["read"]; Expires := Some "2024-01-01"%string |};
                 {| Token := "sw_reader"; Name := "new reader";
                    Permissions := ["read"]; Expires := Some "2030-01-01"%string |};
                 {| Token := "sw_root"; Name := "root";
                    Permissions := ["admin"]; Expires := None |} ] |}).

End Auth.

(** ** Start-up *)

Module Startup.
Import Models.

(** The entry [InitializeSiteStatus] writes for a site. *)
Definition offlineEntry (siteID : string) (now : Z) : SiteStatus.t :=
  {| SiteStatus.SiteID := siteID;
     SiteStatus.PrimaryOnline := false;
     SiteStatus.SecondaryOnline := false;
     SiteStatus.BothOnline := false;
     SiteStatus.PrimaryLatency := None;
     SiteStatus.SecondaryLatency := None;
     SiteStatus.LastCheck := now;
     SiteStatus.PrimaryError := "";
     SiteStatus.SecondaryError := "" |}.

End Startup.

(** * Verification *)

(** ** Machine integers and clock arithmetic *)

Module GoIntFacts.
Import GoInt.

Lemma wrap64_id z : in_int64 z -> wrap64 z = z.
Proof.
  unfold in_int64, minInt64, maxInt64, wrap64. intros Hz.
  rewrite Z.mod_small; lia.
Qed.

Lemma wrap64_range z : in_int64 (wrap64 z).
Proof.
  unfold in_int64, minInt64, maxInt64, wrap64.
  pose proof (Z.mod_pos_bound (z + 2 ^ 63) (2 ^ 64)). lia.
Qed.

Lemma time_Since_mono now1 now2 t :
  now1 <= now2 -> time_Since now1 t <= time_Since now2 t.
Proof. unfold time_Since, time_Sub. lia. Qed.

End GoIntFacts.

(** ** The failure isolator *)

Module BreakerFacts.
Import GoInt GoIntFacts Breaker.

Section Probe.
Context {W E : Type}.
Implicit Types (cb : CircuitBreaker) (clk : Clock) (fn : W -> option E * W) (w : W).

Lemma Call_closed cb clk fn w :
  state cb = StateClosed ->
  Call cb clk fn w =
    (resultOf (fst (fn w)),
     match fst (fn w) with
     | Some _ => recordFailure cb (t_fail clk)
     | None => recordSuccess cb
     end,
     snd (fn w)).
Proof.
  intros Hst. unfold Call, canExecute. rewrite Hst. simpl.
  destruct (fn w) as [[e|] w']; reflexivity.
Qed.

Lemma Call_closed_trips cb clk fn w e w' :
  state cb = StateClosed ->
  fn w = (Some e, w') ->
  maxFailures cb <= wrap64 (failures cb + 1) ->
  exists cb', Call cb clk fn w = (ProbeError e, cb', w') /\ state cb' = StateOpen.
Proof.
  intros Hst Hfn Hmax. rewrite (Call_closed _ _ _ _ Hst), Hfn. simpl.
  eexists; split; [reflexivity|].
  unfold recordFailure. simpl. rewrite Hst.
  destruct (Z.leb_spec (maxFailures cb) (wrap64 (failures cb + 1))); [reflexivity | lia].
Qed.

Lemma Call_open_blocked cb clk fn w :
  state cb = StateOpen ->
  time_Since (t_check clk) (lastFailTime cb) <= resetTimeout cb ->
  Call cb clk fn w = (CircuitBreakerError (name cb) "open", cb, w).
Proof.
  intros Hst Hle. unfold Call, canExecute. rewrite Hst.
  destruct (Z.ltb_spec (resetTimeout cb) (time_Since (t_check clk) (lastFailTime cb)));
    [lia|].
  simpl. unfold getStateString. rewrite Hst. reflexivity.
Qed.

Lemma canExecute_open_elapsed cb clk :
  state cb = StateOpen ->
  resetTimeout cb < time_Since (t_check clk) (lastFailTime cb) ->
  t_check clk <= t_recheck clk ->
  canExecute cb clk = (true, setState cb StateHalfOpen).
Proof.
  intros Hst Hlt Hmono. unfold canExecute. rewrite Hst.
  pose proof (time_Since_mono _ _ (lastFailTime cb) Hmono) as Hm.
  destruct (Z.ltb_spec (resetTimeout cb) (time_Since (t_check clk) (lastFailTime cb)));
    [|lia].
  destruct (Z.ltb_spec (resetTimeout cb) (time_Since (t_recheck clk) (lastFailTime cb)));
    [|lia].
  reflexivity.
Qed.

Lemma Call_open_trial cb clk fn w :
  state cb = StateOpen ->
  resetTimeout cb < time_Since (t_check clk) (lastFailTime cb) ->
  t_check clk <= t_recheck clk ->
  exists cb',
    Call cb clk fn w = (resultOf (fst (fn w)), cb', snd (fn w))
    /\ match fst (fn w) with
       | None => state cb' = StateClosed /\ failures cb' = 0
       | Some _ => state cb' = StateOpen
       end.
Proof.
  intros Hst Hlt Hmono. unfold Call.
  rewrite (canExecute_open_elapsed _ _ Hst Hlt Hmono). simpl.
  destruct (fn w) as [[e|] w']; simpl; eexists; (split; [reflexivity|]).
  - reflexivity.
  - split; reflexivity.
Qed.


Lemma Call_maxFailures cb clk fn w :
  maxFailures (snd (fst (Call cb clk fn w))) = maxFailures cb.
Proof.
  unfold Call, canExecute.
  destruct (state cb) eqn:Hst; simpl;
    repeat match goal with
           | |- context [if ?b then _ else _] => destruct b; simpl
           | |- context [fn w] => destruct (fn w) as [[?|] ?]; simpl
           end;
    unfold recordFailure, recordSuccess; simpl; rewrite ?Hst; simpl;
    repeat match goal with
           | |- context [if ?b then _ else _] => destruct b; simpl
           end; reflexivity.
Qed.

Lemma Call_settled cb clk fn w :
  1 <= maxFailures cb <= maxInt64 ->
  settled cb ->
  settled (snd (fst (Call cb clk fn w))).
Proof.
  intros Hmax [Hst | [Hst Hf]].
  - unfold Call, canExecute. rewrite Hst.
    destruct (resetTimeout cb <? time_Since (t_check clk) (lastFailTime cb));
      [|left; exact Hst].
    destruct (resetTimeout cb <? time_Since (t_recheck clk) (lastFailTime cb)); simpl.
    + destruct (fn w) as [[e|] w']; simpl.
      * left. reflexivity.
      * right. split; [reflexivity | simpl; lia].
    + rewrite Hst. simpl. left. exact Hst.
  - rewrite (Call_closed _ _ _ _ Hst).
    destruct (fn w) as [[e|] w']; simpl.
    + unfold recordFailure. simpl. rewrite Hst.
      rewrite wrap64_id by (unfold in_int64, minInt64, maxInt64 in *; lia).
      destruct (Z.leb_spec (maxFailures cb) (failures cb + 1)).
      * left. reflexivity.
      * right. simpl. split; [exact Hst | lia].
    + unfold recordSuccess. rewrite Hst.
      destruct (Z.ltb_spec 0 (failures cb)).
      * right. simpl. split; [exact Hst | lia].
      * right. split; [exact Hst | lia].
Qed.



Lemma fresh_settled cb :
  state cb = StateClosed -> failures cb = 0 -> 1 <= maxFailures cb -> settled cb.
Proof. intros Hst Hf Hmax. right. split; [exact Hst | lia]. Qed.

(** *** The counter *)

Lemma run_snoc (calls : list (Clock * (W -> option E * W))) : forall cb w clk fn,
  run cb w (calls ++ [(clk, fn)])
  = let '(rs, cb1, w1) := run cb w calls in
    let '(r, cb2, w2) := Call cb1 clk fn w1 in
    (rs ++ [r], cb2, w2).
Proof.
  induction calls as [|[clk0 fn0] calls IH]; intros cb w clk fn; simpl.
  - destruct (Call cb clk fn w) as [[r cb2] w2]. reflexivity.
  - destruct (Call cb clk0 fn0 w) as [[r0 cb0] w0]. rewrite IH.
    destruct (run cb0 w0 calls) as [[rs cb1] w1].
    destruct (Call cb1 clk fn w1) as [[r cb2] w2]. reflexivity.
Qed.

Lemma trailingFailures_snoc (results : list (CallResult E)) r :
  Manager.trailingFailures (results ++ [r])
  = match r with
    | ProbeError _ => Datatypes.S (Manager.trailingFailures results)
    | _ => 0%nat
    end.
Proof.
  unfold Manager.trailingFailures. rewrite reverse_snoc. destruct r; reflexivity.
Qed.

Lemma Call_counts cb clk fn w results :
  1 <= maxFailures cb <= maxInt64 ->
  Manager.counts cb results ->
  Manager.counts (snd (fst (Call cb clk fn w)))
         (results ++ [fst (fst (Call cb clk fn w))]).
Proof.
  intros Hmax [Hsettled Hcount]. split; [apply Call_settled; assumption|].
  rewrite trailingFailures_snoc.
  destruct Hsettled as [Hst | [Hst Hf]].
  - unfold Call, canExecute. rewrite Hst.
    destruct (resetTimeout cb <? time_Since (t_check clk) (lastFailTime cb));
      [|simpl; rewrite Hst; discriminate].
    destruct (resetTimeout cb <? time_Since (t_recheck clk) (lastFailTime cb)); simpl.
    + destruct (fn w) as [[e|] w']; simpl; [discriminate | reflexivity].
    + rewrite Hst. simpl. rewrite Hst. discriminate.
  - rewrite (Call_closed _ _ _ _ Hst). specialize (Hcount Hst).
    destruct (fn w) as [[e|] w']; simpl.
    + unfold recordFailure. simpl. rewrite Hst.
      rewrite wrap64_id by (unfold in_int64, minInt64, maxInt64 in *; lia).
      destruct (Z.leb_spec (maxFailures cb) (failures cb + 1)); simpl;
        [discriminate | intros _; lia].
    + unfold recordSuccess. rewrite Hst.
      destruct (Z.ltb_spec 0 (failures cb)); simpl; intros _; lia.
Qed.

Lemma run_counts (calls : list (Clock * (W -> option E * W))) : forall cb w,
  state cb = StateClosed -> failures cb = 0 ->
  1 <= maxFailures cb <= maxInt64 ->
  Manager.counts (snd (fst (run cb w calls))) (fst (fst (run cb w calls)))
  /\ maxFailures (snd (fst (run cb w calls))) = maxFailures cb.
Proof.
  induction calls as [|[clk fn] calls IH] using rev_ind; intros cb w Hst Hf Hmax.
  - simpl. split; [|reflexivity]. split; [apply fresh_settled; [exact Hst | exact Hf | lia]|].
    intros _. rewrite Hf. reflexivity.
  - rewrite run_snoc. destruct (IH cb w Hst Hf Hmax) as [Hcounts Hsame].
    destruct (run cb w calls) as [[rs cb1] w1]. simpl in Hcounts, Hsame.
    pose proof (Call_counts cb1 clk fn w1 rs ltac:(lia) Hcounts) as Hstep.
    pose proof (Call_maxFailures cb1 clk fn w1) as Hm.
    destruct (Call cb1 clk fn w1) as [[r cb2] w2]. simpl in *.
    split; [exact Hstep | lia].
Qed.


End Probe.


End BreakerFacts.

(** ** The ring-buffer log store *)

Module ListFacts.

Section Sorted.
Context {A : Type} (R : relation A).

Lemma StronglySorted_sublist (k l : list A) :
  sublist k l -> StronglySorted R l -> StronglySorted R k.
Proof.
  induction 1 as [|x k l Hsub IH|x k l Hsub IH]; intros Hsorted.
  - constructor.
  - apply StronglySorted_cons in Hsorted. destruct Hsorted as [Hall Hsorted].
    apply StronglySorted_cons. split; [|apply IH; exact Hsorted].
    rewrite Forall_forall in *. intros y Hy. apply Hall.
    eapply elem_of_sublist; eassumption.
  - apply StronglySorted_cons in Hsorted. apply IH, Hsorted.
Qed.

Lemma StronglySorted_reverse (l : list A) :
  StronglySorted R l -> StronglySorted (flip R) (reverse l).
Proof.
  induction l as [|x l IH]; intros Hsorted; [constructor|].
  apply StronglySorted_cons in Hsorted. destruct Hsorted as [Hall Hsorted].
  rewrite reverse_cons. apply StronglySorted_app. repeat split.
  - intros y z Hy Hz. apply list_elem_of_singleton in Hz. subst z.
    rewrite Forall_forall in Hall. apply Hall, elem_of_reverse, Hy.
  - apply IH, Hsorted.
  - repeat constructor.
Qed.

Lemma filter_sublist (f : A -> bool) (l : list A) : sublist (List.filter f l) l.
Proof.
  induction l as [|x l IH]; simpl; [constructor|].
  destruct (f x); constructor; exact IH.
Qed.

Lemma StronglySorted_map {B} (f : B -> A) (l : list B) :
  StronglySorted (fun a b => R (f a) (f b)) l -> StronglySorted R (map f l).
Proof.
  induction 1 as [|x l Hsorted IH Hall]; simpl; constructor; [exact IH|].
  rewrite Forall_forall in Hall. apply Forall_forall. intros y Hy.
  apply list_elem_of_In, in_map_iff in Hy. destruct Hy as (b & <- & Hb).
  apply Hall, list_elem_of_In, Hb.
Qed.

End Sorted.

End ListFacts.

Module MemoryFacts.
Import GoInt Models Memory ListFacts.

Lemma keepLast_short {A} cap (l : list A) :
  (length l <= cap)%nat -> keepLast cap l = l.
Proof.
  intros Hle. unfold keepLast.
  replace (length l - cap)%nat with 0%nat by lia. reflexivity.
Qed.

Lemma keepLast_length {A} cap (l : list A) :
  length (keepLast cap l) = Nat.min cap (length l).
Proof. unfold keepLast. rewrite length_drop. lia. Qed.

Lemma keepLast_snoc_full {A} cap (x y : A) (l : list A) :
  length (x :: l) = cap -> keepLast cap ((x :: l) ++ [y]) = l ++ [y].
Proof.
  intros <-.
  assert (Hone : (length ((x :: l) ++ [y]) - length (x :: l) = 1)%nat)
    by (rewrite length_app; simpl; lia).
  unfold keepLast. rewrite Hone. reflexivity.
Qed.

Lemma stamp_length batch : forall counter, length (stamp counter batch) = length batch.
Proof. induction batch as [|log batch IH]; intros counter; simpl; [|rewrite IH]; reflexivity. Qed.

Lemma keepLast_app_keepLast {A} cap (a b : list A) :
  keepLast cap (keepLast cap a ++ b) = keepLast cap (a ++ b).
Proof.
  destruct (decide (length a <= cap)%nat) as [Hle|Hgt].
  - rewrite (keepLast_short cap a Hle). reflexivity.
  - unfold keepLast at 1 3. rewrite !length_app, keepLast_length.
    replace (Nat.min cap (length a) + length b - cap)%nat with (length b) by lia.
    replace (length a + length b - cap)%nat
      with ((length a - cap) + length b)%nat by lia.
    rewrite <- drop_drop. unfold keepLast.
    rewrite (drop_app_le a b (length a - cap)) by lia. reflexivity.
Qed.

Lemma AddPingLog_bounded m log :
  bounded m ->
  AddPingLog m log
  = Some ({| logs := keepLast (Z.to_nat (maxLogs m))
                       (logs m ++ [PingLog.with_ID log (wrap64 (logCounter m + 1))]);
             maxLogs := maxLogs m;
             logCounter := wrap64 (logCounter m + 1) |}, None).
Proof.
  intros [Hcap Hlen]. unfold AddPingLog.
  destruct (Z.leb_spec (maxLogs m) (Z.of_nat (length (logs m)))) as [Hfull|Hroom].
  - destruct (logs m) as [|oldest rest] eqn:Hlogs; [simpl in *; lia|].
    rewrite keepLast_snoc_full by lia. reflexivity.
  - rewrite keepLast_short by (rewrite length_app; simpl; lia). reflexivity.
Qed.

Lemma AddPingLog_preserves_bounded m log m' err :
  bounded m -> AddPingLog m log = Some (m', err) -> bounded m'.
Proof.
  intros Hb Hadd. rewrite (AddPingLog_bounded m log Hb) in Hadd.
  inversion Hadd; subst. destruct Hb as [Hcap Hlen].
  split; simpl; [exact Hcap|]. rewrite keepLast_length. lia.
Qed.

Lemma NewMemoryStorage_bounded C : bounded (NewMemoryStorage C).
Proof.
  unfold bounded, NewMemoryStorage. simpl.
  destruct (Z.leb_spec C 0); lia.
Qed.

(** A batch of appends never panics on a bounded store; what it keeps are
    the last [maxLogs] of the old entries followed by the new ones. *)
Lemma AddPingLogs_bounded batch : forall m,
  bounded m ->
  exists m',
    AddPingLogs m batch = Some m'
    /\ bounded m'
    /\ maxLogs m' = maxLogs m
    /\ logs m' = keepLast (Z.to_nat (maxLogs m)) (logs m ++ stamp (logCounter m) batch).
Proof.
  induction batch as [|log batch IH]; intros m Hb.
  - exists m. simpl. rewrite app_nil_r.
    rewrite keepLast_short by (destruct Hb; lia). auto.
  - simpl. rewrite (AddPingLog_bounded m log Hb).
    pose proof (AddPingLog_preserves_bounded m log _ _ Hb (AddPingLog_bounded m log Hb))
      as Hb1.
    destruct (IH _ Hb1) as (m' & Hrun & Hb' & Hcap & Hlogs).
    exists m'. simpl in *. repeat split; try assumption; try apply Hb'.
    rewrite Hlogs, keepLast_app_keepLast, <- app_assoc. reflexivity.
Qed.

(** C3. For every sequence of appends to a ring-buffer store created with
    capacity [C] (1000 when [C <= 0]), no append panics and the number of
    stored entries never exceeds the capacity; the store holds exactly the
    last [C] (or all, when fewer) of the appended entries, in insertion
    order, each with the identifier it was given. An append to a full store drops exactly the
    oldest entry and keeps the others in order before the new one. In
    particular 150 appends to a store of capacity 100 leave exactly the
    51st to the 150th entry, in order. *)
Theorem ring_buffer_capacity_and_eviction
    (C : Z) (batch : list PingLog.t) (m : MemoryStorage)
    (oldest log : PingLog.t) (rest : list PingLog.t) :
  (exists m',
     AddPingLogs (NewMemoryStorage C) batch = Some m'
     /\ maxLogs m' = (if C <=? 0 then 1000 else C)
     /\ Z.of_nat (length (logs m')) <= maxLogs m'
     /\ logs m' = keepLast (Z.to_nat (maxLogs m')) (stamp 0 batch))
  /\ (bounded m ->
      logs m = oldest :: rest ->
      Z.of_nat (length (logs m)) = maxLogs m ->
      exists m',
        AddPingLog m log = Some (m', None)
        /\ logs m' = rest ++ [PingLog.with_ID log (wrap64 (logCounter m + 1))])
  /\ (length batch = 150%nat ->
      exists m',
        AddPingLogs (NewMemoryStorage 100) batch = Some m'
        /\ length (logs m') = 100%nat
        /\ logs m' = drop 50 (stamp 0 batch)).
Proof.
  repeat apply conj.
  - destruct (AddPingLogs_bounded batch _ (NewMemoryStorage_bounded C))
      as (m' & Hrun & [_ Hlen] & Hcap & Hlogs).
    exists m'. rewrite Hcap. repeat split; [exact Hrun | lia | exact Hlogs].
  - intros Hb Hlogs Hfull. eexists. split.
    + rewrite (AddPingLog_bounded m log Hb). reflexivity.
    + simpl. rewrite Hlogs. apply keepLast_snoc_full.
      rewrite Hlogs in Hfull. lia.
  - intros Hlen.
    destruct (AddPingLogs_bounded batch _ (NewMemoryStorage_bounded 100))
      as (m' & Hrun & _ & _ & Hlogs).
    simpl in Hlogs. exists m'.
    assert (Hkeep : logs m' = drop 50 (stamp 0 batch)).
    { rewrite Hlogs. unfold keepLast. rewrite stamp_length, Hlen. reflexivity. }
    repeat split; [exact Hrun | | exact Hkeep].
    rewrite Hkeep, length_drop, stamp_length, Hlen. reflexivity.
Qed.

Lemma ring_buffer_capacity_and_eviction_witness :
  (exists m',
     AddPingLogs (NewMemoryStorage 100) (map sampleLog (seq 1 150)) = Some m'
     /\ map PingLog.Timestamp (logs m') = map Z.of_nat (seq 51 100)
     /\ map PingLog.ID (logs m') = map Z.of_nat (seq 51 100))
  /\ (exists m',
        AddPingLog fullStore (sampleLog 3) = Some (m', None)
        /\ map PingLog.Timestamp (logs m') = [2; 3]).
Proof.
  destruct (ring_buffer_capacity_and_eviction 100 (map sampleLog (seq 1 150))
              fullStore (PingLog.with_ID (sampleLog 1) 1) (sampleLog 3)
              [PingLog.with_ID (sampleLog 2) 2])
    as (_ & Hevict & Hscenario).
  split.
  - destruct Hscenario as (m' & Hrun & _ & Hlogs); [reflexivity|].
    exists m'. split; [exact Hrun|]. rewrite Hlogs. split; vm_compute; reflexivity.
  - destruct Hevict as (m' & Hadd & Hlogs);
      [split; simpl; lia | reflexivity | reflexivity |].
    exists m'. split; [exact Hadd|]. rewrite Hlogs. reflexivity.
Defined.

(** *** Queries *)

Lemma skipped_false siteID success log :
  skipped siteID success log = false
  <-> (siteID = "" \/ PingLog.SiteID log = siteID)
      /\ (forall b, success = Some b -> PingLog.Success log = b).
Proof.
  unfold skipped. rewrite orb_false_iff, andb_false_iff, !negb_false_iff.
  rewrite !String.eqb_eq.
  split.
  - intros [Hsite Hok]. split; [exact Hsite|].
    intros b ->. rewrite negb_false_iff in Hok. apply Bool.eqb_prop. exact Hok.
  - intros [Hsite Hok]. split; [exact Hsite|].
    destruct success as [b|]; [|reflexivity].
    rewrite negb_false_iff, (Hok b eq_refl). apply Bool.eqb_reflx.
Qed.

Lemma matching_Forall siteID success todo :
  Forall (fun log =>
            (siteID = "" \/ PingLog.SiteID log = siteID)
            /\ (forall b, success = Some b -> PingLog.Success log = b))
         (matching siteID success todo).
Proof.
  apply List.Forall_forall. intros log Hin.
  apply List.filter_In in Hin. destruct Hin as [_ Hkeep].
  apply skipped_false. apply negb_true_iff. exact Hkeep.
Qed.

Lemma matching_sublist siteID success todo :
  sublist (matching siteID success todo) todo.
Proof. apply filter_sublist. Qed.

(** The loop with entries already collected: it stops as soon as the
    limit is reached. *)
Lemma filterLoop_spec siteID success limit todo : forall filtered,
  (limit <= 0 \/ Z.of_nat (length filtered) < limit) ->
  filterLoop siteID success limit todo filtered
  = filtered ++ limited (limit - Z.of_nat (length filtered))
                  (0 <? limit) (matching siteID success todo).
Proof.
  induction todo as [|log todo IH]; intros filtered Hroom; simpl.
  - unfold limited. destruct (0 <? limit); rewrite ?take_nil, app_nil_r; reflexivity.
  - destruct (skipped siteID success log) eqn:Hskip; simpl; [apply IH; exact Hroom|].
    rewrite length_app. simpl.
    destruct (Z.ltb_spec 0 limit) as [Hpos|Hnon]; simpl.
    + destruct (Z.leb_spec limit (Z.of_nat (length filtered + 1))) as [Hfull|Hmore].
      * unfold limited.
        replace (Z.to_nat (limit - Z.of_nat (length filtered))) with 1%nat by lia.
        simpl. rewrite take_0. reflexivity.
      * rewrite IH by (rewrite length_app; simpl; lia).
        rewrite length_app. simpl.
        destruct (Z.ltb_spec 0 limit); [|lia]. unfold limited.
        replace (Z.to_nat (limit - Z.of_nat (length filtered)))
          with (S (Z.to_nat (limit - Z.of_nat (length filtered + 1)))) by lia.
        simpl. rewrite <- app_assoc. reflexivity.
    + rewrite IH by (left; lia).
      destruct (Z.ltb_spec 0 limit); [lia|].
      unfold limited. rewrite <- app_assoc. reflexivity.
Qed.

Lemma GetFilteredLogs_spec m siteID success limit :
  GetFilteredLogs m siteID success limit
  = (limited limit (0 <? limit) (matching siteID success (reverse (logs m))), None).
Proof.
  unfold GetFilteredLogs. rewrite filterLoop_spec by (simpl; lia).
  simpl. rewrite Z.sub_0_r. reflexivity.
Qed.

(** C4. For every store, site filter, success filter and limit,
    [GetFilteredLogs] returns no error and the entries that pass both
    filters, taken newest first (in the reverse of the store's order): all
    of them when [limit <= 0], the first [limit] of them otherwise. Hence
    every returned entry satisfies both filters at once, the result is in
    newest-first order (latest appended first, and by time stamp when the
    store was filled in the order of the time stamps), and it has at most
    [limit] entries when [limit > 0]. *)
Theorem GetFilteredLogs_newest_first_filtered_limited
    (m : MemoryStorage) (siteID : string) (success : option bool) (limit : Z) :
  let result := fst (GetFilteredLogs m siteID success limit) in
  let passing := matching siteID success (reverse (logs m)) in
  snd (GetFilteredLogs m siteID success limit) = None
  /\ result = (if 0 <? limit then take (Z.to_nat limit) passing else passing)
  /\ Forall (fun log =>
               (siteID = "" \/ PingLog.SiteID log = siteID)
               /\ (forall b, success = Some b -> PingLog.Success log = b))
            result
  /\ (forall log, In log passing <->
                  In log (logs m) /\ skipped siteID success log = false)
  /\ sublist result (reverse (logs m))
  /\ (chronological (logs m) -> newestFirst result)
  /\ (0 < limit -> Z.of_nat (length result) <= limit)
  /\ (limit <= 0 -> result = passing).
Proof.
  intros result passing. subst result. rewrite GetFilteredLogs_spec. simpl.
  fold passing. unfold limited.
  assert (Hsub : sublist (if 0 <? limit then take (Z.to_nat limit) passing else passing)
                         passing).
  { destruct (0 <? limit); [apply sublist_take | reflexivity]. }
  repeat apply conj.
  - reflexivity.
  - reflexivity.
  - eapply List.Forall_forall. intros log Hin.
    pose proof (matching_Forall siteID success (reverse (logs m))) as Hall.
    rewrite List.Forall_forall in Hall. apply Hall.
    apply list_elem_of_In. eapply elem_of_sublist; [|exact Hsub].
    apply list_elem_of_In. exact Hin.
  - intros log. unfold passing, matching. rewrite List.filter_In, negb_true_iff.
    rewrite <- !list_elem_of_In, elem_of_reverse. reflexivity.
  - etransitivity; [exact Hsub | apply matching_sublist].
  - intros Hsorted. unfold newestFirst.
    eapply StronglySorted_sublist;
      [etransitivity; [exact Hsub | apply matching_sublist]|].
    apply (StronglySorted_reverse _ _ Hsorted).
  - intros Hpos. destruct (Z.ltb_spec 0 limit); [|lia].
    rewrite length_take. lia.
  - intros Hnon. destruct (Z.ltb_spec 0 limit); [lia | reflexivity].
Qed.

Lemma GetFilteredLogs_newest_first_filtered_limited_witness :
  GetFilteredLogs fullStore "s1" (Some true) 1
  = ([PingLog.with_ID (sampleLog 2) 2], None)
  /\ newestFirst (fst (GetFilteredLogs fullStore "" None 0))
  /\ fst (GetFilteredLogs fullStore "" None 0)
     = [PingLog.with_ID (sampleLog 2) 2; PingLog.with_ID (sampleLog 1) 1]
  /\ fst (GetFilteredLogs fullStore "s2" None 0) = [].
Proof.
  destruct (GetFilteredLogs_newest_first_filtered_limited fullStore "" None 0)
    as (_ & _ & _ & _ & _ & Hnewest & _ & Hall).
  split; [reflexivity|]. split.
  - apply Hnewest. unfold chronological.
    repeat constructor; vm_compute; discriminate.
  - split; [rewrite Hall by lia|]; reflexivity.
Defined.

(** C5. Round trip: on every store with capacity at least 1 (as
    [NewMemoryStorage] makes them), appending an entry succeeds, and a query
    with no filters and [limit >= 1] then returns, first, a record with the
    success flag, the time stamp and the latency of the appended entry: the
    entry itself under its new identifier. *)
Theorem append_then_query_round_trip
    (m : MemoryStorage) (log : PingLog.t) (limit : Z) :
  1 <= maxLogs m ->
  1 <= limit ->
  exists m' first rest,
    AddPingLog m log = Some (m', None)
    /\ GetFilteredLogs m' "" None limit = (first :: rest, None)
    /\ first = PingLog.with_ID log (wrap64 (logCounter m + 1))
    /\ PingLog.Success first = PingLog.Success log
    /\ PingLog.Timestamp first = PingLog.Timestamp log
    /\ PingLog.Latency first = PingLog.Latency log.
Proof.
  intros Hcap Hlimit.
  assert (Hadd : exists kept,
             AddPingLog m log
             = Some ({| logs := kept ++ [PingLog.with_ID log (wrap64 (logCounter m + 1))];
                        maxLogs := maxLogs m;
                        logCounter := wrap64 (logCounter m + 1) |}, None)).
  { unfold AddPingLog.
    destruct (Z.leb_spec (maxLogs m) (Z.of_nat (length (logs m)))) as [Hfull|Hroom].
    - destruct (logs m) as [|oldest kept]; [simpl in Hfull; lia|].
      exists kept. reflexivity.
    - exists (logs m). reflexivity. }
  destruct Hadd as (kept & Hadd).
  eexists _, (PingLog.with_ID log (wrap64 (logCounter m + 1))),
    (take (Nat.pred (Z.to_nat limit)) (matching "" None (reverse kept))).
  split; [exact Hadd|].
  rewrite GetFilteredLogs_spec. simpl logs. rewrite reverse_app. simpl.
  unfold limited. destruct (Z.ltb_spec 0 limit); [|lia].
  destruct (Z.to_nat limit) as [|n] eqn:Hn; [lia|].
  repeat split.
Qed.

Lemma append_then_query_round_trip_witness :
  exists m' first rest,
    AddPingLog fullStore (sampleLog 3) = Some (m', None)
    /\ GetFilteredLogs m' "" None 1 = (first :: rest, None)
    /\ PingLog.Success first = PingLog.Success (sampleLog 3)
    /\ PingLog.Timestamp first = PingLog.Timestamp (sampleLog 3)
    /\ PingLog.Latency first = PingLog.Latency (sampleLog 3).
Proof.
  destruct (append_then_query_round_trip fullStore (sampleLog 3) 1)
    as (m' & first & rest & Hadd & Hget & _ & Hok & Htime & Hlat);
    [simpl; lia | lia |].
  exists m', first, rest. repeat split; assumption.
Defined.

End MemoryFacts.

(** ** The result pipeline *)

Module PingFacts.
Import GoInt Models Config Ping.

Lemma findSite_Some sites siteID site :
  findSite sites siteID = Some site -> In site sites /\ Site.ID site = siteID.
Proof.
  induction sites as [|s sites IH]; simpl; [discriminate|].
  destruct (String.eqb_spec (Site.ID s) siteID) as [Heq|Hne].
  - intros [= <-]. auto.
  - intros Hfind. destruct (IH Hfind). auto.
Qed.

Lemma findSite_NoDup sites site :
  NoDup (map Site.ID sites) -> In site sites ->
  findSite sites (Site.ID site) = Some site.
Proof.
  induction sites as [|s sites IH]; simpl; [intros _ []|].
  intros Hnd Hin. apply NoDup_cons in Hnd. destruct Hnd as [Hfresh Hnd].
  destruct (String.eqb_spec (Site.ID s) (Site.ID site)) as [Heq|Hne].
  - destruct Hin as [->|Hin]; [reflexivity|].
    exfalso. apply Hfresh. rewrite Heq. apply list_elem_of_In.
    apply in_map. exact Hin.
  - destruct Hin as [->|Hin]; [congruence|]. apply IH; assumption.
Qed.

Section Frame.
Context {S : Type}.
Implicit Types (appState : AppState S) (result : PingResult.t).

Lemma UpdateSiteStatus_Sites appState result :
  Sites (UpdateSiteStatus appState result) = Sites appState.
Proof. unfold UpdateSiteStatus. destruct (_ !! _); reflexivity. Qed.

Lemma UpdateSiteStatus_missing appState result :
  SiteStatus appState !! PingResult.SiteID result = None ->
  UpdateSiteStatus appState result = appState.
Proof. intros Hnone. unfold UpdateSiteStatus. rewrite Hnone. reflexivity. Qed.

Lemma UpdateSiteStatus_other appState result id :
  id <> PingResult.SiteID result ->
  SiteStatus (UpdateSiteStatus appState result) !! id = SiteStatus appState !! id.
Proof.
  intros Hne. unfold UpdateSiteStatus.
  destruct (SiteStatus appState !! PingResult.SiteID result); [|reflexivity].
  simpl. apply lookup_insert_ne. congruence.
Qed.

Lemma UpdateSiteStatus_entry appState result status :
  SiteStatus appState !! PingResult.SiteID result = Some status ->
  SiteStatus (UpdateSiteStatus appState result) !! PingResult.SiteID result
  = Some (updateCombined (findSite (Sites appState) (PingResult.SiteID result))
            (updateLine status result) (PingResult.Timestamp result)).
Proof.
  intros Hsome. unfold UpdateSiteStatus. rewrite Hsome. simpl.
  apply lookup_insert_eq.
Qed.

Lemma UpdateSiteStatus_flag appState result site status :
  NoDup (map Site.ID (Sites appState)) ->
  In site (Sites appState) ->
  Site.ID site = PingResult.SiteID result ->
  SiteStatus (UpdateSiteStatus appState result) !! Site.ID site = Some status ->
  flag_ok site status.
Proof.
  intros Hnd Hin Hid Hlook.
  destruct (SiteStatus appState !! PingResult.SiteID result) as [old|] eqn:Hold.
  - rewrite Hid, (UpdateSiteStatus_entry _ _ _ Hold) in Hlook.
    rewrite <- Hid, (findSite_NoDup _ _ Hnd Hin) in Hlook.
    injection Hlook as <-. unfold flag_ok. simpl.
    destruct (Site.IsDualLine site); reflexivity.
  - rewrite (UpdateSiteStatus_missing _ _ Hold), Hid, Hold in Hlook. discriminate.
Qed.

Lemma UpdateSiteStatus_combined_ok appState result :
  NoDup (map Site.ID (Sites appState)) ->
  combined_ok appState ->
  combined_ok (UpdateSiteStatus appState result).
Proof.
  intros Hnd Hok site status Hin Hlook.
  rewrite UpdateSiteStatus_Sites in Hin.
  destruct (decide (Site.ID site = PingResult.SiteID result)) as [Hid|Hne].
  - eapply UpdateSiteStatus_flag; eassumption.
  - rewrite UpdateSiteStatus_other in Hlook by exact Hne.
    eapply Hok; eassumption.
Qed.

Lemma fold_UpdateSiteStatus_combined_ok queue : forall appState,
  NoDup (map Site.ID (Sites appState)) ->
  combined_ok appState ->
  combined_ok (fold_left UpdateSiteStatus queue appState).
Proof.
  induction queue as [|result queue IH]; intros appState Hnd Hok; [exact Hok|].
  simpl. apply IH.
  - rewrite UpdateSiteStatus_Sites. exact Hnd.
  - apply UpdateSiteStatus_combined_ok; assumption.
Qed.

Lemma initSites_all_offline clock sites : forall i statuses id status,
  (forall id status, statuses !! id = Some status ->
     SiteStatus.PrimaryOnline status = false
     /\ SiteStatus.SecondaryOnline status = false
     /\ SiteStatus.BothOnline status = false) ->
  initSites clock i sites statuses !! id = Some status ->
  SiteStatus.PrimaryOnline status = false
  /\ SiteStatus.SecondaryOnline status = false
  /\ SiteStatus.BothOnline status = false.
Proof.
  induction sites as [|site sites IH]; intros i statuses id status Hall; simpl.
  - apply Hall.
  - apply IH. intros id' status'. unfold initSite.
    rewrite lookup_insert. case_decide.
    + intros [= <-]. auto.
    + apply Hall.
Qed.

Lemma InitializeSiteStatus_combined_ok (sites : list Site.t) (storage : S)
    (total : Z) (ops : list MetricOp) (clock : nat -> Z) :
  combined_ok (InitializeSiteStatus
                 {| Sites := sites; SiteStatus := ∅; Storage_ := storage;
                    TotalChecks := total; Metrics := ops |} clock).
Proof.
  intros site status _ Hlook. simpl in Hlook.
  apply initSites_all_offline in Hlook.
  - destruct Hlook as (Hp & Hs & Hb). unfold flag_ok. rewrite Hp, Hs, Hb.
    destruct (Site.IsDualLine site); reflexivity.
  - intros id' status'. rewrite lookup_empty. discriminate.
Qed.

(** The entry of [updateLine]: the line named by the result is rewritten,
    nothing else. *)
Lemma updateLine_frame status result :
  let status' := updateLine status result in
  let ok := PingResult.Success result in
  SiteStatus.SiteID status' = SiteStatus.SiteID status
  /\ SiteStatus.BothOnline status' = SiteStatus.BothOnline status
  /\ SiteStatus.LastCheck status' = SiteStatus.LastCheck status
  /\ (PingResult.LineType result = "primary" ->
      SiteStatus.PrimaryOnline status' = ok
      /\ SiteStatus.PrimaryLatency status' = (if ok then PingResult.Latency result else None)
      /\ SiteStatus.PrimaryError status' = (if ok then "" else PingResult.Error result)
      /\ SiteStatus.SecondaryOnline status' = SiteStatus.SecondaryOnline status
      /\ SiteStatus.SecondaryLatency status' = SiteStatus.SecondaryLatency status
      /\ SiteStatus.SecondaryError status' = SiteStatus.SecondaryError status)
  /\ (PingResult.LineType result = "secondary" ->
      SiteStatus.SecondaryOnline status' = ok
      /\ SiteStatus.SecondaryLatency status' = (if ok then PingResult.Latency result else None)
      /\ SiteStatus.SecondaryError status' = (if ok then "" else PingResult.Error result)
      /\ SiteStatus.PrimaryOnline status' = SiteStatus.PrimaryOnline status
      /\ SiteStatus.PrimaryLatency status' = SiteStatus.PrimaryLatency status
      /\ SiteStatus.PrimaryError status' = SiteStatus.PrimaryError status)
  /\ (PingResult.LineType result <> "primary" ->
      PingResult.LineType result <> "secondary" ->
      status' = status).
Proof.
  unfold updateLine.
  destruct (String.eqb_spec (PingResult.LineType result) "primary") as [Hp|Hp];
    [|destruct (String.eqb_spec (PingResult.LineType result) "secondary") as [Hs|Hs]];
    simpl; repeat split; try reflexivity; try congruence;
    intros Hline; rewrite Hline in *; discriminate.
Qed.

(** C10. Frame of a status update. [UpdateSiteStatus] leaves the site
    list, the backend and the check counter alone and creates no entry;
    every entry other than the one of [result.SiteID] is unchanged, and when
    that identifier has no entry the whole state, all entries included, is
    unchanged. In the entry it updates, a result for the primary line
    rewrites the primary online flag, latency and error text and leaves the
    three secondary fields as they were, and symmetrically for the
    secondary line (any other line name rewrites neither); beyond the line
    only the combined flag and the last-check time stamp change. *)
Theorem UpdateSiteStatus_frame (appState : AppState S) (result : PingResult.t) :
  let appState' := UpdateSiteStatus appState result in
  Sites appState' = Sites appState
  /\ Storage_ appState' = Storage_ appState
  /\ TotalChecks appState' = TotalChecks appState
  /\ dom (SiteStatus appState') = dom (SiteStatus appState)
  /\ (forall id, id <> PingResult.SiteID result ->
        SiteStatus appState' !! id = SiteStatus appState !! id)
  /\ (SiteStatus appState !! PingResult.SiteID result = None ->
      appState' = appState)
  /\ (forall status,
        SiteStatus appState !! PingResult.SiteID result = Some status ->
        exists status',
          SiteStatus appState' !! PingResult.SiteID result = Some status'
          /\ SiteStatus.SiteID status' = SiteStatus.SiteID status
          /\ SiteStatus.LastCheck status' = PingResult.Timestamp result
          /\ (PingResult.LineType result = "primary" ->
              SiteStatus.SecondaryOnline status' = SiteStatus.SecondaryOnline status
              /\ SiteStatus.SecondaryLatency status' = SiteStatus.SecondaryLatency status
              /\ SiteStatus.SecondaryError status' = SiteStatus.SecondaryError status
              /\ SiteStatus.PrimaryOnline status' = PingResult.Success result)
          /\ (PingResult.LineType result = "secondary" ->
              SiteStatus.PrimaryOnline status' = SiteStatus.PrimaryOnline status
              /\ SiteStatus.PrimaryLatency status' = SiteStatus.PrimaryLatency status
              /\ SiteStatus.PrimaryError status' = SiteStatus.PrimaryError status
              /\ SiteStatus.SecondaryOnline status' = PingResult.Success result)
          /\ (PingResult.LineType result <> "primary" ->
              PingResult.LineType result <> "secondary" ->
              SiteStatus.PrimaryOnline status' = SiteStatus.PrimaryOnline status
              /\ SiteStatus.PrimaryLatency status' = SiteStatus.PrimaryLatency status
              /\ SiteStatus.PrimaryError status' = SiteStatus.PrimaryError status
              /\ SiteStatus.SecondaryOnline status' = SiteStatus.SecondaryOnline status
              /\ SiteStatus.SecondaryLatency status' = SiteStatus.SecondaryLatency status
              /\ SiteStatus.SecondaryError status' = SiteStatus.SecondaryError status)).
Proof.
  intros appState'. subst appState'. repeat apply conj.
  - apply UpdateSiteStatus_Sites.
  - unfold UpdateSiteStatus. destruct (_ !! _); reflexivity.
  - unfold UpdateSiteStatus. destruct (_ !! _); reflexivity.
  - unfold UpdateSiteStatus.
    destruct (SiteStatus appState !! PingResult.SiteID result) eqn:Hold; [|reflexivity].
    simpl. rewrite dom_insert_L.
    apply elem_of_dom_2 in Hold.
    apply set_eq. intros id. rewrite elem_of_union, elem_of_singleton.
    split; [intros [->|Hin]; assumption | auto].
  - intros id Hne. apply UpdateSiteStatus_other. exact Hne.
  - apply UpdateSiteStatus_missing.
  - intros status Hold. eexists. split; [apply UpdateSiteStatus_entry; exact Hold|].
    destruct (updateLine_frame status result)
      as (Hid & _ & _ & Hprimary & Hsecondary & Hother).
    simpl. repeat apply conj.
    + exact Hid.
    + reflexivity.
    + intros Hline. destruct (Hprimary Hline) as (? & ? & ? & ? & ? & ?). auto.
    + intros Hline. destruct (Hsecondary Hline) as (? & ? & ? & ? & ? & ?). auto.
    + intros Hp Hs. rewrite (Hother Hp Hs). auto 10.
Qed.

End Frame.

Lemma UpdateSiteStatus_frame_witness :
  let before := sampleApp Unavailable in
  let after := UpdateSiteStatus before (sampleResult "s1" "primary" true 7) in
  SiteStatus after !! "s2" = SiteStatus before !! "s2"
  /\ UpdateSiteStatus before (sampleResult "s9" "primary" true 7) = before
  /\ (exists status',
        SiteStatus after !! "s1" = Some status'
        /\ SiteStatus.PrimaryOnline status' = true
        /\ SiteStatus.SecondaryOnline status' = false
        /\ SiteStatus.SecondaryLatency status' = None
        /\ SiteStatus.SecondaryError status' = ""
        /\ SiteStatus.LastCheck status' = 7).
Proof.
  intros before after.
  destruct (UpdateSiteStatus_frame before (sampleResult "s1" "primary" true 7))
    as (_ & _ & _ & _ & Hother & _ & Hentry).
  destruct (UpdateSiteStatus_frame before (sampleResult "s9" "primary" true 7))
    as (_ & _ & _ & _ & _ & Hmissing & _).
  split; [apply Hother; discriminate|].
  split; [apply Hmissing; vm_compute; reflexivity|].
  destruct (Hentry _ ltac:(vm_compute; reflexivity))
    as (status' & Hlook & _ & Hcheck & Hprimary & _).
  destruct (Hprimary eq_refl) as (Honline & Hlatency & Herror & Hok).
  exists status'. repeat split; assumption.
Defined.

Section Pipeline.
Context {S : Type} `{Storage S}.
Implicit Types (appState : AppState S) (result : PingResult.t).

(** [HandlePingResult], step by step. *)
Lemma HandlePingResult_unfold appState result :
  HandlePingResult appState result
  = match resultMetrics result with
    | None => None
    | Some ops =>
        match AddPingLog (Storage_ appState)
                (logEntry result (siteNameOf (Sites appState) (PingResult.SiteID result))) with
        | None => None
        | Some (storage, _) =>
            Some (UpdateSiteStatus
                    {| Sites := Sites appState;
                       SiteStatus := SiteStatus appState;
                       Storage_ := storage;
                       TotalChecks := wrap64 (TotalChecks appState + 1);
                       Metrics := Metrics appState ++ ops |} result)
        end
    end.
Proof.
  unfold HandlePingResult, AddPingLogToStorage. simpl.
  destruct (resultMetrics result); [|reflexivity].
  destruct (AddPingLog _ _) as [[storage err]|]; reflexivity.
Qed.

Lemma HandlePingResult_combined_ok appState result appState' :
  NoDup (map Site.ID (Sites appState)) ->
  combined_ok appState ->
  HandlePingResult appState result = Some appState' ->
  combined_ok appState' /\ Sites appState' = Sites appState.
Proof.
  intros Hnd Hok. rewrite HandlePingResult_unfold.
  destruct (resultMetrics result) as [ops|]; [|discriminate].
  destruct (AddPingLog _ _) as [[storage err]|]; [|discriminate].
  intros [= <-]. split.
  - apply UpdateSiteStatus_combined_ok; [exact Hnd|].
    intros site status Hin Hlook. exact (Hok site status Hin Hlook).
  - rewrite UpdateSiteStatus_Sites. reflexivity.
Qed.

Lemma ProcessResults_combined_ok queue : forall appState appState',
  NoDup (map Site.ID (Sites appState)) ->
  combined_ok appState ->
  ProcessResults appState queue = Some appState' ->
  combined_ok appState'.
Proof.
  induction queue as [|result queue IH]; intros appState appState' Hnd Hok; simpl.
  - intros [= <-]. exact Hok.
  - destruct (HandlePingResult appState result) as [appState1|] eqn:Hstep; [|discriminate].
    destruct (HandlePingResult_combined_ok _ _ _ Hnd Hok Hstep) as [Hok1 Hsites].
    apply IH; [rewrite Hsites; exact Hnd | exact Hok1].
Qed.

(** C2. With site identifiers unique, as the data model has them: after a
    probe result is processed, the entry of the result's site has
    [BothOnline == PrimaryOnline && SecondaryOnline] when the site is
    dual-line and [BothOnline == PrimaryOnline] when it is single-line,
    whatever the entry held before (1); the status map that
    [InitializeSiteStatus] builds satisfies this for every site (2), and so
    does the map after every sequence of results, whether applied by
    [UpdateSiteStatus] alone (3) or processed by the pipeline (4). *)
Theorem both_online_is_recomputed_after_every_result
    (appState : AppState S) (clock : nat -> Z) (result : PingResult.t)
    (queue : list PingResult.t) :
  NoDup (map Site.ID (Sites appState)) ->
  (forall site status,
     In site (Sites appState) ->
     Site.ID site = PingResult.SiteID result ->
     SiteStatus (UpdateSiteStatus appState result) !! Site.ID site = Some status ->
     flag_ok site status)
  /\ (SiteStatus appState = ∅ -> combined_ok (InitializeSiteStatus appState clock))
  /\ (combined_ok appState ->
      combined_ok (fold_left UpdateSiteStatus queue appState))
  /\ (combined_ok appState ->
      forall appState', ProcessResults appState queue = Some appState' ->
                        combined_ok appState').
Proof.
  intros Hnd. repeat apply conj.
  - intros site status Hin Hid Hlook. eapply UpdateSiteStatus_flag; eassumption.
  - intros Hempty. destruct appState as [sites statuses storage total ops].
    simpl in Hempty. subst statuses. apply InitializeSiteStatus_combined_ok.
  - apply fold_UpdateSiteStatus_combined_ok. exact Hnd.
  - intros Hok appState'. apply ProcessResults_combined_ok; assumption.
Qed.

End Pipeline.

Lemma both_online_is_recomputed_after_every_result_witness :
  exists appState',
    ProcessResults (sampleApp (Memory.NewMemoryStorage 100)) sampleQueue
    = Some appState'
    /\ combined_ok appState'
    /\ (SiteStatus.BothOnline <$> SiteStatus appState' !! "s1") = Some false
    /\ (SiteStatus.BothOnline <$> SiteStatus appState' !! "s2") = Some true.
Proof.
  assert (Hnd : NoDup (map Site.ID sampleSites))
    by (apply (bool_decide_unpack _); vm_compute; exact I).
  destruct (both_online_is_recomputed_after_every_result
              {| Sites := sampleSites; SiteStatus := ∅;
                 Storage_ := Memory.NewMemoryStorage 100;
                 TotalChecks := 0; Metrics := [] |} (fun _ => 0)
              (sampleResult "s1" "primary" true 1) sampleQueue Hnd)
    as (_ & Hinit & _ & _).
  destruct (both_online_is_recomputed_after_every_result
              (sampleApp (Memory.NewMemoryStorage 100)) (fun _ => 0)
              (sampleResult "s1" "primary" true 1) sampleQueue Hnd)
    as (_ & _ & _ & Hpipe).
  eexists. split; [vm_compute; reflexivity|]. split.
  - apply Hpipe; [apply Hinit; reflexivity | vm_compute; reflexivity].
  - split; vm_compute; reflexivity.
Defined.

Section Persistence.
Context {S1 S2 : Type} `{Storage S1} `{Storage S2}.

(** C8. Whenever processing a probe result reaches the log store and the
    append returns an error, processing completes: the check counter is
    incremented, and the status map (like the site list and the metric
    updates) is exactly the one processing leaves when the append succeeds,
    namely the map [UpdateSiteStatus] computes. The backends may differ. *)
Theorem status_update_survives_append_error
    (failed : AppState S1) (stored : AppState S2) (result : PingResult.t)
    (storage1 : S1) (storage2 : S2) (err : string) :
  Sites failed = Sites stored ->
  SiteStatus failed = SiteStatus stored ->
  TotalChecks failed = TotalChecks stored ->
  Metrics failed = Metrics stored ->
  is_Some (resultMetrics result) ->
  AddPingLog (Storage_ failed)
    (logEntry result (siteNameOf (Sites failed) (PingResult.SiteID result)))
    = Some (storage1, Some err) ->
  AddPingLog (Storage_ stored)
    (logEntry result (siteNameOf (Sites stored) (PingResult.SiteID result)))
    = Some (storage2, None) ->
  exists failed' stored',
    HandlePingResult failed result = Some failed'
    /\ HandlePingResult stored result = Some stored'
    /\ TotalChecks failed' = wrap64 (TotalChecks failed + 1)
    /\ TotalChecks failed' = TotalChecks stored'
    /\ SiteStatus failed' = SiteStatus (UpdateSiteStatus failed result)
    /\ SiteStatus failed' = SiteStatus stored'
    /\ Sites failed' = Sites stored'
    /\ Metrics failed' = Metrics stored'
    /\ Storage_ failed' = storage1.
Proof.
  intros Hsites Hstatus Htotal Hmetrics [ops Hops] Hfail Hstore.
  rewrite !HandlePingResult_unfold, Hops, Hfail, Hstore.
  do 2 eexists. split; [reflexivity|]. split; [reflexivity|].
  unfold UpdateSiteStatus. simpl. rewrite <- Hsites, <- Hstatus, <- Htotal, <- Hmetrics.
  destruct (SiteStatus failed !! PingResult.SiteID result); simpl; repeat split.
Qed.

End Persistence.

Lemma status_update_survives_append_error_witness :
  exists failed' stored',
    HandlePingResult (sampleApp Unavailable) (sampleResult "s1" "primary" true 1)
      = Some failed'
    /\ HandlePingResult (sampleApp (Memory.NewMemoryStorage 100))
         (sampleResult "s1" "primary" true 1) = Some stored'
    /\ TotalChecks failed' = 1
    /\ SiteStatus failed' = SiteStatus stored'
    /\ (SiteStatus.PrimaryOnline <$> SiteStatus failed' !! "s1") = Some true.
Proof.
  destruct (status_update_survives_append_error
              (sampleApp Unavailable) (sampleApp (Memory.NewMemoryStorage 100))
              (sampleResult "s1" "primary" true 1)
              Unavailable
              {| Memory.logs :=
                   [PingLog.with_ID
                      (logEntry (sampleResult "s1" "primary" true 1) "Site 1") 1];
                 Memory.maxLogs := 100; Memory.logCounter := 1 |}
              "failed to insert ping log")
    as (failed' & stored' & Hf & Hs & Htotal & _ & Hupd & Hsame & _);
    try reflexivity.
  { eexists. reflexivity. }
  exists failed', stored'. repeat split; try assumption.
  rewrite Hupd. vm_compute. reflexivity.
Defined.

End PingFacts.

(** ** The statistics engine *)

Module StatsFacts.
Import GoInt Models Config Stats ListFacts.

Section Engine.
Context `{GoLib}.

(** C6. For every aggregate with zero total checks the uptime percentage
    is 0, and for every aggregate with no successful latency sample the mean
    latency is 0, whatever the rounding and power functions do: the guarded
    division is not evaluated, and both getters are total. The same holds of
    the per-line uptime and of the per-line mean latency over no sample, and
    so of a freshly made aggregate. *)
Theorem empty_aggregate_is_zero (ts : TimeframeStats) :
  (TotalChecks ts = 0%Z -> GetUptimePercentage ts = 0%float)
  /\ (length (Latencies ts) = 0%nat -> GetMeanLatency ts = 0%float)
  /\ (PrimaryTotal ts = 0%Z -> GetProviderUptime ts "primary" = 0%float)
  /\ (SecondaryTotal ts = 0%Z -> GetProviderUptime ts "secondary" = 0%float)
  /\ (forall provider allLogs siteID,
        snd (providerLatencyLoop provider allLogs siteID) = 0%Z ->
        GetProviderMeanLatency ts provider allLogs siteID = 0%float)
  /\ GetUptimePercentage NewTimeframeStats = 0%float
  /\ GetMeanLatency NewTimeframeStats = 0%float.
Proof.
  repeat apply conj.
  - intros Hzero. unfold GetUptimePercentage. rewrite Hzero. reflexivity.
  - intros Hzero. unfold GetMeanLatency. rewrite Hzero. reflexivity.
  - intros Hzero. unfold GetProviderUptime. simpl. rewrite Hzero. reflexivity.
  - intros Hzero. unfold GetProviderUptime. simpl. rewrite Hzero. reflexivity.
  - intros provider allLogs siteID Hzero. unfold GetProviderMeanLatency.
    destruct (providerLatencyLoop provider allLogs siteID) as [sum count].
    simpl in Hzero. subst count. reflexivity.
  - reflexivity.
  - reflexivity.
Qed.

(** *** Validation in the timeframe pass *)

Lemma validateLogData_negative log latency :
  PingLog.Latency log = Some latency ->
  (latency <? 0)%float = true ->
  is_Some (validateLogData log).
Proof.
  intros Hlat Hneg. unfold validateLogData. rewrite Hlat, Hneg.
  destruct (String.eqb _ _); eauto.
Qed.

Lemma validateLogData_without_latency log :
  PingLog.SiteID log <> "" ->
  PingLog.Latency log = None ->
  validateLogData log = None.
Proof.
  intros Hsite Hlat. unfold validateLogData. rewrite Hlat.
  destruct (String.eqb_spec (PingLog.SiteID log) ""); [contradiction | reflexivity].
Qed.

Lemma analyzeLog_invalid siteID day24h day7d month12 stats log :
  is_Some (validateLogData log) ->
  analyzeLog siteID day24h day7d month12 stats log = stats.
Proof.
  intros [err Herr]. unfold analyzeLog. rewrite Herr.
  destruct (negb _); reflexivity.
Qed.

(** An entry that fails validation, wherever it stands in the history,
    leaves no trace in any of the four timeframe aggregates. *)
Lemma analyzeLogs_skips_invalid siteID day24h day7d month12 before log after :
  is_Some (validateLogData log) ->
  analyzeLogs siteID day24h day7d month12 (before ++ log :: after)
  = analyzeLogs siteID day24h day7d month12 (before ++ after).
Proof.
  intros Hbad. unfold analyzeLogs. rewrite !fold_left_app. simpl.
  rewrite analyzeLog_invalid by exact Hbad. reflexivity.
Qed.

(** A successful entry without latency is counted. *)
Lemma analyzeLog_counts_success_without_latency
    siteID day24h day7d month12 stats log :
  PingLog.SiteID log = siteID ->
  siteID <> "" ->
  PingLog.Success log = true ->
  PingLog.Latency log = None ->
  let stats' := analyzeLog siteID day24h day7d month12 stats log in
  tf_all stats' = AddLog (tf_all stats) log
  /\ TotalChecks (tf_all stats') = incr (TotalChecks (tf_all stats))
  /\ SuccessChecks (tf_all stats') = incr (SuccessChecks (tf_all stats))
  /\ Latencies (tf_all stats') = Latencies (tf_all stats).
Proof.
  intros Hsite Hne Hok Hlat. unfold analyzeLog.
  rewrite validateLogData_without_latency by congruence.
  rewrite Hsite, String.eqb_refl. simpl. rewrite Hok, Hlat. auto.
Qed.

(** The per-line mean is computed from the raw history: its loop has no
    validation step, and adds a latency below zero like any other. *)
Lemma providerLatencyStep_counts provider siteID acc log latency :
  PingLog.SiteID log = siteID ->
  PingLog.Success log = true ->
  PingLog.Target log = provider ->
  PingLog.Latency log = Some latency ->
  providerLatencyStep provider siteID acc log
  = ((fst acc + latency)%float, incr (snd acc)).
Proof.
  intros Hsite Hok Hline Hlat. unfold providerLatencyStep.
  rewrite Hsite, Hok, Hline, Hlat, !String.eqb_refl. reflexivity.
Qed.

End Engine.

Lemma empty_aggregate_is_zero_witness :
  @GetUptimePercentage goLib NewTimeframeStats = 0%float
  /\ @GetMeanLatency goLib NewTimeframeStats = 0%float
  /\ @GetProviderUptime goLib NewTimeframeStats "primary" = 0%float
  /\ @GetProviderMeanLatency goLib NewTimeframeStats "secondary" outageHistory "s2"
     = 0%float.
Proof.
  destruct (@empty_aggregate_is_zero goLib NewTimeframeStats)
    as (Huptime & Hmean & Hprimary & _ & Hline & _).
  split; [apply Huptime; reflexivity|].
  split; [apply Hmean; reflexivity|].
  split; [apply Hprimary; reflexivity|].
  apply Hline. reflexivity.
Defined.

(** C7, at the failing history: one successful primary probe of "s1"
    reporting -5 ms. Validation rejects the entry and the timeframe
    aggregates ignore it (no check counted, overall mean, minimum and
    maximum 0), yet the per-line mean of the same statistics record is -5
    where the empty history gives 0, and the distribution chart counts the
    entry in its first bucket. *)
Theorem negative_latency_reaches_primary_mean (now : Z) :
  let stats := @CalculateSiteStatistics goLib _ _ (appWith negativeHistory) "s1" now in
  let empty := @CalculateSiteStatistics goLib _ _ (appWith []) "s1" now in
  Forall (fun log => is_Some (validateLogData log)) negativeHistory
  /\ SS_TotalChecks stats = 0%Z
  /\ AvgLatency stats = 0%float
  /\ SS_MinLatency stats = 0%float
  /\ SS_MaxLatency stats = 0%float
  /\ MeanLatencyPrimary empty = 0%float
  /\ MeanLatencyPrimary stats = (-5)%float
  /\ CombinedData (generateDistributionChart negativeHistory "s1" 0)
     = [1; 0; 0; 0; 0; 0]%float.
Proof.
  intros stats empty. repeat apply conj; try reflexivity.
  repeat constructor. eexists. reflexivity.
Qed.

(** *** Event derivation *)

Section Events.
Context `{GoLib}.

Lemma previousFor_cons target e seen :
  previousFor target (e :: seen)
  = if String.eqb (PingLog.Target e) target then Some e else previousFor target seen.
Proof. reflexivity. Qed.

Lemma ofSite_validOnly siteID history :
  ofSite siteID (validOnly history) = validOnly (ofSite siteID history).
Proof.
  unfold ofSite, validOnly.
  induction history as [|e history IH]; simpl; [reflexivity|].
  destruct (bool_decide (validateLogData e = None)) eqn:Hvalid,
           (String.eqb (PingLog.SiteID e) siteID) eqn:Hsite;
    simpl; rewrite ?Hvalid, ?Hsite, ?IH; reflexivity.
Qed.

(** The scan of [GetRecentEvents] against the event rule: [lastStatus]
    remembers, per line, the flag of the last valid entry seen. *)
Lemma detectEvent_fold siteID history : forall events lastStatus seen,
  (forall target,
     lastStatus !! target = PingLog.Success <$> previousFor target seen) ->
  fst (fold_left (detectEvent siteID) history (events, lastStatus))
  = events ++ map eventAt (transitionsAfter seen (validOnly (ofSite siteID history))).
Proof.
  induction history as [|e history IH]; intros events lastStatus seen Hlast; simpl.
  - rewrite app_nil_r. reflexivity.
  - destruct (String.eqb (PingLog.SiteID e) siteID) eqn:Hsite; simpl;
      [|apply IH; exact Hlast].
    destruct (validateLogData e) as [err|] eqn:Hvalid; simpl;
      [ try rewrite bool_decide_eq_false_2 by discriminate
      | try rewrite bool_decide_eq_true_2 by reflexivity ].
    + apply IH. exact Hlast.
    + simpl.
      assert (Hnext : forall target,
                 <[PingLog.Target e := PingLog.Success e]> lastStatus !! target
                 = PingLog.Success <$> previousFor target (e :: seen)).
      { intros target. rewrite previousFor_cons, lookup_insert.
        destruct (String.eqb_spec (PingLog.Target e) target) as [Heq|Hne].
        - rewrite decide_True by exact Heq. reflexivity.
        - rewrite decide_False by exact Hne. apply Hlast. }
      rewrite (Hlast (PingLog.Target e)).
      destruct (previousFor (PingLog.Target e) seen) as [prev|]; simpl.
      * destruct (negb (Bool.eqb (PingLog.Success prev) (PingLog.Success e))); simpl.
        -- rewrite (IH _ _ (e :: seen) Hnext), <- app_assoc. reflexivity.
        -- apply IH. exact Hnext.
      * apply IH. exact Hnext.
Qed.

Lemma GetRecentEvents_negative_limit {S} `{Storage S}
    (app : AppState S) (siteID : string) (limit : Z) :
  Stats.GetAllLogs app <> [] ->
  (limit < 0)%Z ->
  GetRecentEvents app siteID limit = None.
Proof.
  intros Hlogs Hneg. unfold GetRecentEvents.
  destruct (Stats.GetAllLogs app) as [|e logs] eqn:Hall; [contradiction|].
  destruct (Z.eqb_spec (Z.of_nat (length (e :: logs))) 0) as [Hz|_];
    [simpl in Hz; lia|].
  destruct (Z.ltb_spec limit (Z.of_nat (length (reverse
              (fst (fold_left (detectEvent siteID) (e :: logs) ([], ∅))))))); [|lia].
  destruct (Z.ltb_spec limit 0); [reflexivity | lia].
Qed.

Lemma transitionsAfter_sublist history : forall seen,
  sublist (transitionsAfter seen history) history.
Proof.
  induction history as [|e history IH]; intros seen; simpl; [constructor|].
  destruct (previousFor (PingLog.Target e) seen) as [prev|];
    [destruct (negb _)|]; constructor; apply IH.
Qed.

Lemma specifiedEvents_newest_first history siteID limit :
  Memory.chronological history ->
  newestEventFirst (specifiedEvents history siteID limit).
Proof.
  intros Hsorted. unfold specifiedEvents, newestEventFirst.
  eapply StronglySorted_sublist; [apply sublist_take|].
  apply (StronglySorted_reverse
           (fun a b => (RecentEvent.Timestamp a <= RecentEvent.Timestamp b)%Z)).
  apply (StronglySorted_map
           (fun a b => (RecentEvent.Timestamp a <= RecentEvent.Timestamp b)%Z) eventAt).
  eapply StronglySorted_sublist; [|exact Hsorted].
  etransitivity; [apply transitionsAfter_sublist | apply filter_sublist].
Qed.

(** C9, as the code has it. For every backend, site and limit [>= 0],
    [GetRecentEvents] returns (without panicking) the event rule applied to
    the entries that pass validation: scanning the valid entries of the site
    in the order the backend returns the history, an event stands exactly at
    the entries whose success flag differs from the one of the valid entry
    immediately preceding them on the same line, so never at the first
    valid observation of a line; the list is the reverse of the scan, cut
    to [limit]. For a history that the backend returns in chronological
    order, as the memory store keeps it, the scan is the chronological one
    of the event rule and the list is newest first. *)
Theorem GetRecentEvents_follows_valid_transitions {S} `{Storage S}
    (app : AppState S) (siteID : string) (limit : Z) :
  (0 <= limit)%Z ->
  exists events,
    GetRecentEvents app siteID limit = Some events
    /\ events = specifiedEvents (validOnly (Stats.GetAllLogs app)) siteID limit
    /\ (Memory.chronological (Stats.GetAllLogs app) -> newestEventFirst events).
Proof.
  intros Hlimit. eexists. split; [|split; [reflexivity|]].
  - unfold GetRecentEvents, specifiedEvents.
    rewrite ofSite_validOnly.
    destruct (Z.eqb_spec (Z.of_nat (length (Stats.GetAllLogs app))) 0) as [Hempty|_].
    + destruct (Stats.GetAllLogs app); [|simpl in Hempty; lia].
      simpl. destruct (Z.to_nat limit); reflexivity.
    + rewrite (detectEvent_fold siteID _ [] ∅ []) by (intros target; apply lookup_empty).
      simpl.
      destruct (Z.ltb_spec limit (Z.of_nat (length (reverse (map eventAt
                  (transitionsAfter [] (validOnly (ofSite siteID (Stats.GetAllLogs app))))))))).
      * destruct (Z.ltb_spec limit 0); [lia | reflexivity].
      * rewrite take_ge by lia. reflexivity.
  - intros Hsorted. apply specifiedEvents_newest_first.
    eapply StronglySorted_sublist; [apply filter_sublist | exact Hsorted].
Qed.

End Events.

Lemma GetRecentEvents_follows_valid_transitions_witness :
  exists events,
    @GetRecentEvents goLib _ _ (appWith outageHistory) "s1" 10 = Some events
    /\ events = map (@eventAt goLib)
                  [probe 3 "primary" true (Some 11%float);
                   probe 2 "primary" false None]
    /\ newestEventFirst events.
Proof.
  destruct (@GetRecentEvents_follows_valid_transitions goLib _ _
              (appWith outageHistory) "s1" 10) as (events & Hget & Hspec & Hnewest);
    [lia|].
  exists events. split; [exact Hget|]. split.
  - rewrite Hspec. vm_compute. reflexivity.
  - apply Hnewest. unfold Memory.chronological.
    repeat constructor; vm_compute; discriminate.
Defined.

(** The scan takes the history in the order the backend returns it and
    does not sort it: from a history that comes newest first, the events
    stand at the older entry of every change and the list is oldest first. *)
Lemma GetRecentEvents_scans_in_stored_order :
  @GetRecentEvents goLib _ _ (appWith descendingHistory) "s1" 10
  = Some (map (@eventAt goLib)
            [probe 1 "primary" true (Some 12%float);
             probe 2 "primary" false None])
  /\ ~ newestEventFirst
        (map (@eventAt goLib)
           [probe 1 "primary" true (Some 12%float);
            probe 2 "primary" false None]).
Proof.
  split; [vm_compute; reflexivity|].
  intros Hsorted. apply StronglySorted_inv in Hsorted as [_ Hall].
  apply Forall_inv in Hall. vm_compute in Hall. apply Hall. reflexivity.
Qed.

(** C9 as stated fails on a history with an entry that does not pass
    validation. The line goes up, down, up (reporting -3 ms) and down: the
    third entry is skipped, so the code reports the first loss only, where
    the rule on all entries has a loss, a restoration and a second loss. *)
Lemma GetRecentEvents_skips_invalid_entries :
  @GetRecentEvents goLib _ _ (appWith flappingHistory) "s1" 10
  = Some [@eventAt goLib (probe 2 "primary" false None)]
  /\ @specifiedEvents goLib flappingHistory "s1" 10
     = map (@eventAt goLib)
         [probe 4 "primary" false None;
          probe 3 "primary" true (Some (-3)%float);
          probe 2 "primary" false None]
  /\ @GetRecentEvents goLib _ _ (appWith flappingHistory) "s1" 10
     <> Some (@specifiedEvents goLib flappingHistory "s1" 10).
Proof.
  split; [vm_compute; reflexivity|].
  split; [vm_compute; reflexivity|].
  vm_compute. discriminate.
Qed.

End StatsFacts.

(** ** The breaker's counter and notifications, and the registry *)

Module ManagerFacts.
Import GoInt GoIntFacts Manager Breaker BreakerFacts.

Section Probe.
Context {W E : Type}.
Implicit Types (cb : CircuitBreaker) (clk : Clock) (fn : W -> option E * W) (w : W).

(** X1. The counter counts consecutive failures: after any sequence of calls on
    a breaker that started Closed with no failure (threshold between 1 and
    the largest [int]), a Closed breaker holds exactly the number of probe
    failures since the last success or rejection, and that number is below
    the threshold. *)
Theorem failures_counts_consecutive_failures
    (cb : CircuitBreaker) (w : W) (calls : list (Clock * (W -> option E * W))) :
  state cb = StateClosed -> failures cb = 0 ->
  1 <= maxFailures cb <= maxInt64 ->
  let '(results, cb', _) := run cb w calls in
  state cb' = StateClosed ->
  failures cb' = Z.of_nat (trailingFailures results)
  /\ Z.of_nat (trailingFailures results) < maxFailures cb.
Proof.
  intros Hst Hf Hmax.
  destruct (run_counts calls cb w Hst Hf Hmax) as [[Hsettled Hcount] Hsame].
  destruct (run cb w calls) as [[results cb'] w']. simpl in *.
  intros Hclosed. specialize (Hcount Hclosed). split; [exact Hcount|].
  destruct Hsettled as [Hopen | [_ Hlt]]; [congruence | lia].
Qed.

(** *** Notifications *)

Lemma leads_app from changes1 mid changes2 to :
  leads from changes1 mid -> leads mid changes2 to ->
  leads from (changes1 ++ changes2) to.
Proof.
  revert from. induction changes1 as [|[a b] changes1 IH]; intros from; simpl.
  - intros ->. auto.
  - intros [-> Hrest] Hnext. split; [reflexivity|]. apply IH; assumption.
Qed.

Ltac legal_changes :=
  repeat apply List.Forall_cons; try apply List.Forall_nil; unfold legal; auto 6.

Lemma Call_notifies cb clk fn w :
  onStateChange cb = true ->
  let cb' := snd (fst (Call cb clk fn w)) in
  onStateChange cb' = true
  /\ exists changes,
       dispatched cb' = dispatched cb ++ changes
       /\ leads (state cb) changes (state cb')
       /\ Forall legal changes.
Proof.
  intros Hon. unfold Call, canExecute, recordFailure, recordSuccess.
  destruct (state cb) eqn:Hst; simpl;
    repeat match goal with
           | |- context [if ?b then _ else _] =>
               lazymatch b with
               | _ <? _ => destruct b eqn:?
               | _ <=? _ => destruct b eqn:?
               end; simpl
           | |- context [fn w] => destruct (fn w) as [[?|] ?]; simpl
           end;
    rewrite ?Hst, ?Hon; simpl; rewrite ?Hst, ?Hon; simpl;
    (split; [try reflexivity; assumption|]);
    first
      [ exists []; rewrite app_nil_r; simpl; rewrite ?Hst;
        split; [reflexivity | split; [reflexivity | constructor]]
      | eexists [_]; split; [reflexivity|];
        split; [simpl; auto | legal_changes]
      | eexists [_; _]; rewrite <- app_assoc; split; [reflexivity|];
        split; [simpl; auto | legal_changes] ].
Qed.

(** X2. The notifications tell the breaker's history: with the callback set,
    the changes dispatched during any sequence of calls lead, each starting
    where the one before ended, from the state before the calls to the state
    after them, and every one of them is a transition of the state machine:
    Closed to Open, Open to Half-Open, Half-Open to Closed or Half-Open to
    Open. *)
Theorem notifications_follow_the_state_machine
    (cb : CircuitBreaker) (w : W) (calls : list (Clock * (W -> option E * W))) :
  onStateChange cb = true ->
  let cb' := snd (fst (run cb w calls)) in
  exists changes,
    dispatched cb' = dispatched cb ++ changes
    /\ leads (state cb) changes (state cb')
    /\ Forall legal changes.
Proof.
  revert cb w. induction calls as [|[clk fn] calls IH]; intros cb w Hon; simpl.
  - exists []. rewrite app_nil_r. repeat split. constructor.
  - destruct (Call_notifies cb clk fn w Hon) as (Hon1 & ch1 & Hd1 & Hl1 & Hf1).
    destruct (Call cb clk fn w) as [[r cb1] w1]. simpl in *.
    destruct (IH cb1 w1 Hon1) as (ch2 & Hd2 & Hl2 & Hf2).
    destruct (run cb1 w1 calls) as [[rs cb2] w2]. simpl in *.
    exists (ch1 ++ ch2). rewrite Hd2, Hd1, <- app_assoc.
    split; [reflexivity|]. split; [eapply leads_app; eassumption|].
    apply Forall_app. auto.
Qed.

End Probe.

Lemma failures_counts_consecutive_failures_witness :
  state sampleBreaker = StateClosed
  /\ failures sampleBreaker = 0
  /\ state (snd (fst (run sampleBreaker 0%nat mixedCalls))) = StateClosed
  /\ failures (snd (fst (run sampleBreaker 0%nat mixedCalls))) = 1.
Proof.
  pose proof (failures_counts_consecutive_failures sampleBreaker 0%nat mixedCalls
                eq_refl eq_refl) as Hcount.
  assert (Hmax : 1 <= maxFailures sampleBreaker <= maxInt64)
    by (vm_compute; split; discriminate).
  specialize (Hcount Hmax).
  split; [reflexivity|]. split; [reflexivity|]. split; [reflexivity|].
  destruct (run sampleBreaker 0%nat mixedCalls) as [[results cb'] runs] eqn:Hrun.
  vm_compute in Hrun. injection Hrun as <- <- <-.
  destruct (Hcount eq_refl) as [Hfailures _]. exact Hfailures.
Defined.

Lemma notifications_follow_the_state_machine_witness :
  onStateChange sampleBreaker = true
  /\ exists changes,
       dispatched (snd (fst (run sampleBreaker 0%nat recoveryCalls))) = changes
       /\ leads StateClosed changes StateClosed
       /\ Forall legal changes.
Proof.
  split; [reflexivity|].
  destruct (notifications_follow_the_state_machine sampleBreaker 0%nat recoveryCalls
              eq_refl) as (changes & Hdispatched & Hleads & Hlegal).
  exists changes. split; [exact Hdispatched|]. split; [exact Hleads | exact Hlegal].
Defined.

(** *** The registry *)

(** X3. Get-or-create: [GetBreaker] leaves the pair's breaker in the registry
    and returns it; a breaker already there is returned as it is, with the
    state and count it has reached, and the registry is unchanged; a missing
    one is made Closed, with no failure, the manager's policy, the name
    [siteID/lineType] and the callback set. Asking again returns the same
    breaker, and no other key of the registry is touched. *)
Theorem GetBreaker_gets_or_creates
    (cbm : CircuitBreakerManager) (siteID lineType : string) :
  let '(breaker, cbm') := GetBreaker cbm siteID lineType in
  breakers cbm' !! breakerKey siteID lineType = Some breaker
  /\ GetBreaker cbm' siteID lineType = (breaker, cbm')
  /\ Manager.maxFailures cbm' = Manager.maxFailures cbm
  /\ Manager.resetTimeout cbm' = Manager.resetTimeout cbm
  /\ (forall key, key <> breakerKey siteID lineType ->
        breakers cbm' !! key = breakers cbm !! key)
  /\ (forall old, breakers cbm !! breakerKey siteID lineType = Some old ->
        breaker = old /\ cbm' = cbm)
  /\ (breakers cbm !! breakerKey siteID lineType = None ->
      state breaker = StateClosed /\ failures breaker = 0
      /\ maxFailures breaker = Manager.maxFailures cbm
      /\ resetTimeout breaker = Manager.resetTimeout cbm
      /\ name breaker = breakerName siteID lineType
      /\ onStateChange breaker = true /\ dispatched breaker = []).
Proof.
  unfold GetBreaker.
  destruct (breakers cbm !! breakerKey siteID lineType) as [old|] eqn:Hold.
  - rewrite Hold. repeat split; try congruence; auto.
  - simpl. rewrite lookup_insert_eq. repeat split; try discriminate.
    intros key Hne. apply lookup_insert_ne. congruence.
Qed.

Lemma GetBreaker_gets_or_creates_witness :
  state sampleBreaker = StateClosed
  /\ failures sampleBreaker = 0
  /\ maxFailures sampleBreaker = 3
  /\ name sampleBreaker = "s1/primary"%string
  /\ onStateChange sampleBreaker = true.
Proof.
  unfold sampleBreaker.
  pose proof (GetBreaker_gets_or_creates globalCircuitBreakerManager "s1" "primary")
    as Hget.
  destruct (GetBreaker globalCircuitBreakerManager "s1" "primary") as [breaker cbm'].
  destruct Hget as (_ & _ & _ & _ & _ & _ & Hnew).
  destruct (Hnew eq_refl) as (Hstate & Hfailures & Hmax & _ & Hname & Hcallback & _).
  simpl. auto.
Defined.

Lemma list_ascii_of_string_app s t :
  String.list_ascii_of_string (s ++ t)%string
  = String.list_ascii_of_string s ++ String.list_ascii_of_string t.
Proof. induction s as [|c s IH]; simpl; [|rewrite IH]; reflexivity. Qed.

Lemma list_ascii_of_string_inj s t :
  String.list_ascii_of_string s = String.list_ascii_of_string t -> s = t.
Proof.
  intros Heq. rewrite <- (String.string_of_list_ascii_of_string s),
    <- (String.string_of_list_ascii_of_string t), Heq. reflexivity.
Qed.

Lemma string_app_inv_tail s1 s2 t :
  (s1 ++ t)%string = (s2 ++ t)%string -> s1 = s2.
Proof.
  intros Heq. apply list_ascii_of_string_inj.
  apply (f_equal String.list_ascii_of_string) in Heq.
  rewrite !list_ascii_of_string_app in Heq.
  eapply app_inv_tail. exact Heq.
Qed.

Lemma primary_secondary_keys_differ s1 s2 :
  breakerKey s1 "primary" <> breakerKey s2 "secondary".
Proof.
  unfold breakerKey. intros Heq.
  apply (f_equal String.list_ascii_of_string) in Heq.
  rewrite !list_ascii_of_string_app in Heq.
  apply (f_equal (@List.rev _)) in Heq.
  rewrite !List.rev_app_distr in Heq. simpl in Heq. discriminate.
Qed.

Lemma breakerKey_injective_on_lines site1 line1 site2 line2 :
  isLine line1 -> isLine line2 ->
  breakerKey site1 line1 = breakerKey site2 line2 ->
  site1 = site2 /\ line1 = line2.
Proof.
  intros [-> | ->] [-> | ->] Heq.
  - split; [|reflexivity]. unfold breakerKey in Heq.
    eapply string_app_inv_tail. exact Heq.
  - destruct (primary_secondary_keys_differ _ _ Heq).
  - symmetry in Heq. destruct (primary_secondary_keys_differ _ _ Heq).
  - split; [|reflexivity]. unfold breakerKey in Heq.
    eapply string_app_inv_tail. exact Heq.
Qed.

(** X4. One breaker per pair: for the two line names the scheduler uses,
    different (site, line) pairs have different registry keys, so the
    breaker of one pair is never the breaker of another. With other line
    names the key does not tell the pairs apart: site "a-b" on a line "c"
    and site "a" on a line "b-c" share one key. *)
Theorem breakerKey_separates_lines (site1 line1 site2 line2 : string) :
  (isLine line1 -> isLine line2 ->
   breakerKey site1 line1 = breakerKey site2 line2 ->
   site1 = site2 /\ line1 = line2)
  /\ breakerKey "a-b" "c" = breakerKey "a" "b-c".
Proof.
  split; [apply breakerKey_injective_on_lines | reflexivity].
Qed.

Lemma breakerKey_separates_lines_witness :
  breakerKey "s1" "primary" <> breakerKey "s1" "secondary"
  /\ breakerKey "s1" "primary" <> breakerKey "s2" "primary".
Proof.
  split; intros Heq.
  - destruct (breakerKey_separates_lines "s1" "primary" "s1" "secondary")
      as [Hinj _].
    destruct Hinj as [_ Hline]; [left; reflexivity | right; reflexivity | exact Heq |].
    discriminate.
  - destruct (breakerKey_separates_lines "s1" "primary" "s2" "primary")
      as [Hinj _].
    destruct Hinj as [Hsite _]; [left; reflexivity | left; reflexivity | exact Heq |].
    discriminate.
Defined.

End ManagerFacts.

(** ** The probe executor *)

Module ProberFacts.
Import GoInt GoIntFacts Models Config Manager Breaker BreakerFacts Prober.

Lemma string_app_assoc (s t u : string) :
  (s ++ (t ++ u))%string = ((s ++ t) ++ u)%string.
Proof.
  induction s as [|c s IH]; [reflexivity|].
  change (String c (s ++ (t ++ u)) = String c ((s ++ t) ++ u))%string.
  rewrite IH. reflexivity.
Qed.

Section Network.
Context {W : Type} (ping : Pinger -> W -> Outcome * W).
Implicit Types (settings : PingSettings) (w : W) (result : PingResult.t).

Lemma executePing_result settings w result :
  let '(err, (_, result')) := executePing ping settings (w, result) in
  (err = None <-> PingResult.Success result' = true)
  /\ (PingResult.Success result' = true -> is_Some (PingResult.Latency result'))
  /\ PingResult.SiteID result' = PingResult.SiteID result
  /\ PingResult.IP result' = PingResult.IP result
  /\ PingResult.LineType result' = PingResult.LineType result
  /\ PingResult.Timestamp result' = PingResult.Timestamp result.
Proof.
  unfold executePing.
  destruct (ping (configure settings (PingResult.IP result)) w) as [[err|err|stats] w'];
    simpl; [repeat split; discriminate | repeat split; discriminate |].
  destruct (0 <? PacketsRecv stats); simpl; repeat split; try discriminate; eauto.
Qed.

(** X5. What [executePing] leaves in the result, whatever the network does:
    the error is nil exactly when the result is a success, which is exactly
    when the pinger ran and its statistics count a received packet; for a
    result that starts with no packet counted, as the one of [PingIP], that
    is exactly when the result counts a received packet. After a run the
    result carries the packet counts of the statistics, and a run without
    an answer returns the error no packets received. A success carries
    latency, minimum, maximum and jitter; a failure carries an error text;
    the identity of the probe (site, address, line, time stamp) is never
    rewritten; and the pinger is asked for at least one packet,
    unprivileged. *)
Theorem executePing_outcome settings w result :
  let '(err, (_, result')) := executePing ping settings (w, result) in
  (err = None <-> PingResult.Success result' = true)
  /\ (PingResult.Success result' = true <->
      exists stats,
        fst (ping (configure settings (PingResult.IP result)) w) = Ran stats
        /\ 0 < PacketsRecv stats)
  /\ (PingResult.PacketsRecv result <= 0 ->
      (PingResult.Success result' = true <-> 0 < PingResult.PacketsRecv result'))
  /\ (forall stats,
        fst (ping (configure settings (PingResult.IP result)) w) = Ran stats ->
        PingResult.PacketsSent result' = PacketsSent stats
        /\ PingResult.PacketsRecv result' = PacketsRecv stats
        /\ PingResult.PacketsDuplicates result' = PacketsRecvDuplicates stats
        /\ (PacketsRecv stats <= 0 ->
            err = Some "no packets received"%string
            /\ PingResult.Error result' = "no packets received"%string))
  /\ (PingResult.Success result' = true ->
      0 < PingResult.PacketsRecv result'
      /\ is_Some (PingResult.Latency result')
      /\ is_Some (PingResult.MinLatency result')
      /\ is_Some (PingResult.MaxLatency result')
      /\ is_Some (PingResult.Jitter result')
      /\ PingResult.Error result' = PingResult.Error result)
  /\ (PingResult.Success result' = false ->
      PingResult.Error result' <> ""
      /\ PingResult.Latency result' = PingResult.Latency result)
  /\ PingResult.SiteID result' = PingResult.SiteID result
  /\ PingResult.IP result' = PingResult.IP result
  /\ PingResult.LineType result' = PingResult.LineType result
  /\ PingResult.Timestamp result' = PingResult.Timestamp result
  /\ 1 <= Count (configure settings (PingResult.IP result))
  /\ Privileged (configure settings (PingResult.IP result)) = false.
Proof.
  unfold executePing.
  assert (Hcount : 1 <= Count (configure settings (PingResult.IP result))).
  { unfold configure. simpl. destruct (Z.leb_spec (PacketCount settings) 0); lia. }
  destruct (ping (configure settings (PingResult.IP result)) w) as [[err|err|stats] w'].
  - simpl. split; [split; discriminate|]. split.
    { split; [discriminate | intros (stats & Hran & _); discriminate]. }
    split; [intros Hzero; split; [discriminate | lia]|].
    split; [intros stats Hran; discriminate|].
    repeat split; try discriminate. exact Hcount.
  - simpl. split; [split; discriminate|]. split.
    { split; [discriminate | intros (stats & Hran & _); discriminate]. }
    split; [intros Hzero; split; [discriminate | lia]|].
    split; [intros stats Hran; discriminate|].
    repeat split; try discriminate. exact Hcount.
  - simpl. destruct (Z.ltb_spec 0 (PacketsRecv stats)) as [Hrecv|Hnone]; simpl.
    + split; [split; reflexivity|]. split.
      { split; [intros _; exists stats; split; [reflexivity | exact Hrecv]
               | reflexivity]. }
      split; [intros _; split; [intros _; exact Hrecv | reflexivity]|].
      split.
      { intros stats' [= <-]. repeat split. lia. lia. }
      repeat split; try discriminate; eauto.
    + split; [split; discriminate|]. split.
      { split; [discriminate | intros (stats' & [= <-] & Hpos); lia]. }
      split; [intros _; split; [discriminate | lia]|].
      split.
      { intros stats' [= <-]. repeat split. }
      repeat split; try discriminate; eauto.
Qed.

(** X6. The on-demand probe and the scheduled one judge a run alike: on the
    same network, [PingIPSync] reports the success flag, latency and error
    text that [executePing] records in a new result, and leaves the network
    in the same state. *)
Theorem PingIPSync_agrees_with_executePing settings siteID ip lineType now w :
  let '((ok, latency, message), w1) := PingIPSync ping settings ip w in
  let '(_, (w2, result)) :=
    executePing ping settings (w, newResult siteID ip lineType now) in
  ok = PingResult.Success result
  /\ latency = PingResult.Latency result
  /\ message = PingResult.Error result
  /\ w1 = w2.
Proof.
  unfold PingIPSync, executePing. simpl.
  destruct (ping (configure settings ip) w) as [[err|err|stats] w']; simpl; auto.
  destruct (0 <? PacketsRecv stats); simpl; auto.
Qed.

Lemma PingIP_unfold cbm settings siteID ip lineType now clk w :
  PingIP ping cbm settings siteID ip lineType now clk w
  = let call := Call (breakerOf cbm siteID lineType) clk (executePing ping settings)
                  (w, newResult siteID ip lineType now) in
    (finish (fst (fst call)) (snd (snd call)),
     putBreaker (snd (GetBreaker cbm siteID lineType)) siteID lineType (snd (fst call)),
     fst (snd call)).
Proof.
  unfold PingIP, breakerOf.
  destruct (GetBreaker cbm siteID lineType) as [cb cbm1]. simpl.
  destruct (Call cb clk _ _) as [[err cb'] [w' result']]. reflexivity.
Qed.

Lemma breakerOf_putBreaker cbm siteID lineType cb :
  breakerOf (putBreaker cbm siteID lineType cb) siteID lineType = cb.
Proof.
  unfold breakerOf, GetBreaker, putBreaker. simpl.
  rewrite lookup_insert_eq. reflexivity.
Qed.

Lemma breakerOf_PingIP cbm settings siteID ip lineType now clk w :
  breakerOf (snd (fst (PingIP ping cbm settings siteID ip lineType now clk w)))
            siteID lineType
  = snd (fst (Call (breakerOf cbm siteID lineType) clk (executePing ping settings)
                (w, newResult siteID ip lineType now))).
Proof. rewrite PingIP_unfold. simpl. apply breakerOf_putBreaker. Qed.

(** X7. Every result [PingIP] produces is complete where the pipeline reads
    it: it names the probe it was asked for, and a success always carries a
    latency, so [HandlePingResult] cannot fail on the missing latency, and on
    a ring-buffer store of capacity 1 or more it processes the result. *)
Theorem PingIP_result_is_processed
    cbm settings siteID ip lineType now clk w (appState : AppState Memory.MemoryStorage) :
  let result := fst (fst (PingIP ping cbm settings siteID ip lineType now clk w)) in
  PingResult.SiteID result = siteID
  /\ PingResult.IP result = ip
  /\ PingResult.LineType result = lineType
  /\ PingResult.Timestamp result = now
  /\ (PingResult.Success result = true -> is_Some (PingResult.Latency result))
  /\ is_Some (Ping.resultMetrics result)
  /\ (1 <= Memory.maxLogs (Storage_ appState) ->
      is_Some (Ping.HandlePingResult appState result)).
Proof.
  intros result.
  assert (Hshape :
            PingResult.SiteID result = siteID
            /\ PingResult.IP result = ip
            /\ PingResult.LineType result = lineType
            /\ PingResult.Timestamp result = now
            /\ (PingResult.Success result = true -> is_Some (PingResult.Latency result))).
  { subst result. rewrite PingIP_unfold. cbn [fst snd].
    pose proof (executePing_result settings w (newResult siteID ip lineType now))
      as Hout.
    unfold Call. destruct (canExecute _ clk) as [ok cb1]. destruct ok.
    - destruct (executePing ping settings (w, newResult siteID ip lineType now))
        as [[err|] [w' result']]; simpl in *;
        destruct Hout as (_ & Hok & Hs & Hi & Hl & Ht);
        repeat split; try assumption; intros Hsuccess; apply Hok, Hsuccess.
    - simpl. repeat split. discriminate. }
  destruct Hshape as (Hsite & Hip & Hline & Hnow & Hlat).
  assert (Hmetrics : is_Some (Ping.resultMetrics result)).
  { unfold Ping.resultMetrics. destruct (PingResult.Success result) eqn:Hok; [|eauto].
    destruct (Hlat eq_refl) as [latency ->]. eauto. }
  repeat split; try assumption.
  intros Hcap. destruct Hmetrics as [ops Hops].
  rewrite PingFacts.HandlePingResult_unfold, Hops. simpl.
  unfold Memory.AddPingLog.
  destruct (Z.leb_spec (Memory.maxLogs (Storage_ appState))
              (Z.of_nat (length (Memory.logs (Storage_ appState))))) as [Hfull|Hroom].
  - destruct (Memory.logs (Storage_ appState)); [simpl in Hfull; lia | eauto].
  - eauto.
Qed.

(** X8. A probe touches the breaker of its own pair only: every other key of
    the registry holds the breaker it held, so for line names "primary" and
    "secondary" the breaker of any other (site, line) pair is as it was. *)
Theorem PingIP_touches_only_its_breaker
    cbm settings siteID ip lineType now clk w (siteID' lineType' : string) :
  let cbm' := snd (fst (PingIP ping cbm settings siteID ip lineType now clk w)) in
  (forall key, key <> breakerKey siteID lineType ->
     breakers cbm' !! key = breakers cbm !! key)
  /\ (isLine lineType -> isLine lineType' ->
      (siteID', lineType') <> (siteID, lineType) ->
      breakers cbm' !! breakerKey siteID' lineType'
      = breakers cbm !! breakerKey siteID' lineType')
  /\ Manager.maxFailures cbm' = Manager.maxFailures cbm
  /\ Manager.resetTimeout cbm' = Manager.resetTimeout cbm.
Proof.
  intros cbm'. subst cbm'. rewrite PingIP_unfold. simpl.
  assert (Hother : forall key, key <> breakerKey siteID lineType ->
            <[breakerKey siteID lineType :=
                snd (fst (Call (breakerOf cbm siteID lineType) clk
                            (executePing ping settings)
                            (w, newResult siteID ip lineType now)))]>
              (breakers (snd (GetBreaker cbm siteID lineType))) !! key
            = breakers cbm !! key).
  { intros key Hne. rewrite lookup_insert_ne by congruence.
    unfold GetBreaker. destruct (breakers cbm !! breakerKey siteID lineType);
      simpl; [reflexivity|]. apply lookup_insert_ne. congruence. }
  repeat split.
  - exact Hother.
  - intros Hline Hline' Hpair. apply Hother. intros Hkey.
    destruct (ManagerFacts.breakerKey_injective_on_lines _ _ _ _ Hline' Hline Hkey)
      as [-> ->].
    contradiction.
  - unfold GetBreaker. destruct (breakers cbm !! _); reflexivity.
  - unfold GetBreaker. destruct (breakers cbm !! _); reflexivity.
Qed.

Lemma PingIP_other_keys cbm settings siteID ip lineType now clk w key :
  key <> breakerKey siteID lineType ->
  breakers (snd (fst (PingIP ping cbm settings siteID ip lineType now clk w))) !! key
  = breakers cbm !! key.
Proof.
  intros Hne. rewrite PingIP_unfold. simpl.
  rewrite lookup_insert_ne by congruence.
  unfold GetBreaker. destruct (breakers cbm !! breakerKey siteID lineType);
    simpl; [reflexivity|]. apply lookup_insert_ne. congruence.
Qed.

Lemma PingIPs_other_keys settings siteID ip lineType key :
  key <> breakerKey siteID lineType ->
  forall (rounds : list (Z * Clock)) cbm w,
  breakers (snd (fst (PingIPs ping cbm settings siteID ip lineType rounds w))) !! key
  = breakers cbm !! key.
Proof.
  intros Hne rounds. induction rounds as [|[now clk] rounds IH]; intros cbm w;
    [reflexivity|].
  simpl.
  pose proof (PingIP_other_keys cbm settings siteID ip lineType now clk w key Hne)
    as Hstep.
  destruct (PingIP ping cbm settings siteID ip lineType now clk w)
    as [[result cbm1] w1].
  specialize (IH cbm1 w1).
  destruct (PingIPs ping cbm1 settings siteID ip lineType rounds w1)
    as [[results cbm2] w2].
  simpl in *. congruence.
Qed.

Lemma executePing_unanswered settings :
  unanswered ping -> failing (executePing ping settings).
Proof.
  intros Hdown [w result]. unfold executePing.
  specialize (Hdown (configure settings (PingResult.IP result)) w).
  destruct (ping (configure settings (PingResult.IP result)) w) as [[err|err|stats] w'];
    simpl in *; eauto.
  destruct (Z.ltb_spec 0 (PacketsRecv stats)); [lia | eauto].
Qed.

(** The error texts [executePing] writes are not the text of a rejected
    probe. *)
Lemma executePing_not_blocked settings w siteID ip lineType now :
  PingResult.Error (snd (snd (executePing ping settings
                                (w, newResult siteID ip lineType now))))
  <> blockedText siteID lineType
  \/ PingResult.Success (snd (snd (executePing ping settings
                                     (w, newResult siteID ip lineType now)))) = true.
Proof.
  unfold executePing. simpl.
  destruct (ping (configure settings ip) w) as [[err|err|stats] w']; simpl.
  - left. discriminate.
  - left. discriminate.
  - destruct (0 <? PacketsRecv stats); [right; reflexivity | left; discriminate].
Qed.

(** A probe rejected by the breaker, as a result. *)
Lemma PingIP_blocked cbm settings siteID ip lineType now clk w cb :
  breakers cbm !! breakerKey siteID lineType = Some cb ->
  state cb = StateOpen ->
  name cb = breakerName siteID lineType ->
  time_Since (t_check clk) (lastFailTime cb) <= resetTimeout cb ->
  PingIP ping cbm settings siteID ip lineType now clk w
  = (failed (newResult siteID ip lineType now) (blockedText siteID lineType), cbm, w).
Proof.
  intros Hcb Hst Hname Hle. unfold PingIP, GetBreaker. rewrite Hcb.
  rewrite (Call_open_blocked _ _ _ _ Hst Hle), Hname.
  unfold putBreaker. rewrite (insert_id _ _ _ Hcb). destruct cbm; reflexivity.
Qed.

(** From Closed with [k] failures counted, [maxFailures - k] unanswered
    probes in a row: each one runs and fails, and the last opens the
    circuit. *)
Lemma PingIPs_unanswered settings siteID ip lineType :
  unanswered ping ->
  forall (rounds : list (Z * Clock)) cbm w,
  let cb := breakerOf cbm siteID lineType in
  state cb = StateClosed ->
  0 <= failures cb < maxFailures cb ->
  maxFailures cb <= maxInt64 ->
  name cb = breakerName siteID lineType ->
  Z.of_nat (length rounds) = maxFailures cb - failures cb ->
  let run := PingIPs ping cbm settings siteID ip lineType rounds w in
  Forall (fun result => PingResult.Success result = false
                        /\ PingResult.Error result <> blockedText siteID lineType)
         (fst (fst run))
  /\ length (fst (fst run)) = length rounds
  /\ exists cb1,
       breakers (snd (fst run)) !! breakerKey siteID lineType = Some cb1
       /\ state cb1 = StateOpen
       /\ name cb1 = breakerName siteID lineType
       /\ resetTimeout cb1 = resetTimeout cb
       /\ failures cb1 = maxFailures cb
       /\ forall round, last rounds = Some round -> lastFailTime cb1 = t_fail (snd round).
Proof.
  intros Hdown rounds.
  induction rounds as [|[now clk] rounds IH]; intros cbm w cb Hst Hf Hmax Hname Hlen run.
  - simpl in Hlen. lia.
  - subst run. simpl.
    pose proof (PingIP_unfold cbm settings siteID ip lineType now clk w) as Hstep.
    pose proof (breakerOf_PingIP cbm settings siteID ip lineType now clk w) as Hnext.
    fold cb in Hstep, Hnext.
    rewrite (Call_closed _ _ _ _ Hst) in Hstep, Hnext.
    pose proof (executePing_not_blocked settings w siteID ip lineType now) as Htext.
    destruct (executePing_unanswered settings Hdown (w, newResult siteID ip lineType now))
      as [e He].
    pose proof (executePing_result settings w (newResult siteID ip lineType now)) as Hout.
    destruct (executePing ping settings (w, newResult siteID ip lineType now))
      as [err [w' result']]. simpl in He. subst err.
    simpl in Hstep, Hnext, Htext.
    destruct Hout as (Hok & _).
    assert (Hfail : PingResult.Success result' = false).
    { destruct (PingResult.Success result'); [|reflexivity].
      destruct Hok as [_ Hok]. discriminate (Hok eq_refl). }
    assert (Hresult : PingResult.Success result' = false
                      /\ PingResult.Error result' <> blockedText siteID lineType).
    { split; [exact Hfail|]. destruct Htext as [Htext|Htext]; [exact Htext | congruence]. }
    destruct (PingIP ping cbm settings siteID ip lineType now clk w)
      as [[result cbm1] w1].
    injection Hstep as -> -> ->. simpl in Hnext.
    assert (Hw : wrap64 (failures cb + 1) = failures cb + 1)
      by (apply wrap64_id; unfold in_int64, minInt64, maxInt64 in *; lia).
    destruct (decide (failures cb + 1 = maxFailures cb)) as [Heq|Hne].
    + assert (rounds = []) as -> by (destruct rounds; [reflexivity | simpl in Hlen; lia]).
      simpl. split; [constructor; [exact Hresult | constructor]|].
      split; [reflexivity|].
      exists (recordFailure cb (t_fail clk)).
      rewrite lookup_insert_eq. split; [reflexivity|].
      unfold recordFailure. simpl. rewrite Hst, Hw.
      destruct (Z.leb_spec (maxFailures cb) (failures cb + 1)); [|lia].
      simpl. repeat split; try assumption. intros round [= <-]. reflexivity.
    + assert (Hrf : recordFailure cb (t_fail clk)
                    = with_lastFailTime (with_failures cb (failures cb + 1)) (t_fail clk)).
      { unfold recordFailure. simpl. rewrite Hst, Hw.
        destruct (Z.leb_spec (maxFailures cb) (failures cb + 1)); [lia | reflexivity]. }
      rewrite Hrf in Hnext.
      specialize (IH (putBreaker (snd (GetBreaker cbm siteID lineType)) siteID lineType
                        (recordFailure cb (t_fail clk))) w').
      simpl in IH. rewrite Hrf in IH. rewrite Hnext in IH. simpl in IH.
      rewrite length_cons in Hlen.
      specialize (IH Hst ltac:(lia) Hmax Hname ltac:(lia)).
      rewrite <- Hrf in IH.
      destruct (PingIPs ping _ settings siteID ip lineType rounds w')
        as [[results cbm2] w2].
      simpl in *.
      destruct IH as (Hall & Hlen' & cb1 & Hcb1 & Hopen & Hn1 & Hr1 & Hf1 & Hlast).
      split; [constructor; assumption|]. split; [congruence|].
      exists cb1. repeat split; try assumption.
      intros round Hround. apply Hlast.
      destruct rounds as [|r rounds']; [simpl in Hlen; lia | exact Hround].
Qed.

(** X9. Isolation, end to end: in a registry that has no breaker yet for the
    pair (threshold between 1 and the largest [int]), threshold-many probes
    in a row that nothing answers are each run and recorded as failures of
    the probe; the next probe of the pair, made no later than [resetTimeout]
    after the last of them, is not run: the network is left as it was, the
    registry is unchanged, and the result is a failure whose error is the
    text of the open circuit, with no latency. *)
Theorem PingIP_isolates_after_threshold
    cbm settings siteID ip lineType (rounds : list (Z * Clock)) now clk w :
  unanswered ping ->
  breakers cbm !! breakerKey siteID lineType = None ->
  1 <= Manager.maxFailures cbm <= maxInt64 ->
  Z.of_nat (length rounds) = Manager.maxFailures cbm ->
  (forall round, last rounds = Some round ->
     time_Since (t_check clk) (t_fail (snd round)) <= Manager.resetTimeout cbm) ->
  let '(results, cbm1, w1) := PingIPs ping cbm settings siteID ip lineType rounds w in
  length results = length rounds
  /\ Forall (fun result => PingResult.Success result = false
                           /\ PingResult.Error result <> blockedText siteID lineType)
            results
  /\ PingIP ping cbm1 settings siteID ip lineType now clk w1
     = (failed (newResult siteID ip lineType now) (blockedText siteID lineType),
        cbm1, w1)
  /\ blockedText siteID lineType
     = ("circuit breaker open: circuit breaker '" ++ siteID ++ "/" ++ lineType
        ++ "' is open")%string.
Proof.
  intros Hdown Hnew Hmax Hlen Hsoon.
  pose proof (PingIPs_unanswered settings siteID ip lineType Hdown rounds cbm w) as Hrun.
  unfold breakerOf, GetBreaker in Hrun. rewrite Hnew in Hrun. simpl in Hrun.
  specialize (Hrun eq_refl ltac:(lia) ltac:(lia) eq_refl ltac:(lia)).
  destruct (PingIPs ping cbm settings siteID ip lineType rounds w)
    as [[results cbm1] w1]. simpl in Hrun.
  destruct Hrun as (Hall & Hlen' & cb1 & Hcb1 & Hopen & Hname & Hreset & _ & Hlast).
  split; [exact Hlen'|]. split; [exact Hall|].
  split; [|unfold blockedText, CircuitBreakerError_Error, breakerName; simpl;
           rewrite <- !string_app_assoc; reflexivity].
  apply (PingIP_blocked _ _ _ _ _ _ _ _ cb1 Hcb1 Hopen Hname).
  destruct (last rounds) as [round|] eqn:Hround.
  - rewrite (Hlast round eq_refl), Hreset. apply Hsoon. reflexivity.
  - destruct rounds; [simpl in Hlen; lia|].
    apply last_None in Hround. discriminate.
Qed.

(** X10. What the manager reports after the circuit opened: once threshold-many
    unanswered probes of a pair have run in a registry that had no breaker
    for it, [GetStats] shows under the pair's key the name [siteID/lineType],
    the state Open and a failure count equal to the threshold; every other
    key reports what it reported before. *)
Theorem GetStats_reports_the_open_circuit
    cbm settings siteID ip lineType (rounds : list (Z * Clock)) w :
  unanswered ping ->
  breakers cbm !! breakerKey siteID lineType = None ->
  1 <= Manager.maxFailures cbm <= maxInt64 ->
  Z.of_nat (length rounds) = Manager.maxFailures cbm ->
  let cbm1 := snd (fst (PingIPs ping cbm settings siteID ip lineType rounds w)) in
  GetStats cbm1 !! breakerKey siteID lineType
  = Some {| Name := breakerName siteID lineType; State := StateOpen;
            Failures := Manager.maxFailures cbm |}
  /\ (forall key, key <> breakerKey siteID lineType ->
        GetStats cbm1 !! key = GetStats cbm !! key)
  /\ stateToString StateOpen = "open".
Proof.
  intros Hdown Hnew Hmax Hlen cbm1. subst cbm1.
  pose proof (PingIPs_unanswered settings siteID ip lineType Hdown rounds cbm w) as Hrun.
  unfold breakerOf, GetBreaker in Hrun. rewrite Hnew in Hrun. simpl in Hrun.
  specialize (Hrun eq_refl ltac:(lia) ltac:(lia) eq_refl ltac:(lia)).
  destruct Hrun as (_ & _ & cb1 & Hcb1 & Hopen & Hname & _ & Hfailures & _).
  unfold GetStats. split; [|split; [|reflexivity]].
  - rewrite lookup_fmap, Hcb1. simpl. rewrite Hname, Hopen, Hfailures. reflexivity.
  - intros key Hne. rewrite !lookup_fmap.
    rewrite (PingIPs_other_keys settings siteID ip lineType key Hne). reflexivity.
Qed.

End Network.

Lemma silent_unanswered : unanswered silent.
Proof. intros p runs. simpl. lia. Qed.

Lemma PingIP_isolates_after_threshold_witness :
  let '(results, cbm1, runs) :=
    PingIPs silent globalCircuitBreakerManager sampleSettings
      "s1" "192.0.2.1" "primary" sampleRounds 0%nat in
  length results = 3%nat
  /\ Forall (fun result => PingResult.Success result = false
                           /\ PingResult.Error result <> blockedText "s1" "primary")
            results
  /\ PingIP silent cbm1 sampleSettings "s1" "192.0.2.1" "primary"
       (90 * 10 ^ 9) (sampleClock (90 * 10 ^ 9)) runs
     = (failed (newResult "s1" "192.0.2.1" "primary" (90 * 10 ^ 9))
          (blockedText "s1" "primary"),
        cbm1, runs)
  /\ blockedText "s1" "primary"
     = "circuit breaker open: circuit breaker 's1/primary' is open".
Proof.
  apply (PingIP_isolates_after_threshold silent globalCircuitBreakerManager
           sampleSettings "s1" "192.0.2.1" "primary" sampleRounds
           (90 * 10 ^ 9) (sampleClock (90 * 10 ^ 9)) 0%nat).
  - exact silent_unanswered.
  - reflexivity.
  - vm_compute. split; discriminate.
  - reflexivity.
  - intros round [= <-]. vm_compute. discriminate.
Defined.

Lemma PingIP_result_is_processed_witness :
  is_Some (Ping.HandlePingResult (Ping.sampleApp (Memory.NewMemoryStorage 2))
             (fst (fst (PingIP answering globalCircuitBreakerManager sampleSettings
                          "s1" "192.0.2.1" "primary" 5 (sampleClock 5) 0%nat)))).
Proof.
  destruct (PingIP_result_is_processed answering globalCircuitBreakerManager
              sampleSettings "s1" "192.0.2.1" "primary" 5 (sampleClock 5) 0%nat
              (Ping.sampleApp (Memory.NewMemoryStorage 2)))
    as (_ & _ & _ & _ & _ & _ & Hprocessed).
  apply Hprocessed. simpl. lia.
Defined.

Lemma PingIP_touches_only_its_breaker_witness :
  let cbm1 :=
    snd (GetBreaker globalCircuitBreakerManager "s1" "secondary") in
  breakers (snd (fst (PingIP silent cbm1 sampleSettings "s1" "192.0.2.1" "primary"
                        0 (sampleClock 0) 0%nat))) !! breakerKey "s1" "secondary"
  = breakers cbm1 !! breakerKey "s1" "secondary".
Proof.
  intros cbm1.
  destruct (PingIP_touches_only_its_breaker silent cbm1 sampleSettings
              "s1" "192.0.2.1" "primary" 0 (sampleClock 0) 0%nat "s1" "secondary")
    as (_ & Hpair & _).
  apply Hpair; [left; reflexivity | right; reflexivity | discriminate].
Defined.

Lemma GetStats_reports_the_open_circuit_witness :
  GetStats (snd (fst (PingIPs silent globalCircuitBreakerManager sampleSettings
                        "s1" "192.0.2.1" "primary" sampleRounds 0%nat)))
    !! "s1-primary"
  = Some {| Name := "s1/primary"; State := StateOpen; Failures := 3 |}.
Proof.
  apply (GetStats_reports_the_open_circuit silent globalCircuitBreakerManager
           sampleSettings "s1" "192.0.2.1" "primary" sampleRounds 0%nat).
  - exact silent_unanswered.
  - reflexivity.
  - vm_compute. split; discriminate.
  - reflexivity.
Defined.

End ProberFacts.

(** ** Identifiers and views of the ring-buffer store *)

Module StoreFacts.
Import GoInt GoIntFacts Models Memory ListFacts MemoryFacts.

Lemma stamp_IDs batch : forall counter,
  0 <= counter ->
  counter + Z.of_nat (length batch) <= maxInt64 ->
  map PingLog.ID (stamp counter batch)
  = map (fun i => counter + Z.of_nat i) (seq 1 (length batch)).
Proof.
  induction batch as [|log batch IH]; intros counter Hpos Hmax; [reflexivity|].
  simpl in Hmax |- *.
  rewrite wrap64_id by (unfold in_int64, minInt64, maxInt64 in *; lia).
  f_equal; try lia.
  rewrite IH by lia. rewrite <- (seq_shift (length batch) 1), map_map.
  apply map_ext. intros i. lia.
Qed.

Lemma AddPingLogs_counter batch : forall m,
  bounded m ->
  0 <= logCounter m ->
  logCounter m + Z.of_nat (length batch) <= maxInt64 ->
  forall m', AddPingLogs m batch = Some m' ->
  logCounter m' = logCounter m + Z.of_nat (length batch).
Proof.
  induction batch as [|log batch IH]; intros m Hb Hpos Hmax m'; simpl.
  - intros [= <-]. lia.
  - rewrite (AddPingLog_bounded m log Hb).
    pose proof (AddPingLog_preserves_bounded m log _ _ Hb (AddPingLog_bounded m log Hb))
      as Hb1.
    intros Hrun. apply IH in Hrun; try assumption; simpl in *;
      rewrite ?wrap64_id in * by (unfold in_int64, minInt64, maxInt64 in *; lia); lia.
Qed.

Lemma seq_sorted start len :
  StronglySorted Z.lt (map Z.of_nat (seq start len)).
Proof.
  revert start. induction len as [|len IH]; intros start; simpl; constructor.
  - apply IH.
  - apply Forall_forall. intros id Hin.
    apply list_elem_of_In, in_map_iff in Hin. destruct Hin as (i & <- & Hi).
    apply in_seq in Hi. lia.
Qed.

(** X11. Identifiers number the appends: on a store as [NewMemoryStorage] makes
    it, after a batch of appends (fewer than 2^63) the counter is the number
    of appends, the entry of the [i]-th append carries the identifier [i],
    and so the identifiers of the stored entries are the last [maxLogs]
    numbers up to the count: strictly increasing, without repetition. *)
Theorem identifiers_number_the_appends (C : Z) (batch : list PingLog.t) :
  Z.of_nat (length batch) <= maxInt64 ->
  exists m',
    AddPingLogs (NewMemoryStorage C) batch = Some m'
    /\ logCounter m' = Z.of_nat (length batch)
    /\ map PingLog.ID (logs m')
       = keepLast (Z.to_nat (maxLogs m')) (map Z.of_nat (seq 1 (length batch)))
    /\ StronglySorted Z.lt (map PingLog.ID (logs m'))
    /\ NoDup (map PingLog.ID (logs m'))
    /\ Forall (fun id => 1 <= id <= logCounter m') (map PingLog.ID (logs m')).
Proof.
  intros Hmax.
  destruct (AddPingLogs_bounded batch _ (NewMemoryStorage_bounded C))
    as (m' & Hrun & _ & Hcap & Hlogs).
  pose proof (AddPingLogs_counter batch _ (NewMemoryStorage_bounded C)
                ltac:(simpl; lia) ltac:(simpl; lia) m' Hrun) as Hcounter.
  simpl in Hcounter, Hlogs.
  assert (Hids : map PingLog.ID (logs m')
                 = keepLast (Z.to_nat (maxLogs m'))
                     (map Z.of_nat (seq 1 (length batch)))).
  { rewrite Hlogs, Hcap. unfold keepLast.
    rewrite <- (stamp_length batch 0) at 2.
    change (map PingLog.ID (drop ?n ?l)) with (PingLog.ID <$> drop n l).
    rewrite fmap_drop, length_map, length_seq, !stamp_length.
    change (PingLog.ID <$> stamp 0 batch) with (map PingLog.ID (stamp 0 batch)).
    rewrite stamp_IDs by lia. reflexivity. }
  assert (Hsorted : StronglySorted Z.lt (map PingLog.ID (logs m'))).
  { rewrite Hids. eapply StronglySorted_sublist; [apply sublist_drop | apply seq_sorted]. }
  exists m'. repeat split; try assumption.
  - clear -Hsorted. induction Hsorted as [|id ids Hsorted IH Hall]; constructor.
    + intros Hin. rewrite Forall_forall in Hall. specialize (Hall id Hin). lia.
    + exact IH.
  - rewrite Hids, Hcounter. apply Forall_forall. intros id Hin.
    unfold keepLast in Hin.
    pose proof (elem_of_sublist _ _ _ Hin (sublist_drop _ _)) as Hfull.
    clear Hin. rename Hfull into Hin.
    apply list_elem_of_In, in_map_iff in Hin. destruct Hin as (i & <- & Hi).
    apply in_seq in Hi. lia.
Qed.

Lemma identifiers_number_the_appends_witness :
  exists m',
    AddPingLogs (NewMemoryStorage 2) (map sampleLog (seq 1 5)) = Some m'
    /\ logCounter m' = 5
    /\ map PingLog.ID (logs m') = [4; 5].
Proof.
  destruct (identifiers_number_the_appends 2 (map sampleLog (seq 1 5)))
    as (m' & Hrun & Hcounter & Hids & _); [vm_compute; discriminate|].
  exists m'. split; [exact Hrun|]. split; [exact Hcounter|].
  rewrite Hids.
  assert (Hcap : maxLogs m' = 2).
  { vm_compute in Hrun. injection Hrun as <-. reflexivity. }
  rewrite Hcap. reflexivity.
Defined.

Lemma matching_partition siteID todo :
  matching siteID None todo
  ≡ₚ matching siteID (Some true) todo ++ matching siteID (Some false) todo.
Proof.
  induction todo as [|log todo IH]; [reflexivity|].
  unfold matching in *. simpl.
  destruct (skipped siteID None log) eqn:Hany,
           (skipped siteID (Some true) log) eqn:Hup,
           (skipped siteID (Some false) log) eqn:Hdown;
    unfold skipped in Hany, Hup, Hdown;
    destruct (negb (String.eqb siteID "")
              && negb (String.eqb (PingLog.SiteID log) siteID)),
             (PingLog.Success log);
    simpl in Hany, Hup, Hdown; try discriminate; simpl.
  - exact IH.
  - exact IH.
  - rewrite IH. apply Permutation_middle.
  - constructor. exact IH.
Qed.

(** X12. Queries are views of the store: the unfiltered, unlimited query returns
    the entries of [GetAllLogs] in the opposite order (newest first against
    oldest first); for every site filter the unlimited query without a
    success filter returns exactly the successes and the failures of the two
    filtered queries, nothing twice and nothing else; and no query reports an
    error. *)
Theorem queries_are_views_of_the_store (m : MemoryStorage) (siteID : string) :
  GetFilteredLogs m "" None 0 = (reverse (fst (GetAllLogs m)), None)
  /\ snd (GetAllLogs m) = None
  /\ fst (GetFilteredLogs m siteID None 0)
     ≡ₚ fst (GetFilteredLogs m siteID (Some true) 0)
        ++ fst (GetFilteredLogs m siteID (Some false) 0)
  /\ length (fst (GetFilteredLogs m siteID None 0))
     = (length (fst (GetFilteredLogs m siteID (Some true) 0))
        + length (fst (GetFilteredLogs m siteID (Some false) 0)))%nat
  /\ (forall log, In log (fst (GetFilteredLogs m siteID None 0)) ->
                  In log (fst (GetAllLogs m))).
Proof.
  rewrite !GetFilteredLogs_spec. unfold limited. simpl.
  assert (Hall : matching "" None (reverse (logs m)) = reverse (logs m)).
  { unfold matching. induction (reverse (logs m)) as [|log l IH]; [reflexivity|].
    change (log :: List.filter (fun log => negb (skipped "" None log)) l = log :: l).
    rewrite IH. reflexivity. }
  repeat split.
  - rewrite Hall. reflexivity.
  - apply matching_partition.
  - rewrite <- length_app. apply Permutation_length, matching_partition.
  - intros log Hin. unfold matching in Hin. apply List.filter_In in Hin.
    destruct Hin as [Hin _]. apply list_elem_of_In in Hin.
    rewrite elem_of_reverse in Hin. apply list_elem_of_In. exact Hin.
Qed.

End StoreFacts.

(** ** The pipeline over the ring-buffer store *)

Module PipelineFacts.
Import GoInt GoIntFacts Models Memory Config Ping Pipeline MemoryFacts PingFacts.

Lemma UpdateSiteStatus_Storage {S} (appState : AppState S) result :
  Storage_ (UpdateSiteStatus appState result) = Storage_ appState.
Proof. unfold UpdateSiteStatus. destruct (_ !! _); reflexivity. Qed.

Lemma UpdateSiteStatus_TotalChecks {S} (appState : AppState S) result :
  TotalChecks (UpdateSiteStatus appState result) = TotalChecks appState.
Proof. unfold UpdateSiteStatus. destruct (_ !! _); reflexivity. Qed.

(** The status map [UpdateSiteStatus] leaves depends on the site list and
    the status map alone. *)
Lemma UpdateSiteStatus_SiteStatus {S1 S2} (a : AppState S1) (b : AppState S2) result :
  Sites a = Sites b -> SiteStatus a = SiteStatus b ->
  SiteStatus (UpdateSiteStatus a result) = SiteStatus (UpdateSiteStatus b result).
Proof.
  intros Hsites Hstatus. unfold UpdateSiteStatus. rewrite Hsites, Hstatus.
  destruct (SiteStatus b !! PingResult.SiteID result); [reflexivity | exact Hstatus].
Qed.

(** What [HandlePingResult] leaves on a ring-buffer store with room for at
    least one entry. *)
Lemma HandlePingResult_memory (appState : AppState MemoryStorage) result :
  bounded (Storage_ appState) ->
  is_Some (resultMetrics result) ->
  exists appState' storage,
    HandlePingResult appState result = Some appState'
    /\ Memory.AddPingLog (Storage_ appState)
         (logEntry result (siteNameOf (Sites appState) (PingResult.SiteID result)))
       = Some (storage, None)
    /\ Storage_ appState' = storage
    /\ bounded storage
    /\ Sites appState' = Sites appState
    /\ TotalChecks appState' = wrap64 (TotalChecks appState + 1)
    /\ SiteStatus appState' = SiteStatus (UpdateSiteStatus appState result).
Proof.
  intros Hb [ops Hops].
  pose proof (AddPingLog_bounded (Storage_ appState)
                (logEntry result (siteNameOf (Sites appState) (PingResult.SiteID result)))
                Hb) as Hadd.
  pose proof (AddPingLog_preserves_bounded _ _ _ _ Hb Hadd) as Hb'.
  rewrite HandlePingResult_unfold, Hops.
  change (@AddPingLog MemoryStorage _) with Memory.AddPingLog. rewrite Hadd.
  eexists _, _. split; [reflexivity|]. split; [reflexivity|].
  rewrite UpdateSiteStatus_Storage, UpdateSiteStatus_Sites, UpdateSiteStatus_TotalChecks.
  split; [reflexivity|]. split; [exact Hb'|].
  split; [reflexivity|]. split; [reflexivity|].
  apply UpdateSiteStatus_SiteStatus; reflexivity.
Qed.

(** X13. From probe result to history: on a ring-buffer store of capacity at
    least 1, a processed result is the newest entry of its site: the query
    for the site and the result's success flag, limited to one entry, returns
    exactly the entry built from the result (line as target, address, time
    stamp, success, latency, error and packet counts as probed, the name of
    the first configured site with that identifier, or none) under its new
    identifier; the check counter went up by one. *)
Theorem HandlePingResult_records_the_result
    (appState : AppState MemoryStorage) (result : PingResult.t) :
  1 <= maxLogs (Storage_ appState) ->
  is_Some (resultMetrics result) ->
  exists appState' entry,
    HandlePingResult appState result = Some appState'
    /\ Pipeline.GetFilteredLogs appState' (PingResult.SiteID result)
         (Some (PingResult.Success result)) 1
       = ([entry], None)
    /\ entry = PingLog.with_ID
                 (logEntry result
                    (siteNameOf (Sites appState) (PingResult.SiteID result)))
                 (wrap64 (logCounter (Storage_ appState) + 1))
    /\ PingLog.SiteID entry = PingResult.SiteID result
    /\ PingLog.Target entry = PingResult.LineType result
    /\ PingLog.IP entry = PingResult.IP result
    /\ PingLog.Timestamp entry = PingResult.Timestamp result
    /\ PingLog.Success entry = PingResult.Success result
    /\ PingLog.Latency entry = PingResult.Latency result
    /\ PingLog.Error entry = PingResult.Error result
    /\ PingLog.SiteName entry
       = match findSite (Sites appState) (PingResult.SiteID result) with
         | Some site => Site.Name site
         | None => ""
         end
    /\ TotalChecks appState' = wrap64 (TotalChecks appState + 1).
Proof.
  intros Hcap [ops Hops].
  set (log := logEntry result (siteNameOf (Sites appState) (PingResult.SiteID result))).
  assert (Hadd : exists kept,
             Memory.AddPingLog (Storage_ appState) log
             = Some ({| logs := kept ++ [PingLog.with_ID log
                                           (wrap64 (logCounter (Storage_ appState) + 1))];
                        maxLogs := maxLogs (Storage_ appState);
                        logCounter := wrap64 (logCounter (Storage_ appState) + 1) |},
                     None)).
  { unfold Memory.AddPingLog.
    destruct (Z.leb_spec (maxLogs (Storage_ appState))
                (Z.of_nat (length (logs (Storage_ appState))))) as [Hfull|Hroom].
    - destruct (logs (Storage_ appState)) as [|oldest kept]; [simpl in Hfull; lia|].
      exists kept. reflexivity.
    - exists (logs (Storage_ appState)). reflexivity. }
  destruct Hadd as (kept & Hadd).
  eexists _, (PingLog.with_ID log (wrap64 (logCounter (Storage_ appState) + 1))).
  split.
  { rewrite HandlePingResult_unfold, Hops.
    change (@AddPingLog MemoryStorage _) with Memory.AddPingLog.
    fold log. rewrite Hadd. reflexivity. }
  split.
  { unfold Pipeline.GetFilteredLogs. rewrite UpdateSiteStatus_Storage.
    change (@Config.GetFilteredLogs MemoryStorage _) with Memory.GetFilteredLogs.
    rewrite GetFilteredLogs_spec. simpl logs. rewrite reverse_app. simpl.
    unfold matching. simpl.
    assert (Hkeep : skipped (PingResult.SiteID result)
                      (Some (PingResult.Success result))
                      (PingLog.with_ID log
                         (wrap64 (logCounter (Storage_ appState) + 1))) = false).
    { apply skipped_false. split; [right; reflexivity|].
      intros b [= <-]. reflexivity. }
    rewrite Hkeep. reflexivity. }
  repeat split; try reflexivity.
  rewrite UpdateSiteStatus_TotalChecks. reflexivity.
Qed.

Lemma HandlePingResult_records_the_result_witness :
  exists appState',
    HandlePingResult (sampleApp (NewMemoryStorage 2))
      (sampleResult "s1" "secondary" true 7) = Some appState'
    /\ map PingLog.Target
         (fst (Pipeline.GetFilteredLogs appState' "s1" (Some true) 1))
       = ["secondary"].
Proof.
  destruct (HandlePingResult_records_the_result (sampleApp (NewMemoryStorage 2))
              (sampleResult "s1" "secondary" true 7))
    as (appState' & entry & Hrun & Hquery & _ & _ & Htarget & _);
    [simpl; lia | eexists; reflexivity |].
  exists appState'. split; [exact Hrun|].
  simpl in Hquery. rewrite Hquery. simpl. rewrite Htarget. reflexivity.
Defined.

(** X14. The pipeline is the batch: on a ring-buffer store with capacity at
    least 1, processing a queue of results (none a success without latency)
    never stops early; it leaves the store that appending the queue's entries
    in order leaves, the status map that applying [UpdateSiteStatus] to the
    results in order leaves, the site list as it was, and a check counter
    raised by the number of results. *)
Theorem ProcessResults_is_the_batch
    (appState : AppState MemoryStorage) (queue : list PingResult.t) :
  bounded (Storage_ appState) ->
  Forall (fun result => is_Some (resultMetrics result)) queue ->
  minInt64 <= TotalChecks appState ->
  TotalChecks appState + Z.of_nat (length queue) <= maxInt64 ->
  exists appState',
    ProcessResults appState queue = Some appState'
    /\ AddPingLogs (Storage_ appState) (entriesOf (Sites appState) queue)
       = Some (Storage_ appState')
    /\ SiteStatus appState'
       = SiteStatus (fold_left UpdateSiteStatus queue appState)
    /\ Sites appState' = Sites appState
    /\ TotalChecks appState' = TotalChecks appState + Z.of_nat (length queue).
Proof.
  intros Hb Hall Hmin Hmax.
  enough (Hgen : forall (shadow : AppState MemoryStorage),
             Sites shadow = Sites appState ->
             SiteStatus shadow = SiteStatus appState ->
             exists appState',
               ProcessResults appState queue = Some appState'
               /\ AddPingLogs (Storage_ appState) (entriesOf (Sites appState) queue)
                  = Some (Storage_ appState')
               /\ SiteStatus appState'
                  = SiteStatus (fold_left UpdateSiteStatus queue shadow)
               /\ Sites appState' = Sites appState
               /\ TotalChecks appState'
                  = TotalChecks appState + Z.of_nat (length queue))
    by (apply (Hgen appState); reflexivity).
  revert appState Hb Hmin Hmax.
  induction Hall as [|result queue Hresult Hall IH];
    intros appState Hb Hmin Hmax shadow Hsites Hstatus.
  - exists appState. simpl. repeat split; [symmetry; exact Hstatus | lia].
  - destruct (HandlePingResult_memory appState result Hb Hresult)
      as (appState1 & storage & Hstep & Hadd & Hstore & Hb1 & Hsites1 & Htotal1 & Hstatus1).
    simpl length in Hmax.
    rewrite wrap64_id in Htotal1 by (unfold in_int64, minInt64, maxInt64 in *; lia).
    destruct (IH appState1 ltac:(rewrite Hstore; exact Hb1) ltac:(lia) ltac:(lia)
                (UpdateSiteStatus shadow result))
      as (appState' & Hrun & Hlogs & Hfold & Hsites' & Htotal').
    + rewrite UpdateSiteStatus_Sites. congruence.
    + rewrite Hstatus1. apply UpdateSiteStatus_SiteStatus; assumption.
    + exists appState'. simpl. rewrite Hstep, Hadd.
      rewrite Hsites1, Hstore in Hlogs.
      repeat split; [exact Hrun | exact Hlogs | exact Hfold | congruence | lia].
Qed.

Lemma ProcessResults_is_the_batch_witness :
  exists appState',
    ProcessResults (sampleApp (NewMemoryStorage 2)) sampleQueue = Some appState'
    /\ TotalChecks appState' = 4
    /\ map PingLog.Timestamp (logs (Storage_ appState')) = [3; 4].
Proof.
  destruct (ProcessResults_is_the_batch (sampleApp (NewMemoryStorage 2)) sampleQueue)
    as (appState' & Hrun & Hlogs & _ & _ & Htotal).
  - apply NewMemoryStorage_bounded.
  - repeat constructor; eexists; reflexivity.
  - vm_compute. discriminate.
  - vm_compute. discriminate.
  - exists appState'. split; [exact Hrun|]. split; [exact Htotal|].
    assert (Hts : (fun m => map PingLog.Timestamp (logs m))
                    <$> AddPingLogs (Storage_ (sampleApp (NewMemoryStorage 2)))
                          (entriesOf (Sites (sampleApp (NewMemoryStorage 2)))
                             sampleQueue)
                  = Some [3; 4]) by (vm_compute; reflexivity).
    rewrite Hlogs in Hts. injection Hts as Hts. exact Hts.
Defined.

Section Latest.
Context {S : Type}.

Lemma filter_snoc {A} (f : A -> bool) (l : list A) (x : A) :
  List.filter f (l ++ [x]) = List.filter f l ++ (if f x then [x] else []).
Proof. rewrite List.filter_app. reflexivity. Qed.

Lemma last_filter_snoc {A} (f : A -> bool) (l : list A) (x : A) :
  last (List.filter f (l ++ [x])) = if f x then Some x else last (List.filter f l).
Proof.
  rewrite filter_snoc. destruct (f x); [apply last_snoc | rewrite app_nil_r; reflexivity].
Qed.

(** X15. The latest result wins: after any queue of results has been applied to
    an entry that exists, the entry shows for each line the outcome of the
    last result of the queue for that site and line (online flag; latency
    when it succeeded, none otherwise; error text when it failed, empty
    otherwise), or what it showed before when the queue has none; and its
    last-check time is the time stamp of the last result for the site,
    whatever its line. *)
Theorem latest_result_wins
    (appState : AppState S) (queue : list PingResult.t) (siteID : string)
    (status : SiteStatus.t) :
  SiteStatus appState !! siteID = Some status ->
  exists status',
    SiteStatus (fold_left UpdateSiteStatus queue appState) !! siteID = Some status'
    /\ primaryView status'
       = match lastOn siteID "primary" queue with
         | Some result => viewOf result
         | None => primaryView status
         end
    /\ secondaryView status'
       = match lastOn siteID "secondary" queue with
         | Some result => viewOf result
         | None => secondaryView status
         end
    /\ SiteStatus.LastCheck status'
       = match lastOf siteID queue with
         | Some result => PingResult.Timestamp result
         | None => SiteStatus.LastCheck status
         end.
Proof.
  intros Hstatus.
  induction queue as [|result queue IH] using rev_ind.
  - exists status. simpl. auto.
  - destruct IH as (status1 & Hlook & Hprimary & Hsecondary & Hlast).
    rewrite fold_left_app. simpl.
    unfold lastOn, lastOf. rewrite !last_filter_snoc.
    fold (lastOn siteID "primary" queue) (lastOn siteID "secondary" queue)
         (lastOf siteID queue).
    unfold onLine, forSite.
    destruct (String.eqb_spec (PingResult.SiteID result) siteID) as [Hid|Hne].
    + subst siteID. rewrite (UpdateSiteStatus_entry _ _ _ Hlook).
      eexists. split; [reflexivity|].
      unfold primaryView, secondaryView, viewOf, updateCombined, updateLine in *.
      destruct (String.eqb_spec (PingResult.LineType result) "primary") as [Hp|Hp].
      * rewrite Hp. simpl. repeat split. exact Hsecondary.
      * destruct (String.eqb_spec (PingResult.LineType result) "secondary") as [Hs|Hs];
          simpl; repeat split; assumption.
    + rewrite UpdateSiteStatus_other by congruence.
      exists status1. simpl. auto.
Qed.

(** X16. Status updates compose: applying a result twice leaves the status map
    that applying it once leaves, and results of different sites can be
    applied in either order: the status map is the same. *)
Theorem UpdateSiteStatus_is_idempotent_and_commutes_across_sites
    (appState : AppState S) (result first second : PingResult.t) :
  SiteStatus (UpdateSiteStatus (UpdateSiteStatus appState result) result)
  = SiteStatus (UpdateSiteStatus appState result)
  /\ (PingResult.SiteID first <> PingResult.SiteID second ->
      SiteStatus (UpdateSiteStatus (UpdateSiteStatus appState first) second)
      = SiteStatus (UpdateSiteStatus (UpdateSiteStatus appState second) first)).
Proof.
  split.
  - destruct (SiteStatus appState !! PingResult.SiteID result) as [status|] eqn:Hold.
    + pose proof (UpdateSiteStatus_entry _ _ _ Hold) as Hnew.
      unfold UpdateSiteStatus at 1. rewrite Hnew, UpdateSiteStatus_Sites.
      cbn [SiteStatus].
      unfold UpdateSiteStatus. rewrite Hold. cbn [SiteStatus].
      rewrite insert_insert_eq. f_equal.
      unfold updateCombined, updateLine.
      destruct (String.eqb (PingResult.LineType result) "primary");
        [|destruct (String.eqb (PingResult.LineType result) "secondary")];
        destruct (findSite (Sites appState) (PingResult.SiteID result)) as [site|];
        reflexivity.
    + rewrite !(UpdateSiteStatus_missing _ _ Hold). reflexivity.
  - intros Hne.
    assert (Hset : forall (a : AppState S) r status,
              SiteStatus a !! PingResult.SiteID r = Some status ->
              SiteStatus (UpdateSiteStatus a r)
              = <[PingResult.SiteID r :=
                    updateCombined (findSite (Sites a) (PingResult.SiteID r))
                      (updateLine status r) (PingResult.Timestamp r)]> (SiteStatus a)).
    { intros a r status Hlook. unfold UpdateSiteStatus. rewrite Hlook. reflexivity. }
    destruct (SiteStatus appState !! PingResult.SiteID first) as [status1|] eqn:H1,
             (SiteStatus appState !! PingResult.SiteID second) as [status2|] eqn:H2.
    + rewrite (Hset (UpdateSiteStatus appState first) second status2)
        by (rewrite UpdateSiteStatus_other by congruence; exact H2).
      rewrite (Hset (UpdateSiteStatus appState second) first status1)
        by (rewrite UpdateSiteStatus_other by congruence; exact H1).
      rewrite !UpdateSiteStatus_Sites, (Hset _ _ _ H1), (Hset _ _ _ H2).
      apply insert_insert_ne. congruence.
    + rewrite (UpdateSiteStatus_missing appState second H2).
      apply f_equal, UpdateSiteStatus_missing.
      rewrite UpdateSiteStatus_other by congruence. exact H2.
    + rewrite (UpdateSiteStatus_missing appState first H1).
      symmetry. apply f_equal, UpdateSiteStatus_missing.
      rewrite UpdateSiteStatus_other by congruence. exact H1.
    + rewrite (UpdateSiteStatus_missing appState first H1),
        (UpdateSiteStatus_missing appState second H2),
        (UpdateSiteStatus_missing appState first H1). reflexivity.
Qed.

End Latest.

Lemma UpdateSiteStatus_is_idempotent_and_commutes_across_sites_witness :
  let appState := Ping.sampleApp Unavailable in
  let first := sampleResult "s1" "primary" true 1 in
  let second := sampleResult "s2" "primary" false 2 in
  SiteStatus (UpdateSiteStatus (UpdateSiteStatus appState first) second)
  = SiteStatus (UpdateSiteStatus (UpdateSiteStatus appState second) first).
Proof.
  intros appState first second.
  destruct (UpdateSiteStatus_is_idempotent_and_commutes_across_sites
              appState first first second) as [_ Hcommute].
  apply Hcommute. discriminate.
Defined.

Lemma latest_result_wins_witness :
  exists status',
    SiteStatus (fold_left UpdateSiteStatus sampleQueue (sampleApp Unavailable)) !! "s1"
    = Some status'
    /\ primaryView status' = (false, None, "no packets received"%string)
    /\ SiteStatus.LastCheck status' = 4.
Proof.
  destruct (SiteStatus (sampleApp Unavailable) !! "s1") as [status|] eqn:Hstatus;
    [|vm_compute in Hstatus; discriminate].
  destruct (latest_result_wins (sampleApp Unavailable) sampleQueue "s1" status Hstatus)
    as (status' & Hlook & Hprimary & _ & Hlast).
  exists status'. split; [exact Hlook|]. split; [exact Hprimary | exact Hlast].
Defined.

End PipelineFacts.

(** ** What the aggregates count *)

Module AggregateFacts.
Import GoInt GoIntFacts Models Config Stats Aggregate.

Lemma aggregate_snoc logs log :
  aggregate (logs ++ [log]) = AddLog (aggregate logs) log.
Proof. unfold aggregate. rewrite fold_left_app. reflexivity. Qed.

Lemma countOf_snoc f logs log :
  countOf f (logs ++ [log]) = countOf f logs + (if f log then 1 else 0).
Proof.
  unfold countOf. rewrite List.filter_app, length_app. simpl.
  destruct (f log); simpl; lia.
Qed.

Lemma countOf_range f logs : 0 <= countOf f logs <= Z.of_nat (length logs).
Proof.
  unfold countOf. split; [lia|].
  apply inj_le. induction logs as [|log logs IH]; simpl; [lia|].
  destruct (f log); simpl; lia.
Qed.

Lemma primary_not_secondary log :
  onPrimary log = true -> onSecondary log = false.
Proof.
  unfold onPrimary, onSecondary. intros Hp. apply String.eqb_eq in Hp.
  rewrite Hp. reflexivity.
Qed.

Lemma aggregate_tallied logs :
  Z.of_nat (length logs) <= maxInt64 -> tallied (aggregate logs) logs.
Proof.
  induction logs as [|log logs IH] using rev_ind; intros Hmax.
  - repeat split.
  - rewrite length_app in Hmax. simpl in Hmax.
    destruct (IH ltac:(lia)) as (Htotal & Hok & Hp & Hpok & Hs & Hsok & Hlat).
    rewrite aggregate_snoc. unfold tallied.
    rewrite !countOf_snoc, length_app, omap_app. simpl length.
    pose proof (countOf_range PingLog.Success logs).
    pose proof (countOf_range onPrimary logs).
    pose proof (countOf_range (fun log => onPrimary log && PingLog.Success log) logs).
    pose proof (countOf_range onSecondary logs).
    pose proof (countOf_range (fun log => onSecondary log && PingLog.Success log) logs).
    assert (Hin : forall n, 0 <= n <= Z.of_nat (length logs) -> incr n = n + 1)
      by (intros n Hn; apply wrap64_id;
          unfold in_int64, minInt64, maxInt64 in *; lia).
    unfold AddLog; cbn [TotalChecks SuccessChecks PrimaryTotal PrimarySuccess
                        SecondaryTotal SecondarySuccess Latencies].
    rewrite Htotal, Hok, Hp, Hpok, Hs, Hsok, Hlat.
    fold (onPrimary log). 
    destruct (onPrimary log) eqn:Hprimary.
    + rewrite (primary_not_secondary log Hprimary). simpl.
      unfold sample. destruct (PingLog.Success log); simpl;
        rewrite ?Hin by lia; repeat split; try lia;
        destruct (PingLog.Latency log); simpl; rewrite ?app_nil_r; reflexivity.
    + fold (onSecondary log). simpl.
      unfold sample.
      destruct (onSecondary log), (PingLog.Success log); simpl;
        rewrite ?Hin by lia; repeat split; try lia;
        destruct (PingLog.Latency log); simpl; rewrite ?app_nil_r; reflexivity.
Qed.

Lemma filter_and_length (f g : PingLog.t -> bool) logs :
  (length (List.filter (fun log => f log && g log) logs)
   <= length (List.filter f logs))%nat.
Proof.
  induction logs as [|log logs IH]; simpl; [lia|].
  destruct (f log), (g log); simpl; lia.
Qed.

Lemma filter_disjoint_length (f g : PingLog.t -> bool) logs :
  (forall log, f log = true -> g log = false) ->
  (length (List.filter f logs) + length (List.filter g logs) <= length logs)%nat.
Proof.
  intros Hdisjoint. induction logs as [|log logs IH]; simpl; [lia|].
  destruct (f log) eqn:Hf; [rewrite (Hdisjoint log Hf)|destruct (g log)]; simpl; lia.
Qed.

(** X17. What an aggregate counts: fed any entries (fewer than 2^63) from new,
    the total is the number of entries, the success and per-line counters
    are the numbers of entries that are successful, on the primary line, on
    the secondary line, and both; the latencies are those of the successes
    that carry one, in order. Hence successes never exceed checks, on the
    whole and per line, the two lines together never exceed the total
    (entries of other line names count in the total only), and there are at
    most as many latency samples as successes. *)
Theorem AddLog_tallies (logs : list PingLog.t) :
  Z.of_nat (length logs) <= maxInt64 ->
  let ts := aggregate logs in
  TotalChecks ts = Z.of_nat (length logs)
  /\ SuccessChecks ts = countOf PingLog.Success logs
  /\ PrimaryTotal ts = countOf onPrimary logs
  /\ PrimarySuccess ts = countOf (fun log => onPrimary log && PingLog.Success log) logs
  /\ SecondaryTotal ts = countOf onSecondary logs
  /\ SecondarySuccess ts
     = countOf (fun log => onSecondary log && PingLog.Success log) logs
  /\ Latencies ts = omap sample logs
  /\ 0 <= SuccessChecks ts <= TotalChecks ts
  /\ 0 <= PrimarySuccess ts <= PrimaryTotal ts
  /\ 0 <= SecondarySuccess ts <= SecondaryTotal ts
  /\ PrimaryTotal ts + SecondaryTotal ts <= TotalChecks ts
  /\ Z.of_nat (length (Latencies ts)) <= SuccessChecks ts.
Proof.
  intros Hmax ts.
  destruct (aggregate_tallied logs Hmax) as (Htotal & Hok & Hp & Hpok & Hs & Hsok & Hlat).
  fold ts in Htotal, Hok, Hp, Hpok, Hs, Hsok, Hlat.
  rewrite Htotal, Hok, Hp, Hpok, Hs, Hsok, Hlat.
  repeat split; try apply countOf_range.
  - unfold countOf. apply inj_le, filter_and_length.
  - unfold countOf. apply inj_le, filter_and_length.
  - unfold countOf. rewrite <- Nat2Z.inj_add. apply inj_le.
    apply filter_disjoint_length, primary_not_secondary.
  - unfold countOf. apply inj_le. clear.
    induction logs as [|log logs IH]; [reflexivity|].
    assert (Hcons : omap sample (log :: logs)
                    = match sample log with
                      | Some latency => latency :: omap sample logs
                      | None => omap sample logs
                      end) by reflexivity.
    rewrite Hcons. unfold sample at 1. simpl List.filter.
    destruct (PingLog.Success log); [|exact IH].
    destruct (PingLog.Latency log); simpl length; lia.
Qed.

Lemma AddLog_tallies_witness :
  TotalChecks (aggregate outageHistory) = 5
  /\ SuccessChecks (aggregate outageHistory) = 4
  /\ PrimaryTotal (aggregate outageHistory) = 3
  /\ length (Latencies (aggregate outageHistory)) = 3%nat.
Proof.
  destruct (AddLog_tallies outageHistory) as (Htotal & Hok & Hp & _ & _ & _ & Hlat & _);
    [vm_compute; discriminate|].
  rewrite Htotal, Hok, Hp, Hlat. repeat split.
Defined.

(** *** The windows of the single pass *)

Lemma analyzeLog_fold siteID day24h day7d month12 allLogs : forall stats,
  let pass := fold_left (analyzeLog siteID day24h day7d month12) allLogs stats in
  tf_all pass = fold_left AddLog (List.filter (counted siteID) allLogs) (tf_all stats)
  /\ tf_24h pass
     = fold_left AddLog
         (List.filter (fun log => counted siteID log && after day24h log) allLogs)
         (tf_24h stats)
  /\ tf_7d pass
     = fold_left AddLog
         (List.filter (fun log => counted siteID log && after day7d log) allLogs)
         (tf_7d stats)
  /\ tf_12m pass
     = fold_left AddLog
         (List.filter (fun log => counted siteID log && after month12 log) allLogs)
         (tf_12m stats).
Proof.
  induction allLogs as [|log allLogs IH]; intros stats; [repeat split|].
  simpl fold_left at 1. simpl List.filter.
  destruct (IH (analyzeLog siteID day24h day7d month12 stats log))
    as (Hall & H24 & H7 & H12).
  cbv zeta. rewrite Hall, H24, H7, H12. clear IH Hall H24 H7 H12.
  unfold analyzeLog, counted, after.
  destruct (String.eqb (PingLog.SiteID log) siteID); simpl; [|repeat split].
  destruct (validateLogData log); simpl; [repeat split|].
  destruct (day24h <? PingLog.Timestamp log), (day7d <? PingLog.Timestamp log),
    (month12 <? PingLog.Timestamp log); repeat split.
Qed.

Lemma aggregate_TotalChecks logs :
  Z.of_nat (length logs) <= maxInt64 ->
  TotalChecks (aggregate logs) = Z.of_nat (length logs).
Proof. intros Hmax. apply (aggregate_tallied logs Hmax). Qed.

Lemma filter_length_le (f : PingLog.t -> bool) logs :
  (length (List.filter f logs) <= length logs)%nat.
Proof. induction logs as [|log logs IH]; simpl; [lia|]. destruct (f log); simpl; lia. Qed.

Lemma filter_length_mono (f g : PingLog.t -> bool) logs :
  (forall log, f log = true -> g log = true) ->
  (length (List.filter f logs) <= length (List.filter g logs))%nat.
Proof.
  intros Himpl. induction logs as [|log logs IH]; simpl; [lia|].
  destruct (f log) eqn:Hf; [rewrite (Himpl log Hf); simpl; lia|].
  destruct (g log); simpl; lia.
Qed.

Section Engine.
Context `{GoLib} {S : Type} `{Storage S}.

(** X18. The windows of the statistics pass: each of the four aggregates of
    [CalculateSiteStatistics] is the aggregate of the entries of the site
    that pass validation and, for a window, are later than its start, in
    stored order; entries of other sites and invalid entries reach none of
    them. So (fewer than 2^63 entries) the total of the statistics counts
    exactly the valid entries of the site, and the 24-hour window never
    counts more checks than the 7-day window, nor that more than the whole
    history. *)
Theorem statistics_windows (app : AppState S) (siteID : string) (now : Z) :
  let allLogs := Stats.GetAllLogs app in
  let day24h := now - HoursPerDay * time_Hour in
  let day7d := now - DaysPerWeek * HoursPerDay * time_Hour in
  let month12 := time_AddDate now (-1) 0 0 in
  let pass := analyzeLogs siteID day24h day7d month12 allLogs in
  tf_all pass = aggregate (List.filter (counted siteID) allLogs)
  /\ tf_24h pass
     = aggregate (List.filter (fun log => counted siteID log && after day24h log)
                    allLogs)
  /\ tf_7d pass
     = aggregate (List.filter (fun log => counted siteID log && after day7d log)
                    allLogs)
  /\ tf_12m pass
     = aggregate (List.filter (fun log => counted siteID log && after month12 log)
                    allLogs)
  /\ (Z.of_nat (length allLogs) <= maxInt64 ->
      SS_TotalChecks (CalculateSiteStatistics app siteID now)
      = countOf (counted siteID) allLogs
      /\ TotalChecks (tf_24h pass) <= TotalChecks (tf_7d pass)
         <= TotalChecks (tf_all pass)).
Proof.
  intros allLogs day24h day7d month12 pass.
  destruct (analyzeLog_fold siteID day24h day7d month12 allLogs newTimeframes)
    as (Hall & H24 & H7 & H12).
  fold (analyzeLogs siteID day24h day7d month12 allLogs) in Hall, H24, H7, H12.
  fold pass in Hall, H24, H7, H12.
  change (fold_left AddLog ?logs (_ newTimeframes)) with (aggregate logs)
    in Hall, H24, H7, H12.
  split; [exact Hall|]. split; [exact H24|]. split; [exact H7|]. split; [exact H12|].
  intros Hmax.
  assert (Hfit : forall f : PingLog.t -> bool,
            Z.of_nat (length (List.filter f allLogs)) <= maxInt64).
  { intros f. pose proof (filter_length_le f allLogs). lia. }
  split.
  - unfold CalculateSiteStatistics. cbn [SS_TotalChecks].
    fold allLogs day24h day7d month12. fold pass.
    rewrite Hall.
    rewrite (aggregate_TotalChecks _ (Hfit _)). reflexivity.
  - rewrite Hall, H24, H7.
    rewrite !(aggregate_TotalChecks _ (Hfit _)).
    split; apply inj_le.
    + apply filter_length_mono. intros log Hin.
      apply andb_true_iff in Hin. destruct Hin as [Hc Ha].
      rewrite Hc. unfold after in *. simpl.
      apply Z.ltb_lt in Ha. apply Z.ltb_lt.
      unfold day24h, day7d, DaysPerWeek, HoursPerDay, time_Hour in *. lia.
    + apply filter_length_mono. intros log Hin.
      apply andb_true_iff in Hin. apply Hin.
Qed.

(** X19. A backend error reads as an empty history: whenever the backend's
    [GetAllLogs] returns an error, the statistics of every site are those of
    a store without entries (no checks, every uptime and latency figure 0,
    the current latencies still taken from the status map), and
    [GetRecentEvents] returns no events for every limit, a negative one
    included. *)
Theorem backend_error_reads_as_empty_history
    (app : AppState S) (siteID : string) (now limit : Z) (err : string) :
  snd (Config.GetAllLogs (Storage_ app)) = Some err ->
  Stats.GetAllLogs app = []
  /\ CalculateSiteStatistics app siteID now
     = CalculateSiteStatistics (withStorage app (Memory.NewMemoryStorage 0)) siteID now
  /\ SS_TotalChecks (CalculateSiteStatistics app siteID now) = 0
  /\ Uptime24h (CalculateSiteStatistics app siteID now) = 0%float
  /\ Uptime7d (CalculateSiteStatistics app siteID now) = 0%float
  /\ Uptime12m (CalculateSiteStatistics app siteID now) = 0%float
  /\ AvgLatency (CalculateSiteStatistics app siteID now) = 0%float
  /\ SuccessRate (CalculateSiteStatistics app siteID now) = 0%float
  /\ CurrentLatencyPrimary (CalculateSiteStatistics app siteID now)
     = SiteStatus app !! siteID ≫= SiteStatus.PrimaryLatency
  /\ GetRecentEvents app siteID limit = Some [].
Proof.
  intros Herr.
  assert (Hnone : Stats.GetAllLogs app = []).
  { unfold Stats.GetAllLogs. destruct (Config.GetAllLogs (Storage_ app)) as [logs e].
    simpl in Herr. subst e. reflexivity. }
  split; [exact Hnone|].
  unfold CalculateSiteStatistics, GetRecentEvents. rewrite Hnone.
  repeat split.
Qed.

End Engine.

Lemma statistics_windows_witness :
  SS_TotalChecks (CalculateSiteStatistics (H := goLib) (appWith flappingHistory)
                    "s1" (10 * 10 ^ 9)) = 3.
Proof.
  destruct (statistics_windows (H := goLib) (appWith flappingHistory) "s1" (10 * 10 ^ 9))
    as (_ & _ & _ & _ & Hcount).
  destruct Hcount as [Htotal _]; [vm_compute; discriminate|].
  rewrite Htotal. reflexivity.
Defined.

Lemma backend_error_reads_as_empty_history_witness :
  CalculateSiteStatistics (H := goLib) (Ping.sampleApp Unavailable) "s1" 0
  = CalculateSiteStatistics (H := goLib)
      (withStorage (Ping.sampleApp Unavailable) (Memory.NewMemoryStorage 0)) "s1" 0
  /\ GetRecentEvents (H := goLib) (Ping.sampleApp Unavailable) "s1" (-1) = Some [].
Proof.
  destruct (backend_error_reads_as_empty_history (H := goLib)
              (Ping.sampleApp Unavailable) "s1" 0 (-1) "failed to query ping logs")
    as (_ & Hstats & _ & _ & _ & _ & _ & _ & _ & Hevents); [reflexivity|].
  split; [exact Hstats | exact Hevents].
Defined.

(** *** The latency distribution *)


Lemma distribution_fold latencies : forall (distribution : list float) i,
  fold_left (fun distribution latency =>
               alter (fun n => (n + 1)%float) (bucketIndex latency) distribution)
            latencies distribution !! i
  = Nat.iter (bucketCount i latencies) (fun n => (n + 1)%float) <$> distribution !! i.
Proof.
  induction latencies as [|latency latencies IH]; intros distribution i.
  - simpl. destruct (distribution !! i); reflexivity.
  - simpl fold_left. rewrite IH. unfold bucketCount. simpl List.filter.
    destruct (Nat.eqb_spec (bucketIndex latency) i) as [Heq|Hne].
    + subst i. rewrite list_lookup_alter_eq. simpl length.
      destruct (distribution !! bucketIndex latency) as [count|]; [|reflexivity].
      exact (f_equal Some
               (eq_sym (Nat.iter_succ_r _ (fun n => (n + 1)%float) count))).
    + rewrite list_lookup_alter_ne by exact Hne. reflexivity.
Qed.




End AggregateFacts.

(** ** Chart buckets *)

Module ChartFacts.
Import GoInt GoIntFacts Models Stats Charts.

Lemma keepLoop_spec primaryData secondaryData (todo : list string) :
  forall i filteredLabels filteredPrimary filteredSecondary,
  let k := Nat.min (length todo)
             (Nat.max (length primaryData) (length secondaryData) - i) in
  keepLoop primaryData secondaryData i todo
    (filteredLabels, filteredPrimary, filteredSecondary)
  = (filteredLabels ++ take k todo,
     filteredPrimary ++ map (valueAt primaryData) (seq i k),
     filteredSecondary ++ map (valueAt secondaryData) (seq i k)).
Proof.
  induction todo as [|label todo IH]; intros i ls ps ss k.
  - subst k. simpl. rewrite !app_nil_r. reflexivity.
  - simpl keepLoop.
    destruct (Nat.ltb_spec i (length primaryData)) as [Hp|Hp],
             (Nat.ltb_spec i (length secondaryData)) as [Hs|Hs];
      cbn beta iota zeta delta [orb]; rewrite IH.
    1-3: replace k
           with (Datatypes.S
                   (Nat.min (length todo)
                      (Nat.max (length primaryData) (length secondaryData)
                       - Datatypes.S i)))
           by (subst k; simpl length; lia);
         simpl; rewrite <- !app_assoc; reflexivity.
    replace k with 0%nat by (subst k; simpl length; lia).
    replace (Nat.min (length todo)
               (Nat.max (length primaryData) (length secondaryData) - Datatypes.S i))
      with 0%nat by lia.
    reflexivity.
Qed.

Lemma valueAt_seq (data : list float) : forall before,
  map (valueAt (before ++ data)) (seq (length before) (length data)) = data.
Proof.
  induction data as [|v data IH]; intros before; [reflexivity|].
  simpl. f_equal.
  - unfold valueAt.
    destruct (Nat.ltb_spec (length before) (length (before ++ v :: data)))
      as [_|Hge]; [|rewrite length_app in Hge; simpl in Hge; lia].
    apply nth_middle.
  - specialize (IH (before ++ [v])).
    rewrite <- app_assoc, length_app in IH. simpl in IH.
    rewrite Nat.add_1_r in IH. exact IH.
Qed.

Lemma valueAt_seq_beyond (data : list float) start len :
  (length data <= start)%nat ->
  map (valueAt data) (seq start len) = replicate len 0%float.
Proof.
  revert start. induction len as [|len IH]; intros start Hle; [reflexivity|].
  simpl. f_equal; [|apply IH; lia].
  unfold valueAt. destruct (Nat.ltb_spec start (length data)); [lia | reflexivity].
Qed.

Lemma same_length_buckets_are_kept
    (labels : list string) (primaryData secondaryData : list float) :
  length primaryData = length labels ->
  length secondaryData = length labels ->
  filterEmptyBuckets labels primaryData secondaryData
  = {| Labels := labels; CombinedData := [];
       PrimaryData := primaryData; SecondaryData := secondaryData |}.
Proof.
  intros Hp Hs. unfold filterEmptyBuckets.
  rewrite keepLoop_spec, Nat.sub_0_r, Hp, Hs, Nat.max_id, Nat.min_id. simpl app.
  rewrite take_ge by lia.
  pose proof (valueAt_seq primaryData []) as Hpd.
  pose proof (valueAt_seq secondaryData []) as Hsd.
  simpl in Hpd, Hsd. rewrite Hp in Hpd. rewrite Hs in Hsd. rewrite Hpd, Hsd.
  destruct labels as [|label labels']; [|reflexivity].
  destruct primaryData, secondaryData; try discriminate. reflexivity.
Qed.

(** X21. [filterEmptyBuckets] keeps buckets by index, never by value: the three
    slices it returns have one length; the buckets kept are the first [k]
    labels, [k] being the number of labels that have an index into either
    data slice, with the value at that index or 0 where a slice is shorter;
    so data slices as long as the labels come back unchanged, zeros
    included. With labels but no data at all, the last label is returned
    with a 0 for each line; without labels the result is empty. *)
Theorem filterEmptyBuckets_keeps_by_index
    (labels : list string) (primaryData secondaryData : list float) :
  let result := filterEmptyBuckets labels primaryData secondaryData in
  let k := indexed labels primaryData secondaryData in
  length (PrimaryData result) = length (Labels result)
  /\ length (SecondaryData result) = length (Labels result)
  /\ CombinedData result = []
  /\ ((0 < k)%nat ->
      Labels result = take k labels
      /\ PrimaryData result = map (valueAt primaryData) (seq 0 k)
      /\ SecondaryData result = map (valueAt secondaryData) (seq 0 k))
  /\ (length primaryData = length labels ->
      length secondaryData = length labels ->
      result = {| Labels := labels; CombinedData := [];
                  PrimaryData := primaryData; SecondaryData := secondaryData |})
  /\ (k = 0%nat -> labels <> [] ->
      Labels result = [nth (length labels - 1) labels ""%string]
      /\ PrimaryData result = [0%float] /\ SecondaryData result = [0%float])
  /\ (labels = [] ->
      Labels result = [] /\ PrimaryData result = [] /\ SecondaryData result = [])
  /\ (labels <> [] -> Labels result <> []).
Proof.
  intros result k. subst result k. unfold filterEmptyBuckets.
  rewrite keepLoop_spec. rewrite Nat.sub_0_r.
  fold (indexed labels primaryData secondaryData). simpl app.
  remember (indexed labels primaryData secondaryData) as k eqn:Hkeq.
  assert (Hk : (k <= length labels)%nat) by (subst k; unfold indexed; lia).
  assert (Hlen : length (take k labels) = k) by (rewrite length_take; lia).
  rewrite Hlen.
  destruct k as [|k'].
  - (* no bucket has an index into the data *)
    assert (Hnone : labels <> [] -> primaryData = [] /\ secondaryData = []).
    { intros Hlabels. unfold indexed in Hkeq.
      destruct labels; [congruence|]. simpl in Hkeq.
      destruct primaryData, secondaryData; simpl in Hkeq; try lia. auto. }
    simpl Nat.eqb. simpl andb.
    destruct labels as [|label labels'].
    + simpl. repeat split; try reflexivity; try congruence; try lia.
      intros Hp Hs. destruct primaryData, secondaryData; try discriminate. reflexivity.
    + destruct (Hnone ltac:(discriminate)) as [-> ->].
      destruct (Nat.ltb_spec 0 (length (label :: labels'))) as [_|Hle];
        [|simpl in Hle; lia].
      cbn -[nth]. repeat split; try reflexivity; try lia; try discriminate.
  - simpl Nat.eqb. simpl andb. cbn [Labels PrimaryData SecondaryData CombinedData].
    rewrite !length_map, !length_seq, Hlen.
    split; [reflexivity|]. split; [reflexivity|]. split; [reflexivity|].
    split; [auto|]. split; [|split; [discriminate|split]].
    + intros Hp Hs.
      rewrite <- (same_length_buckets_are_kept _ _ _ Hp Hs).
      unfold filterEmptyBuckets. rewrite keepLoop_spec, Nat.sub_0_r.
      fold (indexed labels primaryData secondaryData). rewrite <- Hkeq.
      simpl app. rewrite Hlen. reflexivity.
    + intros ->. simpl in Hk. lia.
    + intros _. destruct labels; [simpl in Hk; lia | discriminate].
Qed.

Lemma filterEmptyBuckets_keeps_by_index_witness :
  Labels (filterEmptyBuckets ["a"; "b"; "c"]%string [1%float] []) = ["a"%string]
  /\ PrimaryData (filterEmptyBuckets ["a"; "b"; "c"]%string [1%float] [])
     = [1%float]
  /\ SecondaryData (filterEmptyBuckets ["a"; "b"; "c"]%string [1%float] [])
     = [0%float].
Proof.
  destruct (filterEmptyBuckets_keeps_by_index ["a"; "b"; "c"]%string [1%float] [])
    as (_ & _ & _ & Hkept & _).
  destruct Hkept as (Hlabels & Hprimary & Hsecondary); [vm_compute; lia|].
  split; [exact Hlabels|]. split; [exact Hprimary | exact Hsecondary].
Defined.

Section Hourly.
Context `{GoTime}.

Lemma lossBucket_fold allLogs siteID now (hours : list Z) :
  forall labels primaryPacketLoss secondaryPacketLoss,
  fold_left (lossBucket allLogs siteID now) hours
    (labels, primaryPacketLoss, secondaryPacketLoss)
  = (labels ++ map (fun i => fst (fst (hourLoss allLogs siteID now i))) hours,
     primaryPacketLoss ++ map (fun i => snd (fst (hourLoss allLogs siteID now i))) hours,
     secondaryPacketLoss ++ map (fun i => snd (hourLoss allLogs siteID now i)) hours).
Proof.
  induction hours as [|i hours IH]; intros ls ps ss.
  - simpl. rewrite !app_nil_r. reflexivity.
  - assert (Hstep : lossBucket allLogs siteID now (ls, ps, ss) i
                    = (ls ++ [fst (fst (hourLoss allLogs siteID now i))],
                       ps ++ [snd (fst (hourLoss allLogs siteID now i))],
                       ss ++ [snd (hourLoss allLogs siteID now i)])).
    { unfold lossBucket.
      destruct (hourLoss allLogs siteID now i) as [[label primaryLoss] secondaryLoss].
      reflexivity. }
    cbn [fold_left]. rewrite Hstep, IH. cbn [map].
    rewrite <- !app_assoc. reflexivity.
Qed.

Lemma lossStep_outside siteID start finish allLogs :
  Forall (fun log => outside siteID start finish log = true) allLogs ->
  forall acc, fold_left (lossStep siteID start finish) allLogs acc = acc.
Proof.
  induction 1 as [|log allLogs Hout _ IH]; intros acc; [reflexivity|].
  assert (Hstep : lossStep siteID start finish acc log = acc).
  { unfold lossStep. destruct acc as [[[ps pc] ss] sc]. rewrite Hout. reflexivity. }
  cbn [fold_left]. rewrite Hstep. apply IH.
Qed.

(** X22. The hourly packet-loss chart has every hour: for [hours] hours it
    returns exactly [hours] buckets (none when [hours <= 0]), oldest first,
    with the label and the two mean losses the loop computed for each; the
    call of [filterEmptyBuckets] removes nothing, and an hour into which no
    entry of the site falls is charted with 0 for both lines. *)
Theorem generatePacketLossChart_has_every_hour
    (allLogs : list PingLog.t) (siteID : string) (now hours : Z) :
  let result := generatePacketLossChart allLogs siteID now hours in
  result
  = {| Labels := map (fun i => fst (fst (hourLoss allLogs siteID now i)))
                   (countdown hours);
       CombinedData := [];
       PrimaryData := map (fun i => snd (fst (hourLoss allLogs siteID now i)))
                        (countdown hours);
       SecondaryData := map (fun i => snd (hourLoss allLogs siteID now i))
                          (countdown hours) |}
  /\ length (Labels result) = Z.to_nat hours
  /\ length (PrimaryData result) = Z.to_nat hours
  /\ length (SecondaryData result) = Z.to_nat hours
  /\ (forall i,
        Forall (fun log => outside siteID (hourStart now i)
                             (hourStart now i + time_Hour) log = true) allLogs ->
        hourLoss allLogs siteID now i
        = (time_Format (hourStart now i) "15:04", 0%float, 0%float)).
Proof.
  intros result.
  assert (Hresult :
            result
            = {| Labels := map (fun i => fst (fst (hourLoss allLogs siteID now i)))
                             (countdown hours);
                 CombinedData := [];
                 PrimaryData := map (fun i => snd (fst (hourLoss allLogs siteID now i)))
                                  (countdown hours);
                 SecondaryData := map (fun i => snd (hourLoss allLogs siteID now i))
                                    (countdown hours) |}).
  { subst result. unfold generatePacketLossChart. rewrite lossBucket_fold. simpl app.
    apply (same_length_buckets_are_kept); rewrite !length_map; reflexivity. }
  split; [exact Hresult|]. rewrite Hresult. cbn [Labels PrimaryData SecondaryData].
  unfold countdown. rewrite !length_map, length_seq.
  repeat split.
  intros i Hnone. unfold hourLoss. rewrite (lossStep_outside _ _ _ _ Hnone). reflexivity.
Qed.

End Hourly.

Lemma generatePacketLossChart_has_every_hour_witness :
  generatePacketLossChart (H := goTime) lossyHour "s1" (37000 * 10 ^ 9) 3
  = {| Labels := ["08:00"; "09:00"; "10:00"]; CombinedData := [];
       PrimaryData := [0; 0; 25]%float; SecondaryData := [0; 0; 0]%float |}.
Proof.
  destruct (generatePacketLossChart_has_every_hour (H := goTime) lossyHour "s1"
              (37000 * 10 ^ 9) 3) as [Hresult _].
  rewrite Hresult. vm_compute. reflexivity.
Defined.

(** *** The distribution chart *)

Lemma AddLog_Latencies logs : forall ts,
  Latencies (fold_left AddLog logs ts)
  = Latencies ts ++ omap Aggregate.sample logs.
Proof.
  induction logs as [|log logs IH]; intros ts; [symmetry; apply app_nil_r|].
  cbn [fold_left]. rewrite IH.
  assert (Hcons : omap Aggregate.sample (log :: logs)
                  = match Aggregate.sample log with
                    | Some latency => latency :: omap Aggregate.sample logs
                    | None => omap Aggregate.sample logs
                    end) by reflexivity.
  rewrite Hcons. unfold AddLog, Aggregate.sample. cbn [Latencies].
  destruct (PingLog.Success log); [|reflexivity].
  destruct (PingLog.Latency log); simpl; [rewrite <- app_assoc|]; reflexivity.
Qed.

Lemma distributionStep_fold siteID since allLogs : forall stats primaryStats secondaryStats,
  fold_left (distributionStep siteID since) allLogs
    (stats, primaryStats, secondaryStats)
  = (fold_left AddLog (List.filter (charted siteID since) allLogs) stats,
     fold_left AddLog
       (List.filter (fun log => charted siteID since log
                                && String.eqb (PingLog.Target log) "primary") allLogs)
       primaryStats,
     fold_left AddLog
       (List.filter (fun log => charted siteID since log
                                && String.eqb (PingLog.Target log) "secondary") allLogs)
       secondaryStats).
Proof.
  induction allLogs as [|log allLogs IH]; intros stats primaryStats secondaryStats;
    [reflexivity|].
  cbn [fold_left List.filter].
  assert (Hstep : distributionStep siteID since (stats, primaryStats, secondaryStats) log
                  = if charted siteID since log
                    then (AddLog stats log,
                          (if String.eqb (PingLog.Target log) "primary"
                           then AddLog primaryStats log else primaryStats),
                          (if String.eqb (PingLog.Target log) "secondary"
                           then AddLog secondaryStats log else secondaryStats))
                    else (stats, primaryStats, secondaryStats)).
  { unfold distributionStep, charted.
    destruct (String.eqb (PingLog.SiteID log) siteID); simpl; [|reflexivity].
    destruct (PingLog.Timestamp log <? since); simpl; [reflexivity|].
    destruct (PingLog.Success log); simpl; [|reflexivity].
    destruct (PingLog.Latency log) as [latency|].
    - rewrite bool_decide_eq_true_2 by eauto. simpl.
      destruct (String.eqb_spec (PingLog.Target log) "primary") as [Hp|Hp];
        [rewrite Hp|]; reflexivity.
    - rewrite bool_decide_eq_false_2 by (intros [? ?]; discriminate). reflexivity. }
  rewrite Hstep.
  destruct (charted siteID since log); simpl; [|apply IH].
  destruct (String.eqb (PingLog.Target log) "primary"),
    (String.eqb (PingLog.Target log) "secondary"); rewrite IH; reflexivity.
Qed.

Lemma charted_sample siteID since (f : PingLog.t -> bool) allLogs :
  omap Aggregate.sample
    (List.filter (fun log => charted siteID since log && f log) allLogs)
  = omap PingLog.Latency
      (List.filter (fun log => charted siteID since log && f log) allLogs).
Proof.
  induction allLogs as [|log allLogs IH]; [reflexivity|].
  cbn [List.filter]. destruct (charted siteID since log) eqn:Hc; simpl; [|exact IH].
  destruct (f log); [|exact IH].
  assert (Hok : PingLog.Success log = true).
  { unfold charted in Hc. rewrite !andb_true_iff in Hc. tauto. }
  change (match Aggregate.sample log with
          | Some latency =>
              latency :: omap Aggregate.sample
                (List.filter (fun log => charted siteID since log && f log) allLogs)
          | None => omap Aggregate.sample
                (List.filter (fun log => charted siteID since log && f log) allLogs)
          end
          = match PingLog.Latency log with
            | Some latency =>
                latency :: omap PingLog.Latency
                  (List.filter (fun log => charted siteID since log && f log) allLogs)
            | None => omap PingLog.Latency
                  (List.filter (fun log => charted siteID since log && f log) allLogs)
            end).
  unfold Aggregate.sample at 1. rewrite Hok, IH. reflexivity.
Qed.

Lemma distribution_lookup (ts : TimeframeStats) i :
  (i < 6)%nat ->
  GetLatencyDistribution ts !! i
  = Some (Aggregate.incremented (Aggregate.bucketCount i (Latencies ts))).
Proof.
  intros Hi. unfold GetLatencyDistribution.
  rewrite AggregateFacts.distribution_fold.
  rewrite lookup_replicate_2 by exact Hi. reflexivity.
Qed.

(** X23. The distribution chart counts samples, whatever their value: its six
    labels are fixed, and bucket [i] of the combined series is a counter
    incremented once for every successful entry of the site with a latency,
    not earlier than [since], whose latency falls into bucket [i]; the
    series of a line count those of them on that line. No other entry is
    counted, and none is left out: the entries are not validated here. *)
Theorem generateDistributionChart_counts_samples
    (allLogs : list PingLog.t) (siteID : string) (since : Z) (i : nat) :
  (i < 6)%nat ->
  let chart := generateDistributionChart allLogs siteID since in
  Labels chart = ["0-10ms"; "10-50ms"; "50-100ms"; "100-200ms"; "200-500ms"; "500ms+"]
  /\ CombinedData chart !! i
     = Some (Aggregate.incremented
               (Aggregate.bucketCount i (chartedLatencies allLogs siteID since)))
  /\ PrimaryData chart !! i
     = Some (Aggregate.incremented
               (Aggregate.bucketCount i (chartedOn "primary" allLogs siteID since)))
  /\ SecondaryData chart !! i
     = Some (Aggregate.incremented
               (Aggregate.bucketCount i (chartedOn "secondary" allLogs siteID since))).
Proof.
  intros Hi chart. subst chart. unfold generateDistributionChart.
  rewrite distributionStep_fold. cbn [Labels CombinedData PrimaryData SecondaryData].
  rewrite !(distribution_lookup _ i Hi), !AddLog_Latencies. simpl app.
  unfold chartedLatencies, chartedOn.
  rewrite !charted_sample.
  pose proof (charted_sample siteID since (fun _ => true) allLogs) as Hall.
  assert (Hsame : forall l : list PingLog.t,
            List.filter (fun log => charted siteID since log && true) l
            = List.filter (charted siteID since) l).
  { intros l. apply List.filter_ext. intros log. apply andb_true_r. }
  rewrite !Hsame in Hall. rewrite Hall.
  repeat split.
Qed.

Lemma generateDistributionChart_counts_samples_witness :
  CombinedData (generateDistributionChart negativeHistory "s1" 0) !! 0%nat
  = Some 1%float.
Proof.
  destruct (generateDistributionChart_counts_samples negativeHistory "s1" 0 0)
    as (_ & Hcombined & _); [lia|].
  rewrite Hcombined. vm_compute. reflexivity.
Defined.

End ChartFacts.

(** ** The overview *)

Module OverviewFacts.
Import GoInt GoIntFacts Models Config Stats Overview.

Lemma sitesWhere_cons f site sites :
  sitesWhere f (site :: sites) = (if f site then 1 else 0) + sitesWhere f sites.
Proof. unfold sitesWhere. simpl. destruct (f site); simpl length; lia. Qed.

Lemma sitesWhere_range f sites : 0 <= sitesWhere f sites <= Z.of_nat (length sites).
Proof.
  unfold sitesWhere. split; [lia|]. apply inj_le.
  induction sites as [|site sites IH]; simpl; [lia|]. destruct (f site); simpl; lia.
Qed.

Ltac counters :=
  apply pair_equal_spec; split; [apply pair_equal_spec; split|]; lia.

(** The loop over the sites, from any counters that leave room. *)
Lemma countSite_fold statuses sites : forall onlineSites offlineSites degradedSites,
  0 <= onlineSites -> 0 <= offlineSites -> 0 <= degradedSites ->
  onlineSites + Z.of_nat (length sites) <= maxInt64 ->
  offlineSites + Z.of_nat (length sites) <= maxInt64 ->
  degradedSites + Z.of_nat (length sites) <= maxInt64 ->
  fold_left (countSite statuses) sites (onlineSites, offlineSites, degradedSites)
  = (onlineSites + sitesWhere (isOnline statuses) sites,
     offlineSites + sitesWhere (isOffline statuses) sites,
     degradedSites + sitesWhere (isDegraded statuses) sites).
Proof.
  induction sites as [|site sites IH]; intros on off deg Hon Hoff Hdeg Hmon Hmoff Hmdeg.
  - unfold sitesWhere. simpl. rewrite !Z.add_0_r. reflexivity.
  - rewrite !sitesWhere_cons. simpl length in *. cbn [fold_left].
    assert (Hin : forall n, 0 <= n -> n + Z.of_nat (Datatypes.S (length sites)) <= maxInt64 ->
                            incr n = n + 1)
      by (intros n Hn Hm; apply wrap64_id;
          unfold in_int64, minInt64, maxInt64 in *; lia).
    set (restOnline := sitesWhere (isOnline statuses) sites) in *.
    set (restOffline := sitesWhere (isOffline statuses) sites) in *.
    set (restDegraded := sitesWhere (isDegraded statuses) sites) in *.
    assert (Hstep : countSite statuses (on, off, deg) site
                    = (on + (if isOnline statuses site then 1 else 0),
                       off + (if isOffline statuses site then 1 else 0),
                       deg + (if isDegraded statuses site then 1 else 0))).
    { unfold countSite, isOffline, isDegraded, isOnline, lineUp.
      destruct (Site.Enabled site); simpl;
        [|counters].
      destruct (statuses !! Site.ID site) as [status|]; simpl.
      - destruct (Site.IsDualLine site), (SiteStatus.PrimaryOnline status),
          (SiteStatus.SecondaryOnline status); simpl;
          rewrite ?(Hin on), ?(Hin off), ?(Hin deg) by lia;
          counters.
      - rewrite (Hin off) by lia. rewrite andb_false_r. simpl.
        counters. }
    rewrite Hstep.
    rewrite IH by (destruct (isOnline statuses site), (isOffline statuses site),
                     (isDegraded statuses site); lia).
    counters.
Qed.

Lemma online_or_offline statuses sites :
  sitesWhere (isOnline statuses) sites + sitesWhere (isOffline statuses) sites
  = sitesWhere Site.Enabled sites.
Proof.
  induction sites as [|site sites IH]; [reflexivity|].
  rewrite !sitesWhere_cons.
  set (restOnline := sitesWhere (isOnline statuses) sites) in *.
  set (restOffline := sitesWhere (isOffline statuses) sites) in *.
  unfold isOffline, isOnline.
  destruct (Site.Enabled site); simpl; [|lia].
  destruct (lineUp statuses site SiteStatus.PrimaryOnline
            || Site.IsDualLine site && lineUp statuses site SiteStatus.SecondaryOnline);
    simpl; lia.
Qed.

Lemma degraded_are_online statuses sites :
  sitesWhere (isDegraded statuses) sites <= sitesWhere (isOnline statuses) sites.
Proof.
  induction sites as [|site sites IH]; [reflexivity|].
  rewrite !sitesWhere_cons.
  set (restOnline := sitesWhere (isOnline statuses) sites) in *.
  set (restDegraded := sitesWhere (isDegraded statuses) sites) in *.
  unfold isDegraded, isOnline.
  destruct (Site.Enabled site), (Site.IsDualLine site),
    (lineUp statuses site SiteStatus.PrimaryOnline),
    (lineUp statuses site SiteStatus.SecondaryOnline); simpl; lia.
Qed.

Section Engine.
Context `{GoLib} {S : Type} `{Storage S}.

(** X24. What the overview counts: the total is the number of configured
    sites, disabled ones included; every enabled site is counted online or
    offline, never both: online when its primary line is up or, for a
    dual-line site, its secondary line is, offline otherwise and whenever it
    has no status entry; the degraded sites are the enabled dual-line sites
    with exactly one line up, and each of them is among the online ones. The
    check counter is the pipeline's, and with no stored entry (or a backend
    error) the uptime percentage is 0. *)
Theorem CalculateOverviewData_counts (app : AppState S) :
  Z.of_nat (length (Sites app)) <= maxInt64 ->
  let overview := CalculateOverviewData app in
  TotalSites overview = Z.of_nat (length (Sites app))
  /\ OnlineSites overview = sitesWhere (isOnline (SiteStatus app)) (Sites app)
  /\ OfflineSites overview = sitesWhere (isOffline (SiteStatus app)) (Sites app)
  /\ DegradedSites overview = sitesWhere (isDegraded (SiteStatus app)) (Sites app)
  /\ OnlineSites overview + OfflineSites overview = sitesWhere Site.Enabled (Sites app)
  /\ 0 <= DegradedSites overview <= OnlineSites overview
  /\ OnlineSites overview + OfflineSites overview <= TotalSites overview
  /\ OV_TotalChecks overview = Config.TotalChecks app
  /\ (Stats.GetAllLogs app = [] -> UptimePercentage overview = 0%float).
Proof.
  intros Hmax overview. subst overview. unfold CalculateOverviewData.
  rewrite countSite_fold by lia.
  cbn [TotalSites OnlineSites OfflineSites DegradedSites UptimePercentage OV_TotalChecks].
  rewrite !Z.add_0_l.
  split; [reflexivity|]. split; [reflexivity|]. split; [reflexivity|].
  split; [reflexivity|]. split; [apply online_or_offline|].
  split; [split; [apply sitesWhere_range | apply degraded_are_online]|].
  split; [rewrite online_or_offline; apply sitesWhere_range|].
  split; [reflexivity|].
  intros ->. reflexivity.
Qed.

End Engine.

Lemma CalculateOverviewData_counts_witness :
  let overview :=
    CalculateOverviewData (H := goLib)
      (fold_left Ping.UpdateSiteStatus Ping.sampleQueue (Ping.sampleApp Unavailable)) in
  (TotalSites overview, OnlineSites overview, OfflineSites overview,
   DegradedSites overview) = (2, 2, 0, 1).
Proof.
  destruct (CalculateOverviewData_counts (H := goLib)
              (fold_left Ping.UpdateSiteStatus Ping.sampleQueue
                 (Ping.sampleApp Unavailable)))
    as (Htotal & Hon & Hoff & Hdeg & _); [vm_compute; discriminate|].
  cbv zeta. rewrite Htotal, Hon, Hoff, Hdeg. vm_compute. reflexivity.
Defined.

End OverviewFacts.

(** ** Who may call *)

Module AuthFacts.
Import GoInt Auth.

Lemma permits_iff permissions permission :
  permits permissions permission = true
  <-> In permission permissions \/ In PermissionAdmin permissions.
Proof.
  induction permissions as [|p rest IH]; simpl.
  - split; [discriminate | intros [[]|[]]].
  - destruct (String.eqb_spec p permission) as [Heq|Hne].
    + split; [auto | reflexivity].
    + destruct (String.eqb_spec p PermissionAdmin) as [Hadmin|Hplain].
      * split; [auto | reflexivity].
      * rewrite IH. split.
        -- intros [Hin|Hin]; auto.
        -- intros [[Heq|Hin]|[Heq|Hin]]; try contradiction; auto.
Qed.

Section Parse.
Context `{GoParse}.

Lemma findToken_spec tokens tokenString now :
  match findToken tokens tokenString now with
  | inl token =>
      head (named tokenString tokens) = Some token
      /\ IsExpired token now = false
  | inr err =>
      (err = "invalid token"%string /\ named tokenString tokens = [])
      \/ (err = "token expired"%string
          /\ exists token, head (named tokenString tokens) = Some token
                           /\ IsExpired token now = true)
  end.
Proof.
  induction tokens as [|token tokens IH]; simpl; [left; auto|].
  unfold named in *. simpl.
  destruct (String.eqb (Token token) tokenString); [|exact IH].
  destruct (IsExpired token now) eqn:Hexpired; simpl; [right|]; eauto.
Qed.

Lemma head_named tokenString tokens token :
  head (named tokenString tokens) = Some token ->
  In token tokens /\ Token token = tokenString.
Proof.
  intros Hhead. unfold named in Hhead.
  assert (Hin : In token (List.filter
                            (fun token => String.eqb (Token token) tokenString) tokens)).
  { destruct (List.filter _ tokens); [discriminate|].
    simpl in Hhead. injection Hhead as ->. left. reflexivity. }
  apply List.filter_In in Hin. destruct Hin as [Hin Heq].
  apply String.eqb_eq in Heq. auto.
Qed.

(** X25. With authentication enabled, an API token string is accepted only as
    the first configured token that carries it, and only while that one is
    not expired: the token returned is that entry; "token expired" means the
    first entry with the string is expired, even if a later entry with the
    same string is not; "invalid token" means that no entry carries the
    string. An expiry date that does not parse counts as expired. The
    accepted token then has a permission exactly when it lists that
    permission or "admin", and no token at all has none. *)
Theorem ValidateAPIToken_accepts_the_first_live_match
    (s : Service) (cfg : AuthConfig) (tokenString permission : string) (now : Z) :
  config s = Some cfg ->
  Enabled cfg = true ->
  match ValidateAPIToken s tokenString now with
  | inl token =>
      head (named tokenString (Tokens cfg)) = Some token
      /\ In token (Tokens cfg)
      /\ Token token = tokenString
      /\ IsExpired token now = false
      /\ (ServiceHasPermission s (Some token) permission = true
          <-> In permission (Permissions token)
              \/ In PermissionAdmin (Permissions token))
  | inr err =>
      (err = "invalid token"%string /\ named tokenString (Tokens cfg) = [])
      \/ (err = "token expired"%string
          /\ exists token, head (named tokenString (Tokens cfg)) = Some token
                           /\ IsExpired token now = true)
  end
  /\ ServiceHasPermission s None permission = false
  /\ (forall token expires,
        Expires token = Some expires ->
        time_Parse "2006-01-02" expires = None ->
        IsExpired token now = true).
Proof.
  intros Hcfg Hon. unfold ValidateAPIToken, ServiceHasPermission, IsEnabled.
  rewrite Hcfg, Hon. simpl negb. cbv iota.
  split; [|split; [reflexivity|]].
  - pose proof (findToken_spec (Tokens cfg) tokenString now) as Hfind.
    destruct (findToken (Tokens cfg) tokenString now) as [token|err]; [|exact Hfind].
    destruct Hfind as [Hhead Hlive].
    destruct (head_named _ _ _ Hhead) as [Hin Hname].
    repeat split; try assumption; apply permits_iff.
  - intros token expires Hexpires Hparse. unfold IsExpired.
    rewrite Hexpires, Hparse. reflexivity.
Qed.

(** X26. With authentication off (no configuration, or [enabled: false]) every
    caller is admitted: any UI secret validates, any token string yields the
    stand-in token, which has every permission (it lists "admin"), and the
    permission check passes even without a token. With authentication on, an
    empty configured UI secret admits nobody, the empty secret included. *)
Theorem disabled_authentication_admits_everyone
    (s : Service) (secret tokenString permission : string)
    (token : option APIToken) (now : Z) :
  (IsEnabled s = false ->
   ValidateUISecret s secret = true
   /\ ValidateAPIToken s tokenString now = inl disabledToken
   /\ HasPermission disabledToken permission = true
   /\ ServiceHasPermission s token permission = true)
  /\ (IsEnabled s = true ->
      (ValidateUISecret s secret = true
       <-> exists cfg, config s = Some cfg
                       /\ Secret (UI cfg) <> ""%string
                       /\ Secret (UI cfg) = secret)).
Proof.
  unfold IsEnabled, ValidateUISecret, ValidateAPIToken, ServiceHasPermission, IsEnabled.
  destruct (config s) as [cfg|]; simpl.
  - split.
    + intros ->. simpl. repeat split. apply permits_iff. right. simpl. auto.
    + intros ->. simpl. rewrite andb_true_iff, negb_true_iff.
      split.
      * intros [Hne Heq]. exists cfg. split; [reflexivity|].
        apply String.eqb_neq in Hne. apply String.eqb_eq in Heq. auto.
      * intros (cfg' & [= <-] & Hne & Heq). split.
        -- apply String.eqb_neq. exact Hne.
        -- apply String.eqb_eq. exact Heq.
  - split; [|discriminate].
    intros _. repeat split. apply permits_iff. right. simpl. auto.
Qed.

End Parse.

Lemma ValidateAPIToken_accepts_the_first_live_match_witness :
  ValidateAPIToken (H := sampleParse) sampleService "sw_reader" (1735689600 * 10 ^ 9)
  = inr "token expired"%string
  /\ (exists token,
        ValidateAPIToken (H := sampleParse) sampleService "sw_root"
          (1735689600 * 10 ^ 9) = inl token
        /\ ServiceHasPermission sampleService (Some token) "test" = true).
Proof.
  split; [reflexivity|].
  pose proof (ValidateAPIToken_accepts_the_first_live_match (H := sampleParse)
                sampleService _ "sw_root" "test" (1735689600 * 10 ^ 9)
                eq_refl eq_refl) as [Hvalid _].
  destruct (ValidateAPIToken (H := sampleParse) sampleService "sw_root"
              (1735689600 * 10 ^ 9)) as [token|err] eqn:Hrun; [|discriminate Hrun].
  exists token. split; [reflexivity|].
  destruct Hvalid as (_ & _ & _ & _ & Hperm). apply Hperm.
  vm_compute in Hrun. injection Hrun as <-. right. left. reflexivity.
Defined.

Lemma disabled_authentication_admits_everyone_witness :
  ValidateAPIToken (H := sampleParse) (NewService None) "anything" 0
  = inl disabledToken
  /\ ValidateUISecret sampleService "" <> true.
Proof.
  destruct (disabled_authentication_admits_everyone (H := sampleParse)
              (NewService None) "" "anything" "admin" None 0) as [Hoff _].
  destruct (disabled_authentication_admits_everyone (H := sampleParse)
              sampleService "" "anything" "admin" None 0) as [_ Hon].
  split.
  - apply Hoff. reflexivity.
  - intros Hvalid. apply Hon in Hvalid; [|reflexivity].
    destruct Hvalid as (cfg & Hcfg & Hsecret & _).
    injection Hcfg as <-. apply Hsecret. reflexivity.
Defined.

End AuthFacts.

(** ** Start-up *)

Module StartupFacts.
Import GoInt GoIntFacts Models Config Stats Overview Startup OverviewFacts.

Lemma initSites_other clock sites : forall i statuses id,
  id ∉ map Site.ID sites ->
  initSites clock i sites statuses !! id = statuses !! id.
Proof.
  induction sites as [|site sites IH]; intros i statuses id Hout; [reflexivity|].
  cbn [initSites]. simpl in Hout. apply not_elem_of_cons in Hout as [Hne Hout].
  rewrite IH by exact Hout. unfold initSite. apply lookup_insert_ne. congruence.
Qed.

(** The entry of a configured identifier was written by an iteration that
    handled a site of this identifier, with the reading of that iteration. *)
Lemma initSites_written clock sites : forall i statuses id,
  id ∈ map Site.ID sites ->
  exists k site,
    sites !! k = Some site /\ Site.ID site = id
    /\ initSites clock i sites statuses !! id
       = Some (offlineEntry id (clock (i + k)%nat)).
Proof.
  induction sites as [|site sites IH]; intros i statuses id Hin.
  - simpl in Hin. apply elem_of_nil in Hin. contradiction.
  - cbn [initSites]. destruct (decide (id ∈ map Site.ID sites)) as [Hlater|Hlast].
    + destruct (IH (S i) (initSite (clock i) statuses site) id Hlater)
        as (k & site' & Hk & Hid & Hlook).
      exists (S k), site'. split; [exact Hk|]. split; [exact Hid|].
      rewrite Hlook, Nat.add_succ_r. reflexivity.
    + simpl in Hin. apply elem_of_cons in Hin as [Heq|Hin]; [|contradiction].
      exists 0%nat, site. split; [reflexivity|]. split; [symmetry; exact Heq|].
      rewrite initSites_other by exact Hlast. subst id. unfold initSite.
      rewrite lookup_insert_eq, Nat.add_0_r. reflexivity.
Qed.

(** The last iteration for an identifier decides its entry. *)
Lemma initSites_last clock sites : forall i statuses k site,
  sites !! k = Some site ->
  (forall j later, (k < j)%nat -> sites !! j = Some later ->
                   Site.ID later <> Site.ID site) ->
  initSites clock i sites statuses !! Site.ID site
  = Some (offlineEntry (Site.ID site) (clock (i + k)%nat)).
Proof.
  induction sites as [|head sites IH]; intros i statuses k site Hk Hlast;
    [discriminate|].
  cbn [initSites]. destruct k as [|k].
  - injection Hk as ->. rewrite initSites_other.
    + unfold initSite. rewrite lookup_insert_eq, Nat.add_0_r. reflexivity.
    + intros Hin. apply list_elem_of_fmap in Hin as (later & Hid & Hin).
      apply list_elem_of_lookup in Hin as [j Hj].
      apply (Hlast (S j) later); [lia | exact Hj | symmetry; exact Hid].
  - rewrite (IH (S i) _ k site Hk).
    + rewrite Nat.add_succ_r. reflexivity.
    + intros j later Hlt Hj. apply (Hlast (S j) later); [lia | exact Hj].
Qed.

Lemma sitesWhere_none f sites :
  (forall site, In site sites -> f site = false) -> sitesWhere f sites = 0.
Proof.
  intros Hnone. unfold sitesWhere.
  induction sites as [|site sites IH]; [reflexivity|].
  simpl. rewrite (Hnone site (or_introl eq_refl)). apply IH.
  intros site' Hin. apply Hnone. right. exact Hin.
Qed.

Section Engine.
Context `{GoLib} {S : Type} `{Storage S}.

(** X27. Start-up resets every configured site. The loop of
    [InitializeSiteStatus] reads the clock in every iteration; after it,
    the entry of a site shows both lines offline, no latency, no error text
    and, as last check, the reading of the last iteration that handled its
    identifier (1): for every site of the list that is the reading of some
    iteration for its identifier, whatever the entry held before (2), and
    with unique identifiers the reading of the site's own iteration (3).
    Entries of identifiers that are not in the list are kept (4); sites,
    backend and check counter are untouched. The overview then counts no
    site online and every enabled site offline. *)
Theorem InitializeSiteStatus_resets_every_site (app : AppState S)
    (clock : nat -> Z) :
  let app' := InitializeSiteStatus app clock in
  (forall i site,
     Sites app !! i = Some site ->
     (forall j later, (i < j)%nat -> Sites app !! j = Some later ->
                      Site.ID later <> Site.ID site) ->
     SiteStatus app' !! Site.ID site
     = Some (offlineEntry (Site.ID site) (clock i)))
  /\ (forall site, In site (Sites app) ->
        exists i site',
          Sites app !! i = Some site' /\ Site.ID site' = Site.ID site
          /\ SiteStatus app' !! Site.ID site
             = Some (offlineEntry (Site.ID site) (clock i)))
  /\ (NoDup (map Site.ID (Sites app)) ->
      forall i site, Sites app !! i = Some site ->
        SiteStatus app' !! Site.ID site
        = Some (offlineEntry (Site.ID site) (clock i)))
  /\ (forall id, ~ In id (map Site.ID (Sites app)) ->
        SiteStatus app' !! id = SiteStatus app !! id)
  /\ Sites app' = Sites app
  /\ Storage_ app' = Storage_ app
  /\ Config.TotalChecks app' = Config.TotalChecks app
  /\ (Z.of_nat (length (Sites app)) <= maxInt64 ->
      OnlineSites (CalculateOverviewData app') = 0
      /\ DegradedSites (CalculateOverviewData app') = 0
      /\ OfflineSites (CalculateOverviewData app')
         = sitesWhere Site.Enabled (Sites app)).
Proof.
  intros app'. subst app'.
  assert (Hlast : forall i site,
            Sites app !! i = Some site ->
            (forall j later, (i < j)%nat -> Sites app !! j = Some later ->
                             Site.ID later <> Site.ID site) ->
            SiteStatus (InitializeSiteStatus app clock) !! Site.ID site
            = Some (offlineEntry (Site.ID site) (clock i))).
  { intros i site Hi Hlater. simpl.
    exact (initSites_last clock (Sites app) 0 (SiteStatus app) i site Hi Hlater). }
  assert (Hreset : forall site, In site (Sites app) ->
            exists i site',
              Sites app !! i = Some site' /\ Site.ID site' = Site.ID site
              /\ SiteStatus (InitializeSiteStatus app clock) !! Site.ID site
                 = Some (offlineEntry (Site.ID site) (clock i))).
  { intros site Hin. simpl.
    destruct (initSites_written clock (Sites app) 0 (SiteStatus app) (Site.ID site))
      as (k & site' & Hk & Hid & Hlook).
    - apply list_elem_of_In, in_map. exact Hin.
    - exists k, site'. split; [exact Hk|]. split; [exact Hid|]. exact Hlook. }
  split; [exact Hlast|]. split; [exact Hreset|]. split.
  { intros Hnd i site Hi. apply Hlast; [exact Hi|].
    intros j later Hlt Hj Hid.
    assert (Hmi : map Site.ID (Sites app) !! i = Some (Site.ID site))
      by (rewrite list_lookup_fmap, Hi; reflexivity).
    assert (Hmj : map Site.ID (Sites app) !! j = Some (Site.ID site))
      by (rewrite list_lookup_fmap, Hj, <- Hid; reflexivity).
    pose proof (NoDup_lookup _ _ _ _ Hnd Hmi Hmj). lia. }
  split.
  { intros id Hout. simpl. apply initSites_other.
    intros Hin. apply Hout, list_elem_of_In. exact Hin. }
  split; [reflexivity|]. split; [reflexivity|]. split; [reflexivity|].
  intros Hmax. unfold CalculateOverviewData.
  set (statuses := SiteStatus (InitializeSiteStatus app clock)) in *.
  change (Sites (InitializeSiteStatus app clock)) with (Sites app).
  rewrite countSite_fold by lia.
  cbn [OnlineSites OfflineSites DegradedSites]. rewrite !Z.add_0_l.
  assert (Hon : sitesWhere (isOnline statuses) (Sites app) = 0).
  { apply sitesWhere_none. intros site Hin. unfold isOnline, lineUp.
    destruct (Hreset site Hin) as (i & site' & _ & _ & Hlook).
    rewrite Hlook. simpl. rewrite andb_false_r. apply andb_false_r. }
  assert (Hdeg : sitesWhere (isDegraded statuses) (Sites app) = 0).
  { apply sitesWhere_none. intros site Hin. unfold isDegraded, lineUp.
    destruct (Hreset site Hin) as (i & site' & _ & _ & Hlook).
    rewrite Hlook. simpl. apply andb_false_r. }
  split; [exact Hon|]. split; [exact Hdeg|].
  pose proof (online_or_offline statuses (Sites app)) as Hsum. lia.
Qed.

End Engine.

Lemma InitializeSiteStatus_resets_every_site_witness :
  let restarted :=
    InitializeSiteStatus
      (fold_left Ping.UpdateSiteStatus Ping.sampleQueue (Ping.sampleApp Unavailable))
      (fun i => 9 + Z.of_nat i) in
  SiteStatus restarted !! "s1" = Some (offlineEntry "s1" 9)
  /\ SiteStatus restarted !! "s2" = Some (offlineEntry "s2" 10)
  /\ OfflineSites (CalculateOverviewData (H := goLib) restarted) = 2.
Proof.
  destruct (InitializeSiteStatus_resets_every_site (H := goLib)
              (fold_left Ping.UpdateSiteStatus Ping.sampleQueue
                 (Ping.sampleApp Unavailable)) (fun i => 9 + Z.of_nat i))
    as (Hlast & _ & _ & _ & _ & _ & _ & Hoverview).
  assert (Hsites : Sites (fold_left Ping.UpdateSiteStatus Ping.sampleQueue
                            (Ping.sampleApp Unavailable)) = Ping.sampleSites)
    by reflexivity.
  split; [|split].
  - destruct (Ping.sampleSites !! 0%nat) as [site|] eqn:Hsite; [|discriminate].
    pose proof (Hlast 0%nat site) as Hentry. rewrite Hsites in Hentry.
    injection Hsite as <-. apply Hentry; [reflexivity|].
    intros j later Hlt Hj. destruct j as [|[|[|j]]]; [lia| |discriminate|discriminate].
    injection Hj as <-. discriminate.
  - destruct (Ping.sampleSites !! 1%nat) as [site|] eqn:Hsite; [|discriminate].
    pose proof (Hlast 1%nat site) as Hentry. rewrite Hsites in Hentry.
    injection Hsite as <-. apply Hentry; [reflexivity|].
    intros j later Hlt Hj. destruct j as [|[|[|j]]]; [lia|lia|discriminate|discriminate].
  - destruct Hoverview as (_ & _ & Hoff); [vm_compute; discriminate|].
    cbv zeta. rewrite Hoff. reflexivity.
Defined.

End StartupFacts.
